(** * A shallow embedding of the crawler of [app.py]

    The development follows the source file top to bottom: the text and URL
    helpers ([clean_text], [get_base_url], [is_valid_url]), the page extractor
    ([extract_page_data]) over a typed view of a BeautifulSoup tree, and the
    breadth-first crawl loop of [scrape_website].

    Conventions.
    - A Python [str] is a Rocq [string]; every [ascii] stands for one code
      point below 256.
    - Python integers are [Z].
    - The [visited] set is a [gset string]; the [deque] is a list whose head
      is the left end.
    - Library calls whose code is not part of [app.py] (urllib, requests, the
      HTML parser, the wall clock) are parameters of the sections below; a
      call that can raise returns a [Result]. *)

From Stdlib Require Import String Ascii ZArith List Lia Bool ConstructiveEpsilon.
From Stdlib Require Import DecimalString.
From stdpp Require Import base list strings gmap sets sorting.

Import ListNotations.
Local Open Scope string_scope.
Local Open Scope Z_scope.

(** ** Exceptions *)

(** A call either returns a value or raises an exception carrying [str(e)]. *)
Inductive Result (A : Type) : Type :=
| Ok (a : A)
| Raise (msg : string).
Arguments Ok {A} a.
Arguments Raise {A} msg.

#[global] Instance Result_bind : MBind Result := fun A B k m =>
  match m with
  | Ok a => k a
  | Raise msg => Raise msg
  end.

#[global] Instance Result_fmap : FMap Result := fun A B f m =>
  match m with
  | Ok a => Ok (f a)
  | Raise msg => Raise msg
  end.

(** [[f(x) for x in xs]] where [f] may raise: the first exception aborts the
    comprehension (or the [for] loop that appends to a list). *)
Fixpoint mapM_result {A B : Type} (f : A -> Result B) (xs : list A)
  : Result (list B) :=
  match xs with
  | [] => Ok []
  | x :: xs' =>
      y ← f x;
      ys ← mapM_result f xs';
      Ok (y :: ys)
  end.

(** ** Strings *)

Module Str.

(** [sub in s] on Python strings. *)
Fixpoint contains (sub s : string) : bool :=
  String.prefix sub s ||
  match s with
  | EmptyString => false
  | String _ s' => contains sub s'
  end.

(** [str.isspace] on one code point below 256: the characters matched by
    [\s] in a [str] pattern and removed by [str.strip()]. *)
Definition isspace (c : ascii) : bool :=
  let n := N_of_ascii c in
  ((9 <=? n) && (n <=? 13))%N || ((28 <=? n) && (n <=? 32))%N
  || (n =? 133)%N || (n =? 160)%N.

(** [re.sub(r'\s+', ' ', s)]: every maximal run of whitespace becomes one
    space.  [in_run] tells that the previous character was whitespace. *)
Fixpoint sub_spaces (in_run : bool) (s : string) : string :=
  match s with
  | EmptyString => EmptyString
  | String c s' =>
      if isspace c
      then if in_run then sub_spaces true s'
           else String " " (sub_spaces true s')
      else String c (sub_spaces false s')
  end.

Fixpoint lstrip (s : string) : string :=
  match s with
  | EmptyString => EmptyString
  | String c s' => if isspace c then lstrip s' else s
  end.

Fixpoint rstrip (s : string) : string :=
  match s with
  | EmptyString => EmptyString
  | String c s' =>
      match rstrip s' with
      | EmptyString => if isspace c then EmptyString else String c EmptyString
      | r => String c r
      end
  end.

Definition strip (s : string) : string := rstrip (lstrip s).

(** [sep.join(parts)]. *)
Definition join (sep : string) (parts : list string) : string :=
  String.concat sep parts.

End Str.

(** [clean_text(text)]; [None] and the empty string are both falsy. *)
Definition clean_text (text : option string) : string :=
  match text with
  | None => ""
  | Some "" => ""
  | Some t => Str.strip (Str.sub_spaces false t)
  end.

(** ** The parsed document

    What [BeautifulSoup(text, 'html.parser')] hands to the extractor: a tree
    of tags, text nodes and comments.  [Comment] stands for every string
    node that [get_text] leaves out (comments, declarations, the text of
    scripts and style sheets).  The attributes of a tag are a dictionary; it
    is kept as an association list with distinct keys, read by [Tag_get]. *)

#[local] Set Warnings "-register-all".

Inductive PageElement : Type :=
| NavigableString (s : string)
| Comment (s : string)
| Tag (name : string) (attrs : list (string * string))
      (contents : list PageElement).

(** [tag.descendants]: every node below [e], in document order. *)
Fixpoint descendants (e : PageElement) : list PageElement :=
  match e with
  | Tag _ _ contents => flat_map (fun c => c :: descendants c) contents
  | _ => []
  end.

(** [tag.get(key)]; [None] when the attribute is absent. *)
Fixpoint assoc_get (key : string) (attrs : list (string * string))
  : option string :=
  match attrs with
  | [] => None
  | (k, v) :: attrs' => if String.eqb k key then Some v else assoc_get key attrs'
  end.

Definition Tag_get (e : PageElement) (key : string) : option string :=
  match e with
  | Tag _ attrs _ => assoc_get key attrs
  | _ => None
  end.

Definition is_tag_named (name : string) (e : PageElement) : bool :=
  match e with
  | Tag n _ _ => String.eqb n name
  | _ => false
  end.

(** [soup.find_all(name)] and [soup.find(name)]. *)
Definition find_all (name : string) (soup : PageElement) : list PageElement :=
  List.filter (is_tag_named name) (descendants soup).

(** [soup.find_all(name, href=True)]: the attribute must be present. *)
Definition find_all_having (name attr : string) (soup : PageElement)
  : list PageElement :=
  List.filter (fun e => match Tag_get e attr with
                        | Some _ => true
                        | None => false
                        end)
              (find_all name soup).

(** [soup.find(name, attrs={attr: value})]: first match in document order. *)
Definition find_attr (name attr value : string) (soup : PageElement)
  : option PageElement :=
  List.find (fun e => match Tag_get e attr with
                      | Some v => String.eqb v value
                      | None => false
                      end)
            (find_all name soup).

(** [tag.string]: the single text child, looked for through single-child
    tags; [None] otherwise. *)
Fixpoint dot_string (e : PageElement) : option string :=
  match e with
  | NavigableString s => Some s
  | Comment s => Some s
  | Tag _ _ [c] => dot_string c
  | Tag _ _ _ => None
  end.

Definition Tag_string (e : PageElement) : option string :=
  match e with
  | Tag _ _ _ => dot_string e
  | _ => None
  end.

(** [tag.get_text()]: the text nodes below the tag, concatenated; comments
    are left out. *)
Definition text_of (e : PageElement) : option string :=
  match e with
  | NavigableString s => Some s
  | _ => None
  end.

Definition get_text (e : PageElement) : string :=
  Str.join "" (omap text_of (descendants e)).

(** ** The page extractor *)

(** One entry of [page_data['links']]. *)
Record Link : Type := mkLink {
  link_url : string;
  link_text : string;
  link_is_internal : bool
}.

(** The dictionary returned by [extract_page_data], one field per key. *)
Record PageRecord : Type := mkPageRecord {
  pr_url : string;
  pr_title : string;
  pr_meta_description : string;
  pr_headings : list (string * list string);
  pr_num_links : Z;
  pr_num_images : Z;
  pr_main_text : string;
  pr_links : list Link;
  pr_images : list string;
  pr_timestamp : string
}.

(** The record with its [timestamp] key set to [t]. *)
Definition set_timestamp (t : string) (r : PageRecord) : PageRecord :=
  {| pr_url := pr_url r;
     pr_title := pr_title r;
     pr_meta_description := pr_meta_description r;
     pr_headings := pr_headings r;
     pr_num_links := pr_num_links r;
     pr_num_images := pr_num_images r;
     pr_main_text := pr_main_text r;
     pr_links := pr_links r;
     pr_images := pr_images r;
     pr_timestamp := t |}.

(** [len(xs)]. *)
Definition len {A : Type} (xs : list A) : Z := Z.of_nat (length xs).

(** [f'h{i}'] for the levels the extractor uses. *)
Definition heading_key (i : nat) : string :=
  String "h" (String (ascii_of_nat (48 + i)) EmptyString).

Section Extractor.

(** [urllib.parse.urljoin(base, url)]; it raises [ValueError] on some
    malformed network locations. *)
Variable urljoin : string -> string -> Result string.

(** The body of the [for a in soup.find_all('a', href=True)] loop. *)
Definition extract_link (base_url : string) (a : PageElement) : Result Link :=
  let href := default "" (Tag_get a "href") in
  full_url ← urljoin base_url href;
  let is_internal := Str.contains base_url full_url in
  Ok {| link_url := full_url;
        link_text := clean_text (Some (get_text a));
        link_is_internal := is_internal |}.

(** [extract_page_data(url, soup, base_url)].  [now] is the value of
    [datetime.now().strftime(...)] read when the record is built. *)
Definition extract_page_data (url : string) (soup : PageElement)
    (base_url : string) (now : string) : Result PageRecord :=
  let title :=
    match List.head (find_all "title" soup) with
    | Some t => Tag_string t
    | None => Some "No title found"
    end in
  let meta_tag :=
    match find_attr "meta" "name" "description" soup with
    | Some m => Some m
    | None => find_attr "meta" "property" "og:description" soup
    end in
  let meta_desc :=
    match meta_tag with
    | Some m => default "" (Tag_get m "content")
    | None => ""
    end in
  let headings :=
    List.map (fun i => (heading_key i,
                        List.map (fun h => clean_text (Some (get_text h)))
                                 (find_all (heading_key i) soup)))
             (seq 1 6) in
  links ← mapM_result (extract_link base_url) (find_all_having "a" "href" soup);
  let images :=
    List.map (fun img => default "" (Tag_get img "src")) (find_all "img" soup) in
  let paragraphs :=
    List.map (fun p => clean_text (Some (get_text p))) (find_all "p" soup) in
  let main_text := Str.join " " paragraphs in
  Ok {| pr_url := url;
        pr_title := clean_text title;
        pr_meta_description := clean_text (Some meta_desc);
        pr_headings := headings;
        pr_num_links := len links;
        pr_num_images := len images;
        pr_main_text := main_text;
        pr_links := links;
        pr_images := images;
        pr_timestamp := now |}.

End Extractor.

(** ** The crawl engine *)

(** The fields of [urllib.parse.urlparse(url)]. *)
Record ParseResult : Type := mkParseResult {
  scheme : string;
  netloc : string;
  path : string;
  params : string;
  query : string;
  fragment : string
}.

(** What the loop reads of a [requests.Response]. *)
Record Response : Type := mkResponse {
  status_code : Z;
  content_type : option string;
  text : string
}.

(** [response.raise_for_status()]: client and server errors raise. *)
Definition raise_for_status (r : Response) : Result unit :=
  if (400 <=? status_code r) && (status_code r <? 600)
  then Raise "HTTPError" else Ok tt.

(** What became of one request of the loop. *)
Inductive Outcome : Type :=
| Extracted (page_data : PageRecord)
| NotHtml
| Failed (msg : string).

(** One entry of the request log: the pair taken from the queue and what the
    [try] block made of it. *)
Record Event : Type := mkEvent {
  ev_url : string;
  ev_depth : Z;
  ev_outcome : Outcome
}.

(** The variables of the [while] loop.  [log] is not a variable of the
    program: it records the requests issued so far, oldest first.  The loop
    never branches on it; its length is the time at which the network and
    the clock are read next. *)
Record CrawlState : Type := mkCrawlState {
  to_visit : list (string * Z);
  visited : gset string;
  results : list PageRecord;
  log : list Event
}.

(** The dictionary returned by [scrape_website]; a key that a branch does not
    set is [None]. *)
Record CrawlResult : Type := mkCrawlResult {
  success : bool;
  error : option string;
  data : list PageRecord;
  total_pages : option Z;
  timestamp : option string
}.

Definition page_of (o : Outcome) : option PageRecord :=
  match o with
  | Extracted p => Some p
  | _ => None
  end.

(** The pages of the log with the depth at which each was taken from the
    queue, and the URLs whose page was extracted. *)
Definition recorded (l : list Event) : list (PageRecord * Z) :=
  omap (fun e => (fun p => (p, ev_depth e)) <$> page_of (ev_outcome e)) l.

Definition extracted_urls (l : list Event) : list string :=
  omap (fun e => (fun _ => ev_url e) <$> page_of (ev_outcome e)) l.

(** *** Invariants of the loop *)

(** The program variables [results] and [visited] are determined by the log,
    no page is extracted twice for one URL, a request is never made for a URL
    whose page was extracted before, and every request is made at a depth
    within the bound. *)
Definition log_inv (max_depth : Z) (st : CrawlState) : Prop :=
  results st = List.map fst (recorded (log st))
  /\ List.map pr_url (results st) = extracted_urls (log st)
  /\ visited st = list_to_set (extracted_urls (log st))
  /\ NoDup (extracted_urls (log st))
  /\ (forall (j : nat) (e : Event),
        log st !! j = Some e ->
        ev_url e ∉ extracted_urls (take j (log st)))
  /\ Forall (fun e => ev_depth e <= max_depth) (log st).


(** Every entry of the queue has a depth between 0 and [max_depth]. *)
Definition frontier_inv (max_depth : Z) (st : CrawlState) : Prop :=
  Forall (fun q : string * Z => 0 <= snd q <= max_depth) (to_visit st).

Section Crawler.

(** [urllib.parse.urlparse] and [urljoin]. *)
Variable urlparse : string -> Result ParseResult.
Variable urljoin : string -> string -> Result string.

(** [requests.get(url, headers=headers, timeout=10)] issued after [t] earlier
    requests; connection errors and timeouts raise. *)
Variable requests_get : nat -> string -> Result Response.

(** [BeautifulSoup(text, 'html.parser')]. *)
Variable BeautifulSoup : string -> PageElement.

(** [datetime.now().strftime("%Y-%m-%d %H:%M:%S")] at instant [t].  The
    instants of one call are numbered as the program runs: the page answering
    request number [t] (counted from 0) is extracted at instant [S t], and
    the statements after the loop run at the instant after that of the last
    request. *)
Variable now : nat -> string.

Definition is_valid_url (url : string) : bool :=
  match urlparse url with
  | Ok result =>
      negb (String.eqb (scheme result) "") && negb (String.eqb (netloc result) "")
  | Raise _ => false
  end.

Definition get_base_url (url : string) : Result string :=
  parsed ← urlparse url;
  Ok (scheme parsed ++ "://" ++ netloc parsed).

Section Loop.

Variables (base_url : string) (max_depth max_pages : Z).

(** The [try] block up to [results.append]: [Ok None] is the [continue] on a
    response that is not HTML, [Raise] any exception of the block. *)
Definition fetch_page (t : nat) (current_url : string)
  : Result (option PageRecord) :=
  response ← requests_get t current_url;
  _ ← raise_for_status response;
  if negb (Str.contains "text/html" (default "" (content_type response)))
  then Ok None
  else
    let soup := BeautifulSoup (text response) in
    page_data ← extract_page_data urljoin current_url soup base_url (now (S t));
    Ok (Some page_data).

(** The links appended to the queue after a page at [depth]. *)
Definition new_links (vis : gset string) (depth : Z) (page_data : PageRecord)
  : list (string * Z) :=
  if depth <? max_depth
  then List.map (fun link => (link_url link, depth + 1))
         (List.filter
            (fun link => link_is_internal link
                         && negb (bool_decide (link_url link ∈ vis)))
            (pr_links page_data))
  else [].

(** [while to_visit and len(results) < max_pages]. *)
Definition loop_cond (st : CrawlState) : bool :=
  match to_visit st with
  | [] => false
  | _ :: _ => len (results st) <? max_pages
  end.

(** One turn of the loop. *)
Definition loop_body (st : CrawlState) : CrawlState :=
  match to_visit st with
  | [] => st
  | (current_url, depth) :: rest =>
      if bool_decide (current_url ∈ visited st) || (depth >? max_depth)
      then {| to_visit := rest; visited := visited st;
              results := results st; log := log st |}
      else
        match fetch_page (length (log st)) current_url with
        | Ok (Some page_data) =>
            {| to_visit := rest ++ new_links (visited st) depth page_data;
               visited := {[current_url]} ∪ visited st;
               results := results st ++ [page_data];
               log := log st ++ [mkEvent current_url depth (Extracted page_data)] |}
        | Ok None =>
            {| to_visit := rest; visited := visited st;
               results := results st;
               log := log st ++ [mkEvent current_url depth NotHtml] |}
        | Raise msg =>
            {| to_visit := rest; visited := visited st;
               results := results st;
               log := log st ++ [mkEvent current_url depth (Failed msg)] |}
        end
  end.

(** The three ways a turn can go, as a relation between the state before
    and the state after: the pair taken from the queue is skipped, its page
    is extracted, or the [try] block ends without a page. *)
Inductive turn : CrawlState -> CrawlState -> Prop :=
| turn_skip (u : string) (d : Z) rest vis res l :
    u ∈ vis \/ max_depth < d ->
    turn (mkCrawlState ((u, d) :: rest) vis res l)
         (mkCrawlState rest vis res l)
| turn_page (u : string) (d : Z) rest vis res l p :
    u ∉ vis -> d <= max_depth ->
    fetch_page (length l) u = Ok (Some p) ->
    turn (mkCrawlState ((u, d) :: rest) vis res l)
         (mkCrawlState (rest ++ new_links vis d p) ({[u]} ∪ vis)
                       (res ++ [p]) (l ++ [mkEvent u d (Extracted p)]))
| turn_no_page (u : string) (d : Z) rest vis res l o :
    u ∉ vis -> d <= max_depth ->
    page_of o = None ->
    turn (mkCrawlState ((u, d) :: rest) vis res l)
         (mkCrawlState rest vis res (l ++ [mkEvent u d o])).

(** Every page of [results] was extracted from the response to a request of
    the loop, with the base origin of the crawl. *)
Definition pages_inv (st : CrawlState) : Prop :=
  Forall (fun p => exists t u, fetch_page t u = Ok (Some p)) (results st).

(** The loop run for at most [fuel] turns; [None] when the fuel runs out
    before the condition becomes false. *)
Fixpoint while (fuel : nat) (st : CrawlState) : option CrawlState :=
  if loop_cond st
  then match fuel with
       | O => None
       | S fuel' => while fuel' (loop_body st)
       end
  else Some st.

(** The state after [n] turns. *)
Fixpoint iterate (n : nat) (st : CrawlState) : CrawlState :=
  match n with
  | O => st
  | S n' => if loop_cond st then iterate n' (loop_body st) else st
  end.

End Loop.

(** [visited = set()], [to_visit = deque([(url, 0)])], [results = []]. *)
Definition init (url : string) : CrawlState :=
  {| to_visit := [(url, 0)]; visited := ∅; results := []; log := [] |}.

(** The two [return] statements after the loop and the one of the outer
    [except]. *)
Definition failure (msg : string) : CrawlResult :=
  {| success := false; error := Some msg; data := [];
     total_pages := None; timestamp := None |}.

Definition finish (st : CrawlState) : CrawlResult :=
  match results st with
  | [] => failure "No pages could be crawled"
  | _ :: _ =>
      {| success := true; error := None; data := results st;
         total_pages := Some (len (results st));
         timestamp := Some (now (S (length (log st)))) |}
  end.

(** [scrape_website(url, max_depth, max_pages)] with the loop given [fuel]
    turns. *)
Definition scrape_website_fuel (fuel : nat) (url : string)
    (max_depth max_pages : Z) : option CrawlResult :=
  match get_base_url url with
  | Raise msg => Some (failure msg)
  | Ok base_url => finish <$> while base_url max_depth max_pages fuel (init url)
  end.

End Crawler.

(** ** Termination of the loop

    Every turn either appends a page to [results], which the loop condition
    allows fewer than [max_pages] times, or leaves [results] alone and
    shortens the queue by one.  The loop therefore ends, and its final state
    is a function of the initial one. *)

Section Termination.

Context (urljoin : string -> string -> Result string)
        (requests_get : nat -> string -> Result Response)
        (BeautifulSoup : string -> PageElement)
        (now : nat -> string)
        (base_url : string) (max_depth max_pages : Z).

Local Abbreviation cond := (loop_cond max_pages).
Local Abbreviation body :=
  (loop_body urljoin requests_get BeautifulSoup now base_url max_depth).
Local Abbreviation run :=
  (while urljoin requests_get BeautifulSoup now base_url max_depth max_pages).

Lemma len_app {A : Type} (xs ys : list A) : len (xs ++ ys) = len xs + len ys.
Proof. unfold len. rewrite length_app. lia. Qed.

(** A turn that does not append a page pops one entry and keeps [results];
    one that does appends exactly one page. *)
Lemma loop_body_measure (st : CrawlState) :
  to_visit st <> [] ->
  (results (body st) = results st
   /\ S (length (to_visit (body st))) = length (to_visit st))
  \/ (exists p : PageRecord, results (body st) = (results st ++ [p])%list).
Proof.
  intros Hq. unfold loop_body.
  destruct (to_visit st) as [|[u d] rest]; [congruence|].
  destruct (bool_decide (u ∈ visited st) || (d >? max_depth)); [left; auto|].
  destruct (fetch_page _ _ _ _ _ _ _) as [[p|]|msg]; simpl; eauto.
Qed.

Lemma while_terminates_measure (n : nat) :
  forall (m : nat) (st : CrawlState),
    (Z.to_nat (max_pages - len (results st)) <= n)%nat ->
    (length (to_visit st) <= m)%nat ->
    exists fuel st', run fuel st = Some st'.
Proof.
  induction n as [|n IHn]; intros m; induction m as [|m IHm];
    intros st Hn Hm.
  all: destruct (cond st) eqn:Hc;
    [|exists O, st; simpl; rewrite Hc; reflexivity].
  all: assert (Hq : to_visit st <> [] /\ len (results st) < max_pages)
    by (unfold loop_cond in Hc; destruct (to_visit st);
        [discriminate | split; [discriminate | lia]]).
  all: destruct Hq as [Hq Hlt]; try lia.
  - destruct (to_visit st); [congruence | simpl in Hm; lia].
  - destruct (loop_body_measure st Hq) as [[Hr Hl]|[p Hr]].
    + destruct (IHm (body st)) as (fuel & st' & Hrun);
        [rewrite Hr; lia | lia |].
      exists (S fuel), st'. simpl. rewrite Hc. exact Hrun.
    + destruct (IHn (length (to_visit (body st))) (body st))
        as (fuel & st' & Hrun);
        [rewrite Hr, len_app; unfold len at 2; simpl; lia | lia |].
      exists (S fuel), st'. simpl. rewrite Hc. exact Hrun.
Qed.

Lemma while_terminates (st : CrawlState) :
  exists fuel, is_Some (run fuel st).
Proof.
  destruct (while_terminates_measure
              (Z.to_nat (max_pages - len (results st)))
              (length (to_visit st)) st) as (fuel & st' & H); [lia | lia |].
  exists fuel. rewrite H. eauto.
Qed.

End Termination.

(** ** The crawl as a total function *)

Section Crawl.

Context (urlparse : string -> Result ParseResult)
        (urljoin : string -> string -> Result string)
        (requests_get : nat -> string -> Result Response)
        (BeautifulSoup : string -> PageElement)
        (now : nat -> string).

(** The state in which the [while] loop ends: the loop is run with the least
    fuel that lets it finish. *)
Definition crawl_loop (base_url : string) (max_depth max_pages : Z)
    (st : CrawlState) : CrawlState :=
  let run := while urljoin requests_get BeautifulSoup now
                   base_url max_depth max_pages in
  let enough :=
    constructive_indefinite_ground_description_nat
      (fun fuel => is_Some (run fuel st))
      (fun fuel => is_Some_dec (run fuel st))
      (while_terminates urljoin requests_get BeautifulSoup now
                        base_url max_depth max_pages st) in
  default st (run (proj1_sig enough) st).

(** [scrape_website(url, max_depth, max_pages)]. *)
Definition scrape_website (url : string) (max_depth max_pages : Z)
  : CrawlResult :=
  match get_base_url urlparse url with
  | Raise msg => failure msg
  | Ok base_url => finish now (crawl_loop base_url max_depth max_pages (init url))
  end.

(** The requests that [scrape_website] issues, oldest first. *)
Definition crawl_log (url : string) (max_depth max_pages : Z) : list Event :=
  match get_base_url urlparse url with
  | Raise _ => []
  | Ok base_url => log (crawl_loop base_url max_depth max_pages (init url))
  end.

End Crawl.

(** ** A model of [urllib.parse]

    The sections above take [urlparse] and [urljoin] as parameters.  To
    evaluate the extractor and the crawl on concrete pages, this module
    models the two calls after CPython 3.11's [urllib/parse.py], for URLs of
    code points below 128.  The checks of bracketed hosts are reduced to the
    test for an unmatched bracket. *)

Module Urllib.

Definition char_in (c : ascii) (s : string) : bool :=
  existsb (Ascii.eqb c) (list_ascii_of_string s).

Definition is_alpha (c : ascii) : bool :=
  let n := N_of_ascii c in
  ((65 <=? n) && (n <=? 90))%N || ((97 <=? n) && (n <=? 122))%N.

Definition is_digit (c : ascii) : bool :=
  let n := N_of_ascii c in ((48 <=? n) && (n <=? 57))%N.

Definition scheme_char (c : ascii) : bool :=
  is_alpha c || is_digit c || char_in c "+-.".

Definition lower_char (c : ascii) : ascii :=
  let n := N_of_ascii c in
  if ((65 <=? n) && (n <=? 90))%N then ascii_of_N (n + 32) else c.

Fixpoint lower (s : string) : string :=
  match s with
  | EmptyString => EmptyString
  | String c s' => String (lower_char c) (lower s')
  end.

Fixpoint forallb_str (f : ascii -> bool) (s : string) : bool :=
  match s with
  | EmptyString => true
  | String c s' => f c && forallb_str f s'
  end.

Fixpoint remove_chars (f : ascii -> bool) (s : string) : string :=
  match s with
  | EmptyString => EmptyString
  | String c s' => if f c then remove_chars f s' else String c (remove_chars f s')
  end.

Fixpoint lstrip_chars (f : ascii -> bool) (s : string) : string :=
  match s with
  | EmptyString => EmptyString
  | String c s' => if f c then lstrip_chars f s' else s
  end.

Fixpoint rstrip_chars (f : ascii -> bool) (s : string) : string :=
  match s with
  | EmptyString => EmptyString
  | String c s' =>
      match rstrip_chars f s' with
      | EmptyString => if f c then EmptyString else String c EmptyString
      | r => String c r
      end
  end.

(** [s.split(c)]. *)
Fixpoint split (c : ascii) (s : string) : list string :=
  match s with
  | EmptyString => [EmptyString]
  | String a s' =>
      if Ascii.eqb a c then EmptyString :: split c s'
      else match split c s' with
           | h :: t => String a h :: t
           | [] => [String a EmptyString]
           end
  end.

(** [s.split(c, 1)] when [c] occurs in [s]; [None] when it does not. *)
Fixpoint cut (c : ascii) (s : string) : option (string * string) :=
  match s with
  | EmptyString => None
  | String a s' =>
      if Ascii.eqb a c then Some (EmptyString, s')
      else match cut c s' with
           | Some (h, t) => Some (String a h, t)
           | None => None
           end
  end.

(** [_splitnetloc(url, 2)] on the text after the two slashes. *)
Fixpoint splitnetloc (s : string) : string * string :=
  match s with
  | EmptyString => (EmptyString, EmptyString)
  | String a s' =>
      if char_in a "/?#" then (EmptyString, s)
      else let (n, rest) := splitnetloc s' in (String a n, rest)
  end.

Definition uses_relative : list string :=
  [""; "ftp"; "http"; "gopher"; "nntp"; "imap"; "wais"; "file"; "https";
   "shttp"; "mms"; "prospero"; "rtsp"; "rtspu"; "sftp"; "svn"; "svn+ssh";
   "ws"; "wss"].

Definition uses_netloc : list string :=
  [""; "ftp"; "http"; "gopher"; "nntp"; "telnet"; "imap"; "wais"; "file";
   "mms"; "https"; "shttp"; "snews"; "prospero"; "rtsp"; "rtspu"; "rsync";
   "svn"; "svn+ssh"; "sftp"; "nfs"; "git"; "git+ssh"; "ws"; "wss"].

Definition uses_params : list string :=
  [""; "ftp"; "hdl"; "prospero"; "http"; "imap"; "https"; "shttp"; "rtsp";
   "rtspu"; "sip"; "sips"; "mms"; "sftp"; "tel"].

Definition str_in_list (s : string) (l : list string) : bool :=
  existsb (String.eqb s) l.

Definition nonempty (s : string) : bool := negb (String.eqb s "").

(** The scheme of [url] and the text after its colon, when [url] starts
    with one. *)
Definition split_scheme (url : string) : option (string * string) :=
  match cut ":" url with
  | Some (String c pre, rest) =>
      if is_alpha c && forallb_str scheme_char (String c pre)
      then Some (lower (String c pre), rest)
      else None
  | _ => None
  end.

(** [urlsplit(url, scheme)]: scheme, netloc, path, query, fragment. *)
Definition urlsplit (url default_scheme : string)
  : Result (string * string * string * string * string) :=
  let c0_or_space c := (N_of_ascii c <=? 32)%N in
  let unsafe c := char_in c (String "009" (String "010" (String "013" ""))) in
  let url := remove_chars unsafe (lstrip_chars c0_or_space url) in
  let default_scheme :=
    remove_chars unsafe
      (rstrip_chars c0_or_space (lstrip_chars c0_or_space default_scheme)) in
  let (sch, url) :=
    match split_scheme url with
    | Some (s, rest) => (s, rest)
    | None => (default_scheme, url)
    end in
  let (nl, url) :=
    match url with
    | String "/" (String "/" rest) => splitnetloc rest
    | _ => (EmptyString, url)
    end in
  if xorb (char_in "[" nl) (char_in "]" nl) then Raise "Invalid IPv6 URL"
  else
    let (url, frag) :=
      match cut "#" url with
      | Some (u, f) => (u, f)
      | None => (url, EmptyString)
      end in
    let (url, qry) :=
      match cut "?" url with
      | Some (u, q) => (u, q)
      | None => (url, EmptyString)
      end in
    Ok (sch, nl, url, qry, frag).

(** [_splitparams(url)]: the parameters of the last path segment. *)
Definition splitparams (url : string) : string * string :=
  let segs := split "/" url in
  match cut ";" (List.last segs EmptyString) with
  | Some (seg, par) =>
      (Str.join "/" (List.removelast segs ++ [seg])%list, par)
  | None => (url, EmptyString)
  end.

(** [urlparse(url, scheme)]. *)
Definition urlparse_with (url default_scheme : string) : Result ParseResult :=
  '(sch, nl, url, qry, frag) ← urlsplit url default_scheme;
  let (url, par) :=
    if str_in_list sch uses_params && char_in ";" url
    then splitparams url else (url, EmptyString) in
  Ok (mkParseResult sch nl url par qry frag).

Definition urlparse (url : string) : Result ParseResult :=
  urlparse_with url "".

(** [urlunparse(components)]. *)
Definition urlunparse (p : ParseResult) : string :=
  let url := if nonempty (params p) then path p ++ ";" ++ params p else path p in
  let url :=
    if nonempty (netloc p)
       || (nonempty (scheme p) && str_in_list (scheme p) uses_netloc
           && negb (String.prefix "//" url))
    then "//" ++ netloc p
         ++ (if nonempty url && negb (String.prefix "/" url)
             then "/" ++ url else url)
    else url in
  let url := if nonempty (scheme p) then scheme p ++ ":" ++ url else url in
  let url := if nonempty (query p) then url ++ "?" ++ query p else url in
  if nonempty (fragment p) then url ++ "#" ++ fragment p else url.

(** [segments[1:-1] = filter(None, segments[1:-1])]. *)
Definition filter_inner (segments : list string) : list string :=
  match segments with
  | first :: (_ :: _) as rest =>
      (first :: List.filter nonempty (List.removelast rest)
         ++ [List.last rest EmptyString])%list
  | _ => segments
  end.

(** The loop of [urljoin] that removes dot segments; [resolved] is kept in
    reverse. *)
Fixpoint resolve (segments resolved : list string) : list string :=
  match segments with
  | [] => List.rev resolved
  | seg :: segments' =>
      if String.eqb seg ".." then resolve segments' (List.tl resolved)
      else if String.eqb seg "." then resolve segments' resolved
      else resolve segments' (seg :: resolved)
  end.

(** [urljoin(base, url)]. *)
Definition urljoin (base url : string) : Result string :=
  if negb (nonempty base) then Ok url
  else if negb (nonempty url) then Ok base
  else
    b ← urlparse_with base "";
    u ← urlparse_with url (scheme b);
    if negb (String.eqb (scheme u) (scheme b))
       || negb (str_in_list (scheme u) uses_relative)
    then Ok url
    else if str_in_list (scheme u) uses_netloc && nonempty (netloc u)
    then Ok (urlunparse u)
    else
      let nl := if str_in_list (scheme u) uses_netloc
                then netloc b else netloc u in
      if negb (nonempty (path u)) && negb (nonempty (params u))
      then Ok (urlunparse
                 (mkParseResult (scheme u) nl (path b) (params b)
                    (if nonempty (query u) then query u else query b)
                    (fragment u)))
      else
        let base_parts := split "/" (path b) in
        let base_parts :=
          if nonempty (List.last base_parts EmptyString)
          then List.removelast base_parts else base_parts in
        let segments :=
          if String.prefix "/" (path u) then split "/" (path u)
          else filter_inner (base_parts ++ split "/" (path u)) in
        let resolved := resolve segments [] in
        let resolved :=
          if str_in_list (List.last segments EmptyString) ["."; ".."]
          then (resolved ++ [EmptyString])%list else resolved in
        let joined := Str.join "/" resolved in
        Ok (urlunparse
              (mkParseResult (scheme u) nl
                 (if nonempty joined then joined else "/")
                 (params u) (query u) (fragment u))).

End Urllib.

(** ** A small site

    Pages under [https://ex.com], used to run the extractor and the crawl on
    concrete inputs.  The home page links twice to [/b], whose request
    always fails, and once to [/c]; [/c] links to [/d]; [/d] links back home
    and to another host.  Every other URL answers 404. *)

Module Site.

Definition origin : string := "https://ex.com".
Definition seed : string := "https://ex.com/".

Definition document (contents : list PageElement) : PageElement :=
  Tag "[document]" [] contents.

Definition anchor (href label : string) : PageElement :=
  Tag "a" [("href", href)] [NavigableString label].

Definition home_html : string :=
  "<title>Home</title><h2>News</h2><h2>More</h2><a href='/b'>b</a><a href='/b'>b again</a><a href='/c'>c</a><img src='logo.png'><img>".

Definition home_soup : PageElement :=
  document
    [Tag "title" [] [NavigableString "Home"];
     Tag "h2" [] [NavigableString "News"];
     Tag "h2" [] [NavigableString "More"];
     anchor "/b" "b"; anchor "/b" "b again"; anchor "/c" "c";
     Tag "img" [("src", "logo.png")] []; Tag "img" [] []].

Definition c_html : string := "<p>leaf  page</p><a href='/d'>d</a>".

Definition c_soup : PageElement :=
  document [Tag "p" [] [NavigableString "leaf  page"]; anchor "/d" "d"].

Definition d_html : string :=
  "<title>D</title><a href='/'>home</a><a href='https://other.org/'>out</a>".

Definition d_soup : PageElement :=
  document
    [Tag "title" [] [NavigableString "D"];
     anchor "/" "home"; anchor "https://other.org/" "out"].

(** A page at [https://ex.com/a/b], not linked from the others, with a link
    relative to its directory. *)
Definition nested : string := "https://ex.com/a/b".

Definition nested_html : string :=
  "<a href='c'>sibling</a><a href='/x'>rooted</a>".

Definition nested_soup : PageElement :=
  document [anchor "c" "sibling"; anchor "/x" "rooted"].

(** The parser on the documents of the site. *)
Definition parser (text : string) : PageElement :=
  if String.eqb text home_html then home_soup
  else if String.eqb text c_html then c_soup
  else if String.eqb text d_html then d_soup
  else if String.eqb text nested_html then nested_soup
  else document [].

Definition html_response (text : string) : Response :=
  {| status_code := 200;
     content_type := Some "text/html; charset=utf-8";
     text := text |}.

(** The network: the same answer at every time. *)
Definition web (t : nat) (url : string) : Result Response :=
  if String.eqb url seed then Ok (html_response home_html)
  else if String.eqb url "https://ex.com/b" then Raise "ConnectionError"
  else if String.eqb url "https://ex.com/c" then Ok (html_response c_html)
  else if String.eqb url "https://ex.com/d" then Ok (html_response d_html)
  else if String.eqb url nested then Ok (html_response nested_html)
  else Ok {| status_code := 404; content_type := None; text := "" |}.

(** A network on which nothing answers. *)
Definition dead_web (t : nat) (url : string) : Result Response :=
  Raise "ConnectionError".

(** The clock: one second per request. *)
Definition clock (t : nat) : string :=
  "2024-01-01 00:00:0" ++ String (ascii_of_nat (48 + Nat.min t 9)) "".

Definition run (fuel : nat) (max_depth max_pages : Z) : option CrawlState :=
  while Urllib.urljoin web parser clock origin max_depth max_pages
        fuel (init seed).

Definition crawl (url : string) (max_depth max_pages : Z) : CrawlResult :=
  scrape_website Urllib.urlparse Urllib.urljoin web parser clock
                 url max_depth max_pages.

Definition extract (url : string) (soup : PageElement) (now : string)
  : Result PageRecord :=
  extract_page_data Urllib.urljoin url soup origin now.

End Site.

(** ** The shape of cleaned text *)

(** The characters of [s], as a list. *)
Definition chars (s : string) : list ascii := list_ascii_of_string s.

(** The characters of [s] that are not whitespace, in order. *)
Definition non_spaces (s : string) : list ascii :=
  List.filter (fun c => negb (Str.isspace c)) (chars s).

(** Whether all whitespace in [s] is single spaces: every whitespace
    character is [" "] and no two of them are adjacent.  With
    [after_space], the string stands right after a space, so it must not
    start with one either. *)
Fixpoint single_spaced (after_space : bool) (s : string) : bool :=
  match s with
  | EmptyString => true
  | String c s' =>
      if Str.isspace c
      then Ascii.eqb c " " && negb after_space && single_spaced true s'
      else single_spaced false s'
  end.

(** Whether the last character of [s], if any, is not whitespace. *)
Fixpoint ends_in_text (s : string) : bool :=
  match s with
  | EmptyString => true
  | String c EmptyString => negb (Str.isspace c)
  | String _ s' => ends_in_text s'
  end.

(** Words separated by single spaces, with no space at either end. *)
Definition normalized (s : string) : bool :=
  single_spaced true s && ends_in_text s.

(** ** Where the requests of a crawl come from *)

(** The pair [(u, d)] was discovered by a request of the log [l]: some
    request extracted a page at depth [d - 1] that holds an internal link to
    [u]. *)
Definition discovered_from (l : list Event) (u : string) (d : Z) : Prop :=
  exists (i : nat) (parent : Event) (p : PageRecord) (lk : Link),
    l !! i = Some parent
    /\ ev_outcome parent = Extracted p
    /\ d = ev_depth parent + 1
    /\ lk ∈ pr_links p
    /\ link_is_internal lk = true
    /\ link_url lk = u.

(** Every entry of the queue is the seed at depth 0 or was discovered by a
    request of the log, and every request of the log was made for the seed
    or for a pair discovered by an earlier request. *)
Definition provenance_inv (url : string) (st : CrawlState) : Prop :=
  (forall q : string * Z,
     q ∈ to_visit st ->
     q = (url, 0) \/ discovered_from (log st) (fst q) (snd q))
  /\ (forall (j : nat) (e : Event),
        log st !! j = Some e ->
        (ev_url e = url /\ ev_depth e = 0)
        \/ discovered_from (take j (log st)) (ev_url e) (ev_depth e)).

(** Every internal link of a page extracted above the depth bound has been
    requested or waits in the queue, one level deeper. *)
Definition coverage_inv (max_depth : Z) (st : CrawlState) : Prop :=
  forall (i : nat) (parent : Event) (p : PageRecord) (lk : Link),
    log st !! i = Some parent ->
    ev_outcome parent = Extracted p ->
    ev_depth parent < max_depth ->
    lk ∈ pr_links p ->
    link_is_internal lk = true ->
    link_url lk ∈ List.map ev_url (log st)
    \/ (link_url lk, ev_depth parent + 1) ∈ to_visit st.

(** ** The page shown to the user

    [display_page_analysis] and [main] talk to Streamlit.  A call of a
    Streamlit function that draws something is a [Widget]; the blocks
    [with st.expander(...)], [with col1] and [with st.spinner(...)] hold the
    widgets drawn inside them.  The labels are kept as the bytes of the
    source text.  The calls whose arguments are texts, numbers and tables
    draw and return; [st.image] is given a source computed from the page,
    which it has to load, and may raise on it. *)

(** The value of a metric or of a table cell: a text or a number. *)
Inductive Cell : Type :=
| Text (s : string)
| Number (n : Z).

Inductive Widget : Type :=
| st_title (body : string)
| st_header (body : string)
| st_subheader (body : string)
| st_write (body : string)
| st_metric (label : string) (value : Cell)
| st_text_area (label value : string) (height : Z) (key : string)
| st_dataframe (columns : list string) (rows : list (list Cell))
| st_image (image caption : string) (width : Z)
| st_warning (body : string)
| st_error (body : string)
| st_success (body : string)
| st_slider (label : string) (min_value max_value value : Z)
| st_text_input (label : string)
| st_button (label : string)
| st_selectbox (label : string) (options : list string)
| st_download_button (label data file_name mime : string)
| st_expander (label : string) (contents : list Widget)
| st_column (contents : list Widget)
| st_spinner (text : string) (contents : list Widget).

(** [str(n)] and [f"{n:,}"] for an integer. *)
Definition str_of_Z (n : Z) : string :=
  NilZero.string_of_int (Z.to_int n).

(** The digits, least significant first, with a comma after every third
    digit that is followed by another one. *)
Fixpoint group_thousands (count : nat) (rev_digits : list ascii)
  : list ascii :=
  match rev_digits with
  | [] => []
  | c :: rest =>
      match count with
      | 3%nat => ","%char :: c :: group_thousands 1 rest
      | _ => c :: group_thousands (S count) rest
      end
  end.

Definition format_thousands (n : Z) : string :=
  let digits := list_ascii_of_string (str_of_Z (Z.abs n)) in
  let grouped :=
    string_of_list_ascii (List.rev (group_thousands 0 (List.rev digits))) in
  if n <? 0 then String "-" grouped else grouped.

(** [s[:n]]. *)
Definition str_take (n : nat) (s : string) : string := String.substring 0 n s.

(** [page_data['headings'].get(key)]. *)
Fixpoint headings_get (key : string) (headings : list (string * list string))
  : option (list string) :=
  match headings with
  | [] => None
  | (k, v) :: headings' =>
      if String.eqb k key then Some v else headings_get key headings'
  end.

(** [xs[:n]] on a list and [enumerate]. *)
Fixpoint enumerate_from {A : Type} (i : Z) (xs : list A) : list (Z * A) :=
  match xs with
  | [] => []
  | x :: xs' => (i, x) :: enumerate_from (i + 1) xs'
  end.

Section Display.

Variable urljoin : string -> string -> Result string.

(** What [st.image(image, ...)] does with its source before it draws: a
    source that is not an [http], [https] or [data] URL is opened as a file
    and handed to the media file storage of Streamlit, which raises
    [MediaFileStorageError] when it cannot open it.  [load_image image] is
    [Ok tt] when the source is accepted and the exception otherwise. *)
Variable load_image : string -> Result unit.

(** The text of the [Title] metric. *)
Definition title_metric (title : string) : string :=
  str_take 100 title ++ (if len (chars title) >? 100 then "..." else "").

(** The body of the [Headings] expander. *)
Definition heading_widgets (headings : list (string * list string))
  : list Widget :=
  List.concat
    (List.map
       (fun level =>
          match headings_get (heading_key level) headings with
          | Some (h :: hs) =>
              st_write ("### H" ++ str_of_Z (Z.of_nat level) ++ " Headings")
              :: List.map (fun heading => st_write ("- " ++ heading)) (h :: hs)
          | _ => []
          end)
       (seq 1 6)).

(** The body of the [Links] expander. *)
Definition link_widgets (links : list Link) : list Widget :=
  match links with
  | [] => []
  | _ :: _ =>
      [st_dataframe ["URL"; "Link Text"]
         (List.map (fun l => [Text (link_url l); Text (link_text l)]) links)]
  end.

(** [st.image(urljoin(page_data['url'], img), caption=f"Image {i+1}",
    width=300)]: the argument is evaluated first, then [st.image] loads the
    source and draws it. *)
Definition show_image (url : string) (i : Z) (img : string) : Result Widget :=
  src ← urljoin url img;
  _ ← load_image src;
  Ok (st_image src ("Image " ++ str_of_Z (i + 1)) 300).

(** The images of the [Images] expander: the first five, each joined
    against the URL of the page. *)
Definition image_widgets (url : string) (images : list string)
  : Result (list Widget) :=
  mapM_result
    (fun '(i, img) => show_image url i img)
    (enumerate_from 0 (List.firstn 5 images)).

(** [display_page_analysis(page_data)]: the widgets it draws, or the
    exception that leaves it (the widgets drawn before the exception are not
    kept). *)
Definition display_page_analysis (page_data : PageRecord)
  : Result (list Widget) :=
  let col1 :=
    st_column
      [st_metric "Title" (Text (title_metric (pr_title page_data)));
       st_metric "URL" (Text (pr_url page_data));
       st_metric "Links Found" (Number (pr_num_links page_data))] in
  let col2 :=
    st_column
      [st_metric "Images Found" (Number (pr_num_images page_data));
       st_metric "Text Length"
         (Text (format_thousands (len (chars (pr_main_text page_data)))
                ++ " characters"));
       st_metric "Crawled At" (Text (pr_timestamp page_data))] in
  let meta :=
    match pr_meta_description page_data with
    | EmptyString => []
    | m => [st_expander "📝 Meta Description" [st_write m]]
    end in
  let content :=
    st_expander "📄 Main Content"
      [st_text_area "" (pr_main_text page_data) 300
         ("content_" ++ pr_url page_data)] in
  let headings :=
    st_expander "📑 Headings" (heading_widgets (pr_headings page_data)) in
  let links := st_expander "🔗 Links" (link_widgets (pr_links page_data)) in
  images ←
    match pr_images page_data with
    | [] => Ok []
    | _ :: _ =>
        shown ← image_widgets (pr_url page_data) (pr_images page_data);
        Ok [st_expander "🖼️ Images"
              (st_write ("Found "
                         ++ str_of_Z (len (pr_images page_data))
                         ++ " images") :: shown)]
    end;
  Ok ([st_subheader "📄 Page Analysis"; col1; col2]
        ++ meta ++ [content; headings; links] ++ images)%list.

End Display.

(** ** The application

    One run of the script.  Streamlit runs [main] again after every
    interaction; what the user did is the input of the run (the values of
    the sliders and of the text field, which button was pressed, the entry
    chosen in the select box), and [st.session_state] is carried from one
    run to the next.  The widgets that [scrape_website] itself draws while
    it crawls (spinner, progress bar, status line, warnings) are not part of
    the widgets of a run. *)

(** A row of the [crawl_results] data frame. *)
Record SummaryRow : Type := mkSummaryRow {
  row_URL : string;
  row_Title : string;
  row_Links : Z;
  row_Images : Z
}.

(** [st.session_state] once the top of the script has run. *)
Record SessionState : Type := mkSessionState {
  crawl_results : list SummaryRow;
  scraped_data : list PageRecord;
  current_view : option string
}.

(** The state that the top of the script creates in a new session: an empty
    data frame, an empty list and no [current_view] key. *)
Definition new_session : SessionState :=
  {| crawl_results := []; scraped_data := []; current_view := None |}.

(** What the widgets hand to a run. *)
Record Inputs : Type := mkInputs {
  in_max_depth : Z;
  in_max_pages : Z;
  in_url : string;
  in_scrape_clicked : bool;
  in_crawl_clicked : bool;
  in_selected_page : option nat
}.

(** How a run ends: [st.rerun()] stops it and starts the next one, it runs
    to its end and shows its widgets, or an exception leaves it. *)
Inductive Run : Type :=
| Rerun (state : SessionState)
| Shown (state : SessionState) (widgets : list Widget)
| Crashed (state : SessionState) (msg : string).

Definition state_after (r : Run) : SessionState :=
  match r with
  | Rerun state | Shown state _ | Crashed state _ => state
  end.

(** The row of the summary built from a page. *)
Definition summary_row (page : PageRecord) : SummaryRow :=
  {| row_URL := pr_url page;
     row_Title := pr_title page;
     row_Links := pr_num_links page;
     row_Images := pr_num_images page |}.

Section Application.

Variable urlparse : string -> Result ParseResult.
Variable urljoin : string -> string -> Result string.
Variable requests_get : nat -> string -> Result Response.
Variable BeautifulSoup : string -> PageElement.
Variable now : nat -> string.
Variable load_image : string -> Result unit.

(** [DataFrame.to_csv(index=False)] and the clock read for the file name,
    [datetime.now().strftime('%Y%m%d_%H%M%S')]. *)
Variable to_csv : list SummaryRow -> string.
Variable now_compact : string.

(** The block under the button [Scrape Single Page], when it is pressed:
    the state, the widgets drawn and whether [st.rerun()] was called. *)
Definition scrape_single_page (url : string) (state : SessionState)
  : SessionState * list Widget * bool :=
  if String.eqb url "" then (state, [st_warning "Please enter a URL"], false)
  else if negb (is_valid_url urlparse url)
  then (state,
        [st_error "Please enter a valid URL (include http:// or https://)"],
        false)
  else
    let result :=
      scrape_website urlparse urljoin requests_get BeautifulSoup now
                     url 0 1 in
    match success result, data result with
    | true, _ :: _ =>
        ({| crawl_results := crawl_results state;
            scraped_data := data result;
            current_view := Some "single" |},
         [], true)
    | _, _ => (state, [st_spinner ("Scraping " ++ url ++ "...") []], false)
    end.

(** The block under the button [Start Crawling], when it is pressed. *)
Definition start_crawling (url : string) (max_depth max_pages : Z)
    (state : SessionState) : SessionState * list Widget * bool :=
  if String.eqb url "" then (state, [st_warning "Please enter a URL"], false)
  else if negb (is_valid_url urlparse url)
  then (state,
        [st_error "Please enter a valid URL (include http:// or https://)"],
        false)
  else
    let result :=
      scrape_website urlparse urljoin requests_get BeautifulSoup now
                     url max_depth max_pages in
    if success result
    then ({| crawl_results := List.map summary_row (data result);
             scraped_data := data result;
             current_view := Some "crawl" |},
          [], true)
    else (state,
          [st_spinner ("Crawling " ++ url ++ " (max depth: "
                       ++ str_of_Z max_depth ++ ", max pages: "
                       ++ str_of_Z max_pages ++ ")...")
             [st_error ("Error: "
                        ++ default "Unknown error occurred" (error result))]],
          false).

(** The table of the crawl summary. *)
Definition summary_table (rows : list SummaryRow) : Widget :=
  st_dataframe ["URL"; "Page Title"; "# Links"; "# Images"]
    (List.map (fun r => [Text (row_URL r); Text (row_Title r);
                         Number (row_Links r); Number (row_Images r)])
              rows).

(** The part of [main] that shows the results of the session. *)
Definition show_results (selected_page : option nat) (state : SessionState)
  : Result (list Widget) :=
  match current_view state, scraped_data state with
  | Some view, first :: others =>
      if String.eqb view "single"
      then
        shown ← display_page_analysis urljoin load_image first;
        Ok (st_success "✅ Successfully scraped 1 page!" :: shown)
      else if String.eqb view "crawl"
      then
        let pages := first :: others in
        details ←
          match selected_page with
          | Some i =>
              match pages !! i with
              | Some page => display_page_analysis urljoin load_image page
              | None => Raise "list index out of range"
              end
          | None => Ok []
          end;
        let summary :=
          [st_success ("✅ Successfully crawled "
                       ++ str_of_Z (len pages) ++ " pages!");
           st_subheader "📊 Crawl Summary";
           summary_table (crawl_results state);
           st_selectbox "Select a page to view details:"
             (List.map (fun page => pr_title page ++ " - " ++ pr_url page)
                       pages)] in
        let export :=
          st_download_button "📥 Export to CSV"
            (to_csv (crawl_results state))
            ("crawl_results_" ++ now_compact ++ ".csv")
            "text/csv" in
        Ok (summary ++ details ++ [export])%list
      else Ok []
  | _, _ => Ok []
  end.

(** [main()]. *)
Definition main (inputs : Inputs) (state : SessionState) : Run :=
  let url := in_url inputs in
  let '(state1, under_scrape, rerun1) :=
    if in_scrape_clicked inputs then scrape_single_page url state
    else (state, [], false) in
  if rerun1 then Rerun state1
  else
    let '(state2, under_crawl, rerun2) :=
      if in_crawl_clicked inputs
      then start_crawling url (in_max_depth inputs) (in_max_pages inputs)
                          state1
      else (state1, [], false) in
    if rerun2 then Rerun state2
    else
      match show_results (in_selected_page inputs) state2 with
      | Raise msg => Crashed state2 msg
      | Ok results =>
          let controls :=
            [st_title "🌐 Advanced Web Scraper & Crawler";
             st_write "Extract and analyze content from any website with advanced crawling capabilities.";
             st_header "Settings";
             st_slider "Crawl Depth" 0 5 (in_max_depth inputs);
             st_slider "Maximum Pages" 1 100 (in_max_pages inputs);
             st_text_input "Enter website URL to crawl:";
             st_column (st_button "🔍 Scrape Single Page" :: under_scrape);
             st_column (st_button "🕷️ Start Crawling" :: under_crawl)] in
          Shown state2 (controls ++ results)%list
      end.

End Application.

(** ** What a run shows and keeps *)

(** All widgets of a tree, the nested ones included, in the order they are
    drawn. *)
Fixpoint drawn (w : Widget) : list Widget :=
  w :: match w with
       | st_expander _ contents
       | st_column contents
       | st_spinner _ contents => flat_map drawn contents
       | _ => []
       end.

Definition is_image (w : Widget) : bool :=
  match w with
  | st_image _ _ _ => true
  | _ => false
  end.

(** The images among the widgets [ws]. *)
Definition images_drawn (ws : list Widget) : list Widget :=
  List.filter is_image (flat_map drawn ws).

(** The views of a session hold what they show: the single view exactly one
    page, the crawl view at least one page and a summary with one row per
    page, in the same order. *)
Definition session_ok (state : SessionState) : Prop :=
  (current_view state = Some "single" -> length (scraped_data state) = 1%nat)
  /\ (current_view state = Some "crawl" ->
      scraped_data state <> []
      /\ crawl_results state = List.map summary_row (scraped_data state)).

(** ** More pages

    Sample inputs for the extractor, the display and the application. *)

Module Pages.

(** The record extracted from the home page of the site at the first
    request. *)
Definition home_record : PageRecord :=
  {| pr_url := "https://ex.com/";
     pr_title := "Home";
     pr_meta_description := "";
     pr_headings := [("h1", []); ("h2", ["News"; "More"]); ("h3", []);
                     ("h4", []); ("h5", []); ("h6", [])];
     pr_num_links := 3;
     pr_num_images := 2;
     pr_main_text := "";
     pr_links := [mkLink "https://ex.com/b" "b" true;
                  mkLink "https://ex.com/b" "b again" true;
                  mkLink "https://ex.com/c" "c" true];
     pr_images := ["logo.png"; ""];
     pr_timestamp := "2024-01-01 00:00:01" |}.

(** A document with a description that has no [content] attribute, followed
    by an Open Graph description. *)
Definition described_soup : PageElement :=
  Site.document
    [Tag "meta" [("name", "description")] [];
     Tag "meta" [("property", "og:description"); ("content", "From OG")] []].

(** A site of one page, which links to another host only. *)
Definition leaf_seed : string := "https://leaf.org/".

Definition leaf_html : string :=
  "<p>alone</p><a href='https://other.org/'>out</a>".

Definition leaf_soup : PageElement :=
  Site.document
    [Tag "p" [] [NavigableString "alone"];
     Site.anchor "https://other.org/" "out"].

Definition leaf_parser (text : string) : PageElement :=
  if String.eqb text leaf_html then leaf_soup else Site.document [].

Definition leaf_web (t : nat) (url : string) : Result Response :=
  if String.eqb url leaf_seed then Ok (Site.html_response leaf_html)
  else Raise "ConnectionError".

Definition leaf_record : PageRecord :=
  {| pr_url := "https://leaf.org/";
     pr_title := "No title found";
     pr_meta_description := "";
     pr_headings := [("h1", []); ("h2", []); ("h3", []);
                     ("h4", []); ("h5", []); ("h6", [])];
     pr_num_links := 1;
     pr_num_images := 0;
     pr_main_text := "alone";
     pr_links := [mkLink "https://other.org/" "out" false];
     pr_images := [];
     pr_timestamp := "2024-01-01 00:00:01" |}.

(** A site whose origin is the beginning of the origin of another one: the
    page of [https://ex.co/] links to the home page of [https://ex.com]. *)
Definition short_seed : string := "https://ex.co/".

Definition short_html : string := "<a href='https://ex.com/'>com</a>".

Definition short_soup : PageElement :=
  Site.document [Site.anchor "https://ex.com/" "com"].

Definition short_parser (text : string) : PageElement :=
  if String.eqb text short_html then short_soup else Site.parser text.

Definition short_web (t : nat) (url : string) : Result Response :=
  if String.eqb url short_seed then Ok (Site.html_response short_html)
  else Site.web t url.

(** A media file storage with no file in it: [st.image] accepts the URLs it
    passes on to the browser and raises for every other source. *)
Definition load_image (image : string) : Result unit :=
  if String.prefix "http://" image || String.prefix "https://" image
     || String.prefix "data:" image
  then Ok tt
  else Raise "MediaFileStorageError".

(** A record with six images, and one whose second image has a source that
    [urljoin] leaves as it is and [st.image] cannot load, and whose third
    image has a source that [urljoin] rejects. *)
Definition gallery : PageRecord :=
  {| pr_url := "https://ex.com/a/b";
     pr_title := "Gallery";
     pr_meta_description := "";
     pr_headings := [];
     pr_num_links := 0;
     pr_num_images := 6;
     pr_main_text := "";
     pr_links := [];
     pr_images := ["1.png"; "/2.png"; "3.png"; "4.png"; "5.png"; "6.png"];
     pr_timestamp := "2024-01-01 00:00:01" |}.

Definition broken_gallery : PageRecord :=
  {| pr_url := "https://ex.com/a/b";
     pr_title := "Broken";
     pr_meta_description := "";
     pr_headings := [];
     pr_num_links := 0;
     pr_num_images := 3;
     pr_main_text := "";
     pr_links := [];
     pr_images := ["1.png"; "mailto:a@b"; "http://[x"];
     pr_timestamp := "2024-01-01 00:00:01" |}.

(** A session in the single view that holds the broken gallery, and a run
    in which the user does nothing. *)
Definition broken_session : SessionState :=
  {| crawl_results := []; scraped_data := [broken_gallery];
     current_view := Some "single" |}.

Definition idle : Inputs :=
  {| in_max_depth := 1; in_max_pages := 10; in_url := "";
     in_scrape_clicked := false; in_crawl_clicked := false;
     in_selected_page := None |}.

Definition run_main (inputs : Inputs) (state : SessionState) : Run :=
  main Urllib.urlparse Urllib.urljoin Site.web Site.parser Site.clock
       load_image (fun _ => "") "20240101_000000" inputs state.

End Pages.

(** * Properties *)

(** ** Evaluations

    The helpers, the model of [urllib.parse] and the crawl of the small site,
    run on concrete inputs. *)

Example clean_text_runs : clean_text (Some "  a
	b  ") = "a b".
Proof. reflexivity. Qed.

Example clean_text_empty : clean_text (Some "") = "" /\ clean_text None = "".
Proof. split; reflexivity. Qed.

Example urljoin_root : Urllib.urljoin "https://ex.com/a/b" "/x" = Ok "https://ex.com/x".
Proof. reflexivity. Qed.

Example urljoin_rel : Urllib.urljoin "https://ex.com/a/b" "c" = Ok "https://ex.com/a/c".
Proof. reflexivity. Qed.

Example urljoin_origin_rel : Urllib.urljoin "https://ex.com" "c" = Ok "https://ex.com/c".
Proof. reflexivity. Qed.

Example urljoin_dots : Urllib.urljoin "http://a/b/c/d;p?q" "../../g" = Ok "http://a/g".
Proof. reflexivity. Qed.

Example urljoin_q : Urllib.urljoin "http://a/b/c/d;p?q" "?y" = Ok "http://a/b/c/d;p?y".
Proof. reflexivity. Qed.

Example urljoin_abs : Urllib.urljoin "http://a/b/c/d;p?q" "//g/x#s" = Ok "http://g/x#s".
Proof. reflexivity. Qed.

Example urljoin_other : Urllib.urljoin "http://a/b/c/d;p?q" "mailto:x@y" = Ok "mailto:x@y".
Proof. reflexivity. Qed.

Example urljoin_g : Urllib.urljoin "http://a/b/c/d;p?q" "./g/." = Ok "http://a/b/c/g/".
Proof. reflexivity. Qed.

Example urljoin_bad : Urllib.urljoin "http://a/b" "http://[x" = Raise "Invalid IPv6 URL".
Proof. reflexivity. Qed.

Example site_base : get_base_url Urllib.urlparse Site.seed = Ok Site.origin.
Proof. reflexivity. Qed.

Example base_keeps_port :
  get_base_url Urllib.urlparse "http://user@ex.com:8080/a/b?q=1"
  = Ok "http://user@ex.com:8080".
Proof. reflexivity. Qed.

Example valid_urls :
  is_valid_url Urllib.urlparse "https://ex.com/a" = true
  /\ is_valid_url Urllib.urlparse "ex.com/a" = false
  /\ is_valid_url Urllib.urlparse "http://[x" = false.
Proof. repeat split; reflexivity. Qed.

Example site_run_urls :
  (fun st => List.map (fun e => (ev_url e, ev_depth e)) (log st))
    <$> Site.run 10 2 10
  = Some [("https://ex.com/", 0); ("https://ex.com/b", 1);
          ("https://ex.com/b", 1); ("https://ex.com/c", 1);
          ("https://ex.com/d", 2)].
Proof. vm_compute. reflexivity. Qed.

Example site_run_results :
  (fun st => List.map pr_url (results st)) <$> Site.run 10 2 10
  = Some ["https://ex.com/"; "https://ex.com/c"; "https://ex.com/d"].
Proof. vm_compute. reflexivity. Qed.

(** ** Strings *)

Lemma append_String (c : ascii) (a q : string) :
  String c a ++ q = String c (a ++ q).
Proof. reflexivity. Qed.

Lemma append_empty (q : string) : "" ++ q = q.
Proof. reflexivity. Qed.

Lemma prefix_spec (a s : string) :
  String.prefix a s = true <-> exists q, s = a ++ q.
Proof.
  revert a; induction s as [|c s IH]; intros [|b a]; simpl.
  - split; [exists ""; reflexivity | reflexivity].
  - split; [discriminate | intros [q Hq]; discriminate].
  - split; [eexists; reflexivity | reflexivity].
  - destruct (Ascii.ascii_dec b c) as [->|Hne].
    + rewrite IH. split; intros [q Hq]; exists q;
        rewrite append_String in *; congruence.
    + split; [discriminate |].
      intros [q Hq]. rewrite append_String in Hq. congruence.
Qed.

(** [sub in s] holds exactly when [s] is some text, then [sub], then some
    text. *)
Lemma contains_spec (sub s : string) :
  Str.contains sub s = true <-> exists p q, s = p ++ sub ++ q.
Proof.
  induction s as [|c s IH].
  - change (Str.contains sub "") with (String.prefix sub "" || false).
    rewrite orb_true_iff, prefix_spec. split.
    + intros [[q Hq]|]; [exists "", q; exact Hq | discriminate].
    + intros ([|c p] & q & Hq); [left; exists q; exact Hq | discriminate].
  - change (Str.contains sub (String c s))
      with (String.prefix sub (String c s) || Str.contains sub s).
    rewrite orb_true_iff, prefix_spec, IH. split.
    + intros [[q Hq]|(p & q & Hq)].
      * exists "", q; exact Hq.
      * exists (String c p), q. rewrite append_String. congruence.
    + intros ([|c' p] & q & Hq).
      * left; exists q; exact Hq.
      * right; exists p, q. rewrite append_String in Hq. congruence.
Qed.

(** ** The extractor *)

Section ExtractorFacts.

Context (urljoin : string -> string -> Result string).

Lemma mapM_result_Ok {A B : Type} (f : A -> Result B) (xs : list A)
    (ys : list B) :
  mapM_result f xs = Ok ys -> Forall2 (fun x y => f x = Ok y) xs ys.
Proof.
  revert ys; induction xs as [|x xs IH]; intros ys; simpl.
  - intros [= <-]. constructor.
  - destruct (f x) as [y|msg] eqn:Hx; simpl; [|discriminate].
    destruct (mapM_result f xs) as [ys'|msg]; simpl; [|discriminate].
    intros [= <-]. constructor; auto.
Qed.

(** What [extract_page_data] returns when no link makes [urljoin] raise. *)
Lemma extract_page_data_Ok (url : string) (soup : PageElement)
    (base_url now : string) (p : PageRecord) :
  extract_page_data urljoin url soup base_url now = Ok p ->
  pr_url p = url
  /\ pr_timestamp p = now
  /\ pr_num_links p = len (pr_links p)
  /\ pr_num_images p = len (pr_images p)
  /\ mapM_result (extract_link urljoin base_url)
                 (find_all_having "a" "href" soup) = Ok (pr_links p).
Proof.
  unfold extract_page_data.
  destruct (mapM_result _ _) as [links|msg]; simpl; [|discriminate].
  intros [= <-]. simpl. auto.
Qed.

Lemma extract_link_Ok (base_url : string) (a : PageElement) (l : Link) :
  extract_link urljoin base_url a = Ok l ->
  urljoin base_url (default "" (Tag_get a "href")) = Ok (link_url l)
  /\ link_is_internal l = Str.contains base_url (link_url l).
Proof.
  unfold extract_link.
  destruct (urljoin _ _) as [full|msg]; simpl; [|discriminate].
  intros [= <-]. simpl. auto.
Qed.

(** Every recorded link comes from an anchor that carries [href], and its
    URL is that [href] joined against [base_url]. *)
Lemma extract_page_data_links (url : string) (soup : PageElement)
    (base_url now : string) (p : PageRecord) :
  extract_page_data urljoin url soup base_url now = Ok p ->
  Forall2 (fun a l => exists href,
             Tag_get a "href" = Some href
             /\ urljoin base_url href = Ok (link_url l))
          (find_all_having "a" "href" soup) (pr_links p).
Proof.
  intros H. apply extract_page_data_Ok in H as (_ & _ & _ & _ & H).
  apply mapM_result_Ok in H.
  assert (Hhref : Forall (fun a => is_Some (Tag_get a "href"))
                         (find_all_having "a" "href" soup)).
  { apply Forall_forall. intros a Ha. unfold find_all_having in Ha.
    apply list_elem_of_In, filter_In in Ha as [_ Ha].
    destruct (Tag_get a "href"); [eauto | discriminate]. }
  induction H as [|a l anchors links Hl _ IH]; constructor.
  - apply Forall_cons in Hhref as [[href Hh] _].
    apply extract_link_Ok in Hl as [Hl _]. rewrite Hh in Hl. eauto.
  - apply IH. apply Forall_cons in Hhref as [_ ?]; assumption.
Qed.

(** Every recorded link was built by [extract_link] from an anchor of the
    document. *)
Lemma extract_page_data_link (url : string) (soup : PageElement)
    (base_url now : string) (p : PageRecord) (l : Link) :
  extract_page_data urljoin url soup base_url now = Ok p ->
  l ∈ pr_links p ->
  exists a, a ∈ find_all_having "a" "href" soup
            /\ extract_link urljoin base_url a = Ok l.
Proof.
  intros Hp Hl.
  apply extract_page_data_Ok in Hp as (_ & _ & _ & _ & Hp).
  apply mapM_result_Ok in Hp.
  apply list_elem_of_lookup in Hl as [i Hi].
  destruct (Forall2_lookup_r _ _ _ _ _ Hp Hi) as (a & Ha & Hl).
  exists a. split; [|exact Hl].
  eapply list_elem_of_lookup_2. exact Ha.
Qed.

End ExtractorFacts.

(** ** The loop *)

Section LoopFacts.

Local Open Scope list_scope.

Context (urljoin : string -> string -> Result string)
        (requests_get : nat -> string -> Result Response)
        (BeautifulSoup : string -> PageElement)
        (now : nat -> string)
        (base_url : string) (max_depth max_pages : Z).

Local Abbreviation cond := (loop_cond max_pages).
Local Abbreviation body :=
  (loop_body urljoin requests_get BeautifulSoup now base_url max_depth).
Local Abbreviation run :=
  (while urljoin requests_get BeautifulSoup now base_url max_depth max_pages).
Local Abbreviation fetch :=
  (fetch_page urljoin requests_get BeautifulSoup now base_url).
Local Abbreviation turns :=
  (turn urljoin requests_get BeautifulSoup now base_url max_depth).
Local Abbreviation pages :=
  (pages_inv urljoin requests_get BeautifulSoup now base_url).
Local Abbreviation final :=
  (crawl_loop urljoin requests_get BeautifulSoup now
              base_url max_depth max_pages).
Local Abbreviation after :=
  (iterate urljoin requests_get BeautifulSoup now
           base_url max_depth max_pages).

Lemma loop_cond_true (st : CrawlState) :
  cond st = true ->
  to_visit st <> [] /\ len (results st) < max_pages.
Proof.
  unfold loop_cond. destruct (to_visit st); [discriminate|].
  intros H. split; [discriminate | lia].
Qed.

(** [loop_body] takes one of the three turns. *)
Lemma loop_body_turn (st : CrawlState) :
  to_visit st <> [] -> turns st (body st).
Proof.
  destruct st as [[|[u d] rest] vis res l]; [simpl; congruence|]. intros _.
  unfold loop_body; simpl.
  destruct (bool_decide (u ∈ vis)) eqn:Hv; simpl.
  { apply turn_skip. left. eapply bool_decide_eq_true_1, Hv. }
  apply bool_decide_eq_false_1 in Hv.
  destruct (d >? max_depth) eqn:Hd.
  { apply turn_skip. right. lia. }
  destruct (fetch_page _ _ _ _ _ _ _) as [[p|]|msg] eqn:Hf.
  - apply turn_page; [assumption | lia | exact Hf].
  - apply turn_no_page; [assumption | lia | reflexivity].
  - apply turn_no_page; [assumption | lia | reflexivity].
Qed.

Lemma while_deterministic (f1 f2 : nat) (st a b : CrawlState) :
  run f1 st = Some a -> run f2 st = Some b -> a = b.
Proof.
  revert f2 st; induction f1 as [|f1 IH]; intros [|f2] st; simpl;
    destruct (cond st); try discriminate; try congruence.
  apply IH.
Qed.

(** A property kept by every turn holds when the loop ends. *)
Lemma while_invariant (P : CrawlState -> Prop) :
  (forall s, P s -> cond s = true -> P (body s)) ->
  forall fuel st st', P st -> run fuel st = Some st' ->
  P st' /\ cond st' = false.
Proof.
  intros Hstep. induction fuel as [|fuel IH]; intros st st' HP; simpl;
    destruct (cond st) eqn:Hc; try discriminate.
  - intros [= <-]. auto.
  - apply IH. auto.
  - intros [= <-]. auto.
Qed.

Lemma iterate_invariant (P : CrawlState -> Prop) :
  (forall s, P s -> cond s = true -> P (body s)) ->
  forall n st, P st -> P (after n st).
Proof.
  intros Hstep. induction n as [|n IH]; intros st HP; simpl; [assumption|].
  destruct (cond st) eqn:Hc; auto.
Qed.

(** The final state is the one the fuelled loop returns. *)
Lemma crawl_loop_spec (st : CrawlState) :
  exists fuel, run fuel st = Some (final st).
Proof.
  unfold crawl_loop.
  destruct (constructive_indefinite_ground_description_nat _ _ _)
    as [fuel [st' H]]; simpl.
  exists fuel. rewrite H. reflexivity.
Qed.

Lemma crawl_loop_fuel (fuel : nat) (st st' : CrawlState) :
  run fuel st = Some st' -> final st = st'.
Proof.
  intros H. destruct (crawl_loop_spec st) as [fuel' H'].
  eapply while_deterministic; eassumption.
Qed.

Lemma crawl_loop_invariant (P : CrawlState -> Prop) :
  (forall s, P s -> cond s = true -> P (body s)) ->
  forall st, P st -> P (final st) /\ cond (final st) = false.
Proof.
  intros Hstep st HP. destruct (crawl_loop_spec st) as [fuel H].
  eapply while_invariant; eassumption.
Qed.

(** *** The log *)

Lemma recorded_snoc_page (l : list Event) (u : string) (d : Z)
    (p : PageRecord) :
  recorded (l ++ [mkEvent u d (Extracted p)]) = (recorded l ++ [(p, d)])%list.
Proof. unfold recorded. rewrite omap_app. reflexivity. Qed.

Lemma recorded_snoc_none (l : list Event) (u : string) (d : Z) (o : Outcome) :
  page_of o = None -> recorded (l ++ [mkEvent u d o]) = recorded l.
Proof.
  intros H. unfold recorded. rewrite omap_app. simpl. rewrite H. simpl.
  apply app_nil_r.
Qed.

Lemma extracted_urls_snoc_page (l : list Event) (u : string) (d : Z)
    (p : PageRecord) :
  extracted_urls (l ++ [mkEvent u d (Extracted p)])
  = (extracted_urls l ++ [u])%list.
Proof. unfold extracted_urls. rewrite omap_app. reflexivity. Qed.

Lemma extracted_urls_snoc_none (l : list Event) (u : string) (d : Z)
    (o : Outcome) :
  page_of o = None -> extracted_urls (l ++ [mkEvent u d o]) = extracted_urls l.
Proof.
  intros H. unfold extracted_urls. rewrite omap_app. simpl. rewrite H. simpl.
  apply app_nil_r.
Qed.

(** A page comes from a response to the request for its own URL. *)
Lemma fetch_page_Some (t : nat) (u : string) (p : PageRecord) :
  fetch t u = Ok (Some p) ->
  exists response,
    requests_get t u = Ok response
    /\ extract_page_data urljoin u (BeautifulSoup (text response))
                         base_url (now (S t)) = Ok p.
Proof.
  unfold fetch_page.
  destruct (requests_get t u) as [response|msg]; simpl; [|discriminate].
  destruct (raise_for_status response); simpl; [|discriminate].
  destruct (negb _); [discriminate|].
  destruct (extract_page_data _ _ _ _ _) as [p'|msg] eqn:He; simpl;
    [|discriminate].
  intros [= <-]. eauto.
Qed.

Lemma fetch_page_url (t : nat) (u : string) (p : PageRecord) :
  fetch t u = Ok (Some p) -> pr_url p = u.
Proof.
  intros H. apply fetch_page_Some in H as (response & _ & H).
  apply extract_page_data_Ok in H. tauto.
Qed.

(** The request added to the log is for a URL without an extracted page. *)
Lemma fresh_snoc (l : list Event) (e : Event) :
  (forall j e', l !! j = Some e' -> ev_url e' ∉ extracted_urls (take j l)) ->
  ev_url e ∉ extracted_urls l ->
  forall j e', (l ++ [e]) !! j = Some e' ->
               ev_url e' ∉ extracted_urls (take j (l ++ [e])).
Proof.
  intros Hold Hnew j e' Hj.
  destruct (decide (j < length l)%nat) as [Hlt|Hge].
  - rewrite lookup_app_l in Hj by assumption.
    rewrite take_app_le by lia. eauto.
  - rewrite lookup_app_r in Hj by lia.
    destruct (j - length l)%nat as [|k] eqn:Hk; simpl in Hj; [|discriminate].
    injection Hj as <-.
    replace j with (length l) by lia. rewrite take_app_length. assumption.
Qed.

Lemma log_inv_init (url : string) : log_inv max_depth (init url).
Proof.
  unfold log_inv, init; simpl. repeat split; try constructor.
  intros j e Hj. discriminate.
Qed.

Lemma log_inv_turn (st st' : CrawlState) :
  turns st st' -> log_inv max_depth st -> log_inv max_depth st'.
Proof.
  intros Ht (Hres & Hurl & Hvis & Hnd & Hfresh & Hdep).
  destruct Ht as [u d rest vis res l Hskip
                 |u d rest vis res l p Hu Hd Hf
                 |u d rest vis res l o Hu Hd Ho]; unfold log_inv; simpl in *.
  - auto 10.
  - rewrite recorded_snoc_page, extracted_urls_snoc_page, !map_app.
    simpl. rewrite (fetch_page_url _ _ _ Hf), <- Hres, <- Hurl.
    assert (Hnew : u ∉ extracted_urls l)
      by (rewrite <- (not_elem_of_list_to_set (C := gset string)), <- Hvis;
          exact Hu).
    repeat split.
    + rewrite Hurl, list_to_set_snoc_L, <- Hvis. apply (comm_L _).
    + rewrite Hurl. apply NoDup_app. repeat split; [assumption| |].
      * intros x Hx Hx'. apply list_elem_of_singleton in Hx'. congruence.
      * apply NoDup_singleton.
    + apply fresh_snoc; assumption.
    + apply Forall_app. split; [assumption|]. repeat constructor. exact Hd.
  - rewrite recorded_snoc_none, extracted_urls_snoc_none by assumption.
    assert (Hnew : u ∉ extracted_urls l)
      by (rewrite <- (not_elem_of_list_to_set (C := gset string)), <- Hvis;
          exact Hu).
    repeat split; try assumption.
    + apply fresh_snoc; assumption.
    + apply Forall_app. split; [assumption|]. repeat constructor. exact Hd.
Qed.

Lemma log_inv_body (st : CrawlState) :
  log_inv max_depth st -> cond st = true -> log_inv max_depth (body st).
Proof.
  intros Hinv Hc. apply loop_cond_true in Hc as [Hq _].
  eapply log_inv_turn; [apply loop_body_turn; exact Hq | exact Hinv].
Qed.

(** *** The page count *)

Lemma count_body (st : CrawlState) :
  len (results st) <= Z.max 0 max_pages -> cond st = true ->
  len (results (body st)) <= Z.max 0 max_pages.
Proof.
  intros Hinv Hc. apply loop_cond_true in Hc as [Hq Hlt].
  destruct (loop_body_turn st Hq); simpl in *; try assumption.
  rewrite len_app. unfold len at 2. simpl. lia.
Qed.

(** *** The queue *)

(** What the loop appends to the queue after a page at depth [d]: internal
    links of the page that are not in [visited], one level deeper, and only
    below the depth bound. *)
Lemma new_links_spec (vis : gset string) (d : Z) (p : PageRecord)
    (q : string * Z) :
  q ∈ new_links max_depth vis d p ->
  snd q = d + 1 /\ d < max_depth
  /\ exists link, link ∈ pr_links p /\ fst q = link_url link
                  /\ link_is_internal link = true /\ link_url link ∉ vis.
Proof.
  unfold new_links. destruct (d <? max_depth) eqn:Hd.
  - intros Hq. apply list_elem_of_In, in_map_iff in Hq as (link & <- & Hl).
    apply filter_In in Hl as [Hl Hf].
    apply andb_true_iff in Hf as [Hi Hv].
    apply negb_true_iff, bool_decide_eq_false_1 in Hv.
    simpl. repeat split; [lia|]. exists link.
    rewrite list_elem_of_In. auto.
  - intros Hq. apply elem_of_nil in Hq. contradiction.
Qed.







Lemma frontier_inv_init (url : string) :
  0 <= max_depth -> frontier_inv max_depth (init url).
Proof. intros H. repeat constructor; simpl; lia. Qed.

Lemma frontier_inv_turn (st st' : CrawlState) :
  turns st st' -> frontier_inv max_depth st -> frontier_inv max_depth st'.
Proof.
  unfold frontier_inv.
  intros [u d rest vis res l Hskip
         |u d rest vis res l p Hu Hd Hf
         |u d rest vis res l o Hu Hd Ho] Hq; simpl in *;
    apply Forall_cons in Hq as [Hhd Hq]; try assumption.
  apply Forall_app. split; [assumption|].
  apply Forall_forall. intros q Hin.
  apply new_links_spec in Hin as (-> & Hlt & _). simpl in Hhd. lia.
Qed.

Lemma frontier_inv_body (st : CrawlState) :
  frontier_inv max_depth st -> cond st = true ->
  frontier_inv max_depth (body st).
Proof.
  intros Hinv Hc. apply loop_cond_true in Hc as [Hq _].
  eapply frontier_inv_turn; [apply loop_body_turn; exact Hq | exact Hinv].
Qed.

(** *** The pages *)

Lemma pages_inv_body (st : CrawlState) :
  pages st -> cond st = true -> pages (body st).
Proof.
  intros Hinv Hc. apply loop_cond_true in Hc as [Hq _].
  unfold pages_inv in *.
  destruct (loop_body_turn st Hq); simpl in *; try assumption.
  apply Forall_app. split; [assumption|]. repeat constructor. eauto.
Qed.

End LoopFacts.

(** ** The crawl *)

Section CrawlFacts.

Local Open Scope list_scope.

Context (urlparse : string -> Result ParseResult)
        (urljoin : string -> string -> Result string)
        (requests_get : nat -> string -> Result Response)
        (BeautifulSoup : string -> PageElement)
        (now : nat -> string).

Local Abbreviation scrape :=
  (scrape_website urlparse urljoin requests_get BeautifulSoup now).
Local Abbreviation requests :=
  (crawl_log urlparse urljoin requests_get BeautifulSoup now).
Local Abbreviation final :=
  (crawl_loop urljoin requests_get BeautifulSoup now).
Local Abbreviation run :=
  (while urljoin requests_get BeautifulSoup now).

Lemma finish_data (st : CrawlState) : data (finish now st) = results st.
Proof. unfold finish. destruct (results st); reflexivity. Qed.

Lemma final_log_inv (base_url url : string) (max_depth max_pages : Z) :
  log_inv max_depth (final base_url max_depth max_pages (init url)).
Proof.
  apply crawl_loop_invariant; [apply log_inv_body | apply log_inv_init].
Qed.


Lemma final_count (base_url url : string) (max_depth max_pages : Z) :
  len (results (final base_url max_depth max_pages (init url)))
  <= Z.max 0 max_pages.
Proof.
  apply (crawl_loop_invariant _ _ _ _ _ _ _
           (fun st => len (results st) <= Z.max 0 max_pages)).
  - apply count_body.
  - unfold len; simpl. lia.
Qed.

(** Every page returned was extracted, with the origin of the seed as base,
    from the response to a request for the page's URL. *)
Lemma crawl_pages_extracted (url : string) (max_depth max_pages : Z)
    (p : PageRecord) :
  p ∈ data (scrape url max_depth max_pages) ->
  exists base_url t response,
    get_base_url urlparse url = Ok base_url
    /\ requests_get t (pr_url p) = Ok response
    /\ extract_page_data urljoin (pr_url p) (BeautifulSoup (text response))
                         base_url (now (S t)) = Ok p.
Proof.
  unfold scrape_website.
  destruct (get_base_url urlparse url) as [base_url|msg];
    [|simpl; intros H; apply elem_of_nil in H; contradiction].
  rewrite finish_data. intros Hp.
  assert (Hinv : pages_inv urljoin requests_get BeautifulSoup now base_url
                   (final base_url max_depth max_pages (init url))).
  { apply crawl_loop_invariant; [apply pages_inv_body | constructor]. }
  unfold pages_inv in Hinv. rewrite Forall_forall in Hinv.
  destruct (Hinv p Hp) as (t & u & Hf).
  pose proof (fetch_page_url _ _ _ _ _ _ _ _ Hf) as ->.
  apply fetch_page_Some in Hf as (response & Hr & He). eauto 10.
Qed.

(** In every page returned, a link is internal exactly when its URL contains
    [scheme://netloc] of the seed. *)
Lemma crawl_link_is_internal (url : string) (max_depth max_pages : Z)
    (p : PageRecord) (l : Link) :
  p ∈ data (scrape url max_depth max_pages) ->
  l ∈ pr_links p ->
  exists parsed,
    urlparse url = Ok parsed
    /\ (link_is_internal l = true
        <-> exists before after,
              link_url l
              = (before ++ (scheme parsed ++ "://" ++ netloc parsed)
                 ++ after)%string).
Proof.
  intros Hp Hl.
  apply crawl_pages_extracted in Hp as (base_url & t & response & Hb & _ & He).
  unfold get_base_url in Hb.
  destruct (urlparse url) as [parsed|msg]; simpl in Hb; [|discriminate].
  injection Hb as <-. exists parsed. split; [reflexivity|].
  destruct (extract_page_data_link _ _ _ _ _ _ _ He Hl) as (a & _ & Ha).
  apply extract_link_Ok in Ha as [_ Hint].
  rewrite Hint. apply contains_spec.
Qed.

(** In every page returned, the counts are the lengths of the lists. *)
Lemma crawl_counts (url : string) (max_depth max_pages : Z) (p : PageRecord) :
  p ∈ data (scrape url max_depth max_pages) ->
  pr_num_links p = len (pr_links p) /\ pr_num_images p = len (pr_images p).
Proof.
  intros Hp.
  apply crawl_pages_extracted in Hp as (base_url & t & response & _ & _ & He).
  apply extract_page_data_Ok in He. tauto.
Qed.

(** The pages returned are the pages of the log, in the order of the log. *)
Lemma scrape_website_data (url : string) (max_depth max_pages : Z) :
  data (scrape url max_depth max_pages)
  = List.map fst (recorded (requests url max_depth max_pages)).
Proof.
  unfold scrape_website, crawl_log.
  destruct (get_base_url urlparse url) as [base_url|msg]; [|reflexivity].
  rewrite finish_data. apply final_log_inv.
Qed.

Lemma scrape_website_fuel_eq (fuel : nat) (url : string)
    (max_depth max_pages : Z) (r : CrawlResult) :
  scrape_website_fuel urlparse urljoin requests_get BeautifulSoup now
                      fuel url max_depth max_pages = Some r ->
  scrape url max_depth max_pages = r.
Proof.
  unfold scrape_website_fuel, scrape_website.
  destruct (get_base_url urlparse url) as [base_url|msg]; [|congruence].
  destruct (while _ _ _ _ _ _ _ _ _) as [st|] eqn:Hrun; simpl; [|discriminate].
  intros [= <-]. f_equal. eapply crawl_loop_fuel. exact Hrun.
Qed.

Lemma crawl_log_fuel (fuel : nat) (url base_url : string)
    (max_depth max_pages : Z) (st : CrawlState) :
  get_base_url urlparse url = Ok base_url ->
  run base_url max_depth max_pages fuel (init url) = Some st ->
  requests url max_depth max_pages = log st.
Proof.
  intros Hb Hrun. unfold crawl_log. rewrite Hb. f_equal.
  eapply crawl_loop_fuel. exact Hrun.
Qed.

Lemma recorded_depths (bound : Z) (l : list Event) :
  Forall (fun e => ev_depth e <= bound) l ->
  Forall (fun pd : PageRecord * Z => snd pd <= bound) (recorded l).
Proof.
  induction 1 as [|e l He Hl IH]; [constructor|].
  unfold recorded. simpl. fold (recorded l).
  destruct (page_of (ev_outcome e)); simpl; [constructor|]; assumption.
Qed.


End CrawlFacts.

(** ** The extractor: links, counts and the clock *)

Section ExtractorClaims.

Context (urljoin : string -> string -> Result string).

(** C7: for every link of a record returned by [extract_page_data],
    [is_internal] is true exactly when the resolved URL of the link contains
    the base-origin string handed to the extractor as a substring, that is,
    when the URL is some text, then the origin, then some text. *)
Theorem link_is_internal_iff_substring (url : string) (soup : PageElement)
    (base_url now : string) (p : PageRecord) (l : Link) :
  extract_page_data urljoin url soup base_url now = Ok p ->
  l ∈ pr_links p ->
  link_is_internal l = true
  <-> exists before after, link_url l = before ++ base_url ++ after.
Proof.
  intros Hp Hl.
  destruct (extract_page_data_link urljoin url soup base_url now p l Hp Hl)
    as (a & _ & Ha).
  apply extract_link_Ok in Ha as [_ Hint].
  rewrite Hint. apply contains_spec.
Qed.

(** C9: in every record returned by [extract_page_data], [num_links] is the
    length of [links] and [num_images] is the length of [images]. *)
Theorem counts_match_lengths (url : string) (soup : PageElement)
    (base_url now : string) (p : PageRecord) :
  extract_page_data urljoin url soup base_url now = Ok p ->
  pr_num_links p = len (pr_links p)
  /\ pr_num_images p = len (pr_images p).
Proof.
  intros Hp. apply extract_page_data_Ok in Hp. tauto.
Qed.

(** C3, as amended: two calls of [extract_page_data] on the same URL,
    document and base origin return the same result in every field but
    [timestamp], which holds the clock reading of each call; when a link
    makes [urljoin] raise, both calls raise the same exception. *)
Theorem extract_page_data_up_to_timestamp (url : string) (soup : PageElement)
    (base_url now1 now2 : string) :
  extract_page_data urljoin url soup base_url now2
  = set_timestamp now2 <$> extract_page_data urljoin url soup base_url now1.
Proof.
  unfold extract_page_data.
  destruct (mapM_result _ _) as [links|msg]; reflexivity.
Qed.

End ExtractorClaims.

(** ** The crawl: uniqueness, bounds, order and the returned envelope *)

Section CrawlClaims.

Local Open Scope list_scope.

Context (urlparse : string -> Result ParseResult)
        (urljoin : string -> string -> Result string)
        (requests_get : nat -> string -> Result Response)
        (BeautifulSoup : string -> PageElement)
        (now : nat -> string).

Local Abbreviation scrape :=
  (scrape_website urlparse urljoin requests_get BeautifulSoup now).
Local Abbreviation requests :=
  (crawl_log urlparse urljoin requests_get BeautifulSoup now).
Local Abbreviation final :=
  (crawl_loop urljoin requests_get BeautifulSoup now).
Local Abbreviation body :=
  (loop_body urljoin requests_get BeautifulSoup now).
Local Abbreviation after :=
  (iterate urljoin requests_get BeautifulSoup now).
Local Abbreviation fetch :=
  (fetch_page urljoin requests_get BeautifulSoup now).

(** X28: no URL appears twice among the pages of [result.data]; the URLs of
    these pages are the URLs whose request ended in an extracted page; no
    request is made for a URL whose page was extracted by an earlier
    request; and when the loop ends [visited] holds the URLs of the returned
    pages and no other. *)
Theorem extracted_url_never_fetched_again (url : string)
    (max_depth max_pages : Z) :
  NoDup (List.map pr_url (data (scrape url max_depth max_pages)))
  /\ List.map pr_url (data (scrape url max_depth max_pages))
     = extracted_urls (requests url max_depth max_pages)
  /\ (forall (j : nat) (e : Event),
        requests url max_depth max_pages !! j = Some e ->
        ev_url e ∉ extracted_urls (take j (requests url max_depth max_pages)))
  /\ (forall base_url,
        get_base_url urlparse url = Ok base_url ->
        visited (final base_url max_depth max_pages (init url))
        = list_to_set
            (List.map pr_url (data (scrape url max_depth max_pages)))).
Proof.
  unfold scrape_website, crawl_log.
  destruct (get_base_url urlparse url) as [base_url|msg].
  - rewrite finish_data.
    destruct (final_log_inv urljoin requests_get BeautifulSoup now
                base_url url max_depth max_pages)
      as (_ & Hurl & Hvis & Hnd & Hfresh & _).
    rewrite Hurl. repeat split; try assumption.
    intros b [= <-]. exact Hvis.
  - simpl. repeat split; [constructor | discriminate | discriminate].
Qed.

(** C4: with [max_depth >= 0] and [max_pages >= 1], the result holds at most
    [max_pages] pages, and every page of [result.data] was taken from the
    queue at a depth of at most [max_depth]. *)
Theorem crawl_within_bounds (url : string) (max_depth max_pages : Z) :
  0 <= max_depth -> 1 <= max_pages ->
  len (data (scrape url max_depth max_pages)) <= max_pages
  /\ data (scrape url max_depth max_pages)
     = List.map fst (recorded (requests url max_depth max_pages))
  /\ Forall (fun pd : PageRecord * Z => snd pd <= max_depth)
            (recorded (requests url max_depth max_pages)).
Proof.
  intros Hd Hp. split; [|split; [apply scrape_website_data|]].
  - unfold scrape_website.
    destruct (get_base_url urlparse url) as [base_url|msg].
    + rewrite finish_data.
      pose proof (final_count urljoin requests_get BeautifulSoup now
                    base_url url max_depth max_pages). lia.
    + unfold len; simpl. lia.
  - apply recorded_depths. unfold crawl_log.
    destruct (get_base_url urlparse url) as [base_url|msg]; [|constructor].
    apply (final_log_inv urljoin requests_get BeautifulSoup now
             base_url url max_depth max_pages).
Qed.


(** The first turn is the last one when it leaves the queue empty. *)
Lemma first_turn_last (base_url url : string) (max_depth max_pages : Z) :
  to_visit (body base_url max_depth (init url)) = [] ->
  final base_url max_depth max_pages (init url) = init url
  \/ final base_url max_depth max_pages (init url)
     = body base_url max_depth (init url).
Proof.
  intros Hq. destruct (loop_cond max_pages (init url)) eqn:Hc.
  - right. apply (crawl_loop_fuel _ _ _ _ _ _ _ 1). simpl. rewrite Hc.
    unfold loop_cond. rewrite Hq. reflexivity.
  - left. apply (crawl_loop_fuel _ _ _ _ _ _ _ 0). simpl. rewrite Hc.
    reflexivity.
Qed.

(** The first turn, taken on the seed at depth 0. *)
Lemma first_turn (base_url url : string) (max_depth : Z) :
  let st := body base_url max_depth (init url) in
  (to_visit st = [] /\ results st = [])
  \/ exists p, fetch base_url 0 url = Ok (Some p)
               /\ to_visit st = new_links max_depth ∅ 0 p
               /\ results st = [p].
Proof.
  assert (Hne : to_visit (init url) <> []) by discriminate.
  pose proof (loop_body_turn urljoin requests_get BeautifulSoup now
                base_url max_depth (init url) Hne) as Ht.
  simpl. remember (body base_url max_depth (init url)) as st eqn:Est.
  clear Est. unfold init in Ht.
  inversion Ht as [u d rest vis res l Hskip
                  |u d rest vis res l p Hu Hd Hf
                  |u d rest vis res l o Hu Hd Ho]; subst; simpl.
  - left. auto.
  - right. exists p. auto.
  - left. auto.
Qed.

(** The seed alone: when the request for the seed raises, the loop ends
    without a page. *)
Lemma seed_failure_no_results (base_url url msg : string)
    (max_depth max_pages : Z) :
  requests_get 0 url = Raise msg ->
  results (final base_url max_depth max_pages (init url)) = [].
Proof.
  intros Hfail.
  destruct (first_turn base_url url max_depth) as [[Hq Hr]|(p & Hf & _)].
  - destruct (first_turn_last base_url url max_depth max_pages Hq) as [->| ->];
      [reflexivity | exact Hr].
  - unfold fetch_page in Hf. rewrite Hfail in Hf. discriminate.
Qed.

(** C6: when the setup succeeds, so that the loop is reached and ends: with
    no page in [results] the function returns
    [{success: False, error: 'No pages could be crawled', data: []}], and
    otherwise
    [{success: True, data: results, total_pages: len(results), timestamp}].
    A seed whose request raises leaves [results] empty, so the first
    envelope is returned. *)
Theorem scrape_website_envelope (url base_url : string)
    (max_depth max_pages : Z) :
  get_base_url urlparse url = Ok base_url ->
  let st := final base_url max_depth max_pages (init url) in
  (results st = [] ->
   scrape url max_depth max_pages
   = {| success := false; error := Some "No pages could be crawled";
        data := []; total_pages := None; timestamp := None |})
  /\ (results st <> [] ->
      scrape url max_depth max_pages
      = {| success := true; error := None; data := results st;
           total_pages := Some (len (results st));
           timestamp := Some (now (S (length (log st)))) |})
  /\ (forall msg,
        requests_get 0 url = Raise msg ->
        scrape url max_depth max_pages
        = {| success := false; error := Some "No pages could be crawled";
             data := []; total_pages := None; timestamp := None |}).
Proof.
  intros Hb st. unfold scrape_website. rewrite Hb. fold st.
  assert (Hempty : results st = [] ->
            finish now st = failure "No pages could be crawled")
    by (intros H; unfold finish; rewrite H; reflexivity).
  split; [exact Hempty|]. split.
  - intros Hne. unfold finish.
    destruct (results st) eqn:Hr; [congruence | reflexivity].
  - intros msg Hfail. apply Hempty.
    eapply seed_failure_no_results. exact Hfail.
Qed.

(** With [max_depth = 0] the loop takes at most one turn, on the seed. *)
Lemma depth_zero_final (base_url url : string) (max_pages : Z) :
  let st := final base_url 0 max_pages (init url) in
  results st = []
  \/ exists p, fetch base_url 0 url = Ok (Some p) /\ results st = [p].
Proof.
  simpl.
  destruct (first_turn base_url url 0) as [[Hq Hr]|(p & Hf & Hq & Hr)];
    (destruct (first_turn_last base_url url 0 max_pages Hq) as [->| ->];
     [left; reflexivity|]).
  - left. exact Hr.
  - right. exists p. auto.
Qed.

(** C8: with [max_depth = 0] the result holds at most one page, and a page
    it holds is the one extracted from the response to the request for the
    seed URL. *)
Theorem depth_zero_only_seed (url : string) (max_pages : Z) :
  (length (data (scrape url 0 max_pages)) <= 1)%nat
  /\ (forall p,
        p ∈ data (scrape url 0 max_pages) ->
        data (scrape url 0 max_pages) = [p]
        /\ pr_url p = url
        /\ exists base_url,
             get_base_url urlparse url = Ok base_url
             /\ fetch base_url 0 url = Ok (Some p)).
Proof.
  unfold scrape_website.
  destruct (get_base_url urlparse url) as [base_url|msg].
  - rewrite finish_data.
    destruct (depth_zero_final base_url url max_pages) as [Hr|(p & Hf & Hr)];
      rewrite Hr; simpl.
    + split; [lia|]. intros p Hp. apply elem_of_nil in Hp. contradiction.
    + split; [lia|]. intros p' Hp. apply list_elem_of_singleton in Hp as ->.
      split; [reflexivity|]. split; [|eauto].
      eapply fetch_page_url. exact Hf.
  - simpl. split; [lia|]. intros p Hp. apply elem_of_nil in Hp. contradiction.
Qed.

(** C10: with [max_depth >= 0], after any number of turns of the loop every
    pair in the queue has a depth between 0 and [max_depth]; the pair at the
    head therefore never takes the [depth > max_depth] branch. *)
Theorem frontier_depth_within_bound (url base_url : string)
    (max_depth max_pages : Z) (n : nat) :
  0 <= max_depth ->
  Forall (fun q : string * Z => 0 <= snd q <= max_depth)
         (to_visit (after base_url max_depth max_pages n (init url)))
  /\ (forall u d rest,
        to_visit (after base_url max_depth max_pages n (init url))
        = (u, d) :: rest ->
        (d >? max_depth) = false).
Proof.
  intros Hd.
  assert (H : frontier_inv max_depth
                (after base_url max_depth max_pages n (init url))).
  { apply iterate_invariant; [apply frontier_inv_body|].
    apply frontier_inv_init. exact Hd. }
  split; [exact H|].
  intros u d rest Heq. unfold frontier_inv in H. rewrite Heq in H.
  apply Forall_cons in H as [H _]. simpl in H. lia.
Qed.

End CrawlClaims.

(** ** The site: the properties at concrete inputs *)

(** C1: on the page [https://ex.com/a/b], handed to the extractor with the
    origin [https://ex.com] as the crawl does, the anchor [href='c'] is
    recorded as [https://ex.com/c]: the link is joined against the origin.
    Joined against the page's own URL it is [https://ex.com/a/c].  The
    anchor [href='/x'] is recorded as [https://ex.com/x], which both ways of
    joining give.  A crawl seeded at that page goes on to request
    [https://ex.com/c]. *)
Theorem relative_href_joined_against_origin (now : string) :
  pr_links <$> extract_page_data Urllib.urljoin "https://ex.com/a/b"
                 Site.nested_soup "https://ex.com" now
  = Ok [ {| link_url := "https://ex.com/c"; link_text := "sibling";
            link_is_internal := true |};
         {| link_url := "https://ex.com/x"; link_text := "rooted";
            link_is_internal := true |} ]
  /\ Urllib.urljoin "https://ex.com/a/b" "c" = Ok "https://ex.com/a/c"
  /\ Urllib.urljoin "https://ex.com/a/b" "/x" = Ok "https://ex.com/x"
  /\ List.map (fun e => (ev_url e, ev_depth e))
       (crawl_log Urllib.urlparse Urllib.urljoin Site.web Site.parser
                  Site.clock "https://ex.com/a/b" 1 10)
     = [("https://ex.com/a/b", 0); ("https://ex.com/c", 1);
        ("https://ex.com/x", 1)].
Proof.
  split; [vm_compute; reflexivity|]. split; [vm_compute; reflexivity|].
  split; [vm_compute; reflexivity|].
  destruct (while Urllib.urljoin Site.web Site.parser Site.clock
                  Site.origin 1 10 10 (init Site.nested))
    as [st|] eqn:Hrun; [|vm_compute in Hrun; discriminate].
  rewrite (crawl_log_fuel Urllib.urlparse Urllib.urljoin Site.web
             Site.parser Site.clock 10 "https://ex.com/a/b" Site.origin
             1 10 st eq_refl Hrun).
  vm_compute in Hrun. injection Hrun as <-. reflexivity.
Qed.

(** C2: a URL whose request failed is fetched again.  The home page links
    twice to [/b]; the first request for [/b] raises, the [except] branch
    goes on to the next entry of the queue without [visited.add], and the
    second entry for [/b] is requested as well: the crawl of the site to
    depth 1 makes its second and its third request for the same URL. *)
Lemma failed_url_requested_twice :
  let l := crawl_log Urllib.urlparse Urllib.urljoin Site.web Site.parser
                     Site.clock Site.seed 1 10 in
  l !! 1%nat = Some (mkEvent "https://ex.com/b" 1 (Failed "ConnectionError"))
  /\ l !! 2%nat = Some (mkEvent "https://ex.com/b" 1 (Failed "ConnectionError"))
  /\ ~ NoDup (List.map ev_url l).
Proof.
  intros l. unfold l.
  destruct (Site.run 10 1 10) as [st|] eqn:Hrun;
    [|vm_compute in Hrun; discriminate].
  rewrite (crawl_log_fuel Urllib.urlparse Urllib.urljoin Site.web
             Site.parser Site.clock 10 Site.seed Site.origin 1 10 st
             eq_refl Hrun).
  vm_compute in Hrun. injection Hrun as <-.
  split; [reflexivity|]. split; [reflexivity|].
  simpl. intros H.
  apply NoDup_cons in H as [_ H]. apply NoDup_cons in H as [H _].
  apply H. apply list_elem_of_here.
Qed.

(** C3 as stated fails: the same page extracted at two clock readings gives
    two different records. *)
Lemma extraction_depends_on_clock :
  extract_page_data Urllib.urljoin Site.seed Site.home_soup Site.origin
                    "2024-01-01 00:00:00"
  <> extract_page_data Urllib.urljoin Site.seed Site.home_soup Site.origin
                       "2024-01-01 00:00:01".
Proof. vm_compute. discriminate. Qed.

(** *** The theorems applied to the site *)

(** C7 on page [/d]: its second link leads to another host and is not
    internal. *)
Lemma link_is_internal_iff_substring_site :
  exists p l,
    extract_page_data Urllib.urljoin "https://ex.com/d" Site.d_soup
                      Site.origin "2024-01-01 00:00:03" = Ok p
    /\ l ∈ pr_links p
    /\ link_url l = "https://other.org/"
    /\ (link_is_internal l = true
        <-> exists before after,
              link_url l = before ++ Site.origin ++ after).
Proof.
  eexists. eexists. split; [vm_compute; reflexivity|].
  split; [apply list_elem_of_further, list_elem_of_here|].
  split; [reflexivity|].
  eapply (link_is_internal_iff_substring Urllib.urljoin "https://ex.com/d"
            Site.d_soup Site.origin "2024-01-01 00:00:03").
  - vm_compute; reflexivity.
  - apply list_elem_of_further, list_elem_of_here.
Defined.

(** C9 on the home page: three links and two images. *)
Lemma counts_match_lengths_site :
  exists p,
    extract_page_data Urllib.urljoin Site.seed Site.home_soup
                      Site.origin "2024-01-01 00:00:01" = Ok p
    /\ pr_num_links p = len (pr_links p)
    /\ pr_num_images p = len (pr_images p).
Proof.
  eexists. split; [vm_compute; reflexivity|].
  eapply (counts_match_lengths Urllib.urljoin Site.seed Site.home_soup
            Site.origin "2024-01-01 00:00:01").
  vm_compute; reflexivity.
Defined.

(** X28 on the site, crawled to depth 2. *)
Lemma extracted_url_never_fetched_again_site :
  NoDup (List.map pr_url (data (Site.crawl Site.seed 2 10))).
Proof.
  unfold Site.crawl.
  destruct (extracted_url_never_fetched_again Urllib.urlparse Urllib.urljoin
              Site.web Site.parser Site.clock Site.seed 2 10) as [H _].
  exact H.
Defined.

(** C4 on the site, crawled to depth 2 with room for two pages. *)
Lemma crawl_within_bounds_site :
  0 <= 2 /\ 1 <= 2
  /\ len (data (Site.crawl Site.seed 2 2)) <= 2.
Proof.
  split; [lia|]. split; [lia|]. unfold Site.crawl.
  assert (H0 : 0 <= 2) by lia. assert (H1 : 1 <= 2) by lia.
  destruct (crawl_within_bounds Urllib.urlparse Urllib.urljoin
              Site.web Site.parser Site.clock Site.seed 2 2 H0 H1) as [H _].
  exact H.
Defined.


(** C6 on a network where nothing answers. *)
Lemma scrape_website_envelope_site :
  get_base_url Urllib.urlparse Site.seed = Ok Site.origin
  /\ scrape_website Urllib.urlparse Urllib.urljoin Site.dead_web Site.parser
                    Site.clock Site.seed 1 10
     = {| success := false; error := Some "No pages could be crawled";
          data := []; total_pages := None; timestamp := None |}.
Proof.
  assert (Hb : get_base_url Urllib.urlparse Site.seed = Ok Site.origin)
    by reflexivity.
  split; [exact Hb|].
  destruct (scrape_website_envelope Urllib.urlparse Urllib.urljoin
              Site.dead_web Site.parser Site.clock Site.seed Site.origin
              1 10 Hb) as (_ & _ & H).
  apply (H "ConnectionError"). reflexivity.
Defined.

(** C8 on the site in single-page mode. *)
Lemma depth_zero_only_seed_site :
  (length (data (Site.crawl Site.seed 0 1)) <= 1)%nat.
Proof.
  unfold Site.crawl.
  destruct (depth_zero_only_seed Urllib.urlparse Urllib.urljoin
              Site.web Site.parser Site.clock Site.seed 1) as [H _].
  exact H.
Defined.

(** C10 on the site after the first turn, which enqueues the three links of
    the home page at depth 1. *)
Lemma frontier_depth_within_bound_site :
  0 <= 2
  /\ Forall (fun q : string * Z => 0 <= snd q <= 2)
       (to_visit (iterate Urllib.urljoin Site.web Site.parser Site.clock
                          Site.origin 2 10 1 (init Site.seed))).
Proof.
  assert (H0 : 0 <= 2) by lia.
  split; [exact H0|].
  destruct (frontier_depth_within_bound Urllib.urljoin Site.web Site.parser
              Site.clock Site.seed Site.origin 2 10 1 H0) as [H _].
  exact H.
Defined.

(** * Further properties *)

(** ** [clean_text] *)

Lemma sub_spaces_single_spaced (b : bool) (s : string) :
  single_spaced b (Str.sub_spaces b s) = true.
Proof.
  revert b; induction s as [|c s IH]; intros b; simpl; [reflexivity|].
  destruct (Str.isspace c) eqn:Hc.
  - destruct b; [apply IH|]. simpl. rewrite IH. reflexivity.
  - simpl. rewrite Hc. apply IH.
Qed.

Lemma single_spaced_weaken (s : string) :
  single_spaced true s = true -> single_spaced false s = true.
Proof.
  destruct s as [|c s]; simpl; [reflexivity|].
  destruct (Str.isspace c); [|trivial].
  rewrite andb_false_r. discriminate.
Qed.

Lemma lstrip_single_spaced (b : bool) (s : string) :
  single_spaced b s = true -> single_spaced true (Str.lstrip s) = true.
Proof.
  revert b; induction s as [|c s IH]; intros b; simpl; [reflexivity|].
  destruct (Str.isspace c) eqn:Hc.
  - intros H. apply andb_true_iff in H as [_ H]. eapply IH. exact H.
  - intros H. simpl. rewrite Hc. exact H.
Qed.

Lemma rstrip_cons (c : ascii) (s : string) :
  Str.rstrip (String c s)
  = match Str.rstrip s with
    | EmptyString =>
        if Str.isspace c then EmptyString else String c EmptyString
    | String c' r => String c (String c' r)
    end.
Proof. simpl. destruct (Str.rstrip s); reflexivity. Qed.

Lemma rstrip_single_spaced (b : bool) (s : string) :
  single_spaced b s = true -> single_spaced b (Str.rstrip s) = true.
Proof.
  revert b; induction s as [|c s IH]; intros b; [trivial|].
  rewrite rstrip_cons. simpl.
  destruct (Str.isspace c) eqn:Hc.
  - intros H. apply andb_true_iff in H as [H1 H2].
    specialize (IH true H2).
    destruct (Str.rstrip s) as [|c' r]; [reflexivity|].
    simpl. rewrite Hc. rewrite H1. exact IH.
  - intros H. specialize (IH false H).
    destruct (Str.rstrip s) as [|c' r]; simpl; rewrite Hc; [reflexivity|].
    exact IH.
Qed.

Lemma rstrip_ends_in_text (s : string) :
  ends_in_text (Str.rstrip s) = true.
Proof.
  induction s as [|c s IH]; [reflexivity|].
  rewrite rstrip_cons.
  destruct (Str.rstrip s) as [|c' r].
  - destruct (Str.isspace c) eqn:Hc; simpl; [reflexivity|].
    rewrite Hc. reflexivity.
  - exact IH.
Qed.

(** Cleaning always gives a normalized string. *)
Lemma strip_sub_spaces_normalized (s : string) :
  normalized (Str.strip (Str.sub_spaces false s)) = true.
Proof.
  unfold normalized, Str.strip. apply andb_true_iff. split.
  - apply rstrip_single_spaced. eapply lstrip_single_spaced.
    apply sub_spaces_single_spaced.
  - apply rstrip_ends_in_text.
Qed.

Lemma clean_text_normalized (text : option string) :
  normalized (clean_text text) = true.
Proof.
  destruct text as [[|c s]|]; try reflexivity.
  apply strip_sub_spaces_normalized.
Qed.

(** On a single-spaced string the substitution changes nothing. *)
Lemma sub_spaces_fixed (s : string) :
  (single_spaced true s = true -> forall b, Str.sub_spaces b s = s)
  /\ (single_spaced false s = true -> Str.sub_spaces false s = s).
Proof.
  induction s as [|c s [IHt IHf]]; simpl; [auto|].
  destruct (Str.isspace c) eqn:Hc.
  - split.
    + rewrite andb_false_r. discriminate.
    + intros H. apply andb_true_iff in H as [H1 H2].
      apply andb_true_iff in H1 as [H1 _].
      apply Ascii.eqb_eq in H1 as ->. rewrite (IHt H2). reflexivity.
  - split.
    + intros H b. rewrite (IHf H). reflexivity.
    + intros H. rewrite (IHf H). reflexivity.
Qed.

Lemma lstrip_fixed (s : string) :
  single_spaced true s = true -> Str.lstrip s = s.
Proof.
  destruct s as [|c s]; simpl; [reflexivity|].
  destruct (Str.isspace c); [|reflexivity].
  rewrite andb_false_r. discriminate.
Qed.

Lemma rstrip_fixed (s : string) :
  ends_in_text s = true -> Str.rstrip s = s.
Proof.
  induction s as [|c s IH]; [reflexivity|].
  rewrite rstrip_cons. destruct s as [|c' s].
  - simpl. destruct (Str.isspace c); [discriminate | reflexivity].
  - intros H. rewrite IH by exact H. reflexivity.
Qed.

(** A normalized string is a fixed point of [clean_text]. *)
Lemma clean_text_fixed (s : string) :
  normalized s = true -> clean_text (Some s) = s.
Proof.
  unfold normalized. intros H. apply andb_true_iff in H as [H1 H2].
  destruct s as [|c s]; [reflexivity|].
  unfold clean_text, Str.strip.
  rewrite (proj1 (sub_spaces_fixed _) H1), (lstrip_fixed _ H1).
  apply rstrip_fixed. exact H2.
Qed.

(** X1: [clean_text] is idempotent: cleaning a cleaned text changes
    nothing. *)
Theorem clean_text_idempotent (text : option string) :
  clean_text (Some (clean_text text)) = clean_text text.
Proof.
  apply clean_text_fixed. apply clean_text_normalized.
Qed.

Lemma single_spaced_chars (b : bool) (s : string) (c : ascii) :
  single_spaced b s = true -> c ∈ chars s -> Str.isspace c = true ->
  c = " "%char.
Proof.
  revert b; induction s as [|a s IH]; intros b Hs Hc Hsp.
  - apply elem_of_nil in Hc. contradiction.
  - simpl in Hs. unfold chars in Hc. simpl in Hc.
    apply elem_of_cons in Hc as [->|Hc].
    + rewrite Hsp in Hs. apply andb_true_iff in Hs as [Hs _].
      apply andb_true_iff in Hs as [Hs _]. apply Ascii.eqb_eq. exact Hs.
    + destruct (Str.isspace a).
      * apply andb_true_iff in Hs as [_ Hs]. eapply IH; eassumption.
      * eapply IH; eassumption.
Qed.

Lemma ends_in_text_no_space (s before : string) :
  ends_in_text s = true -> s <> before ++ " ".
Proof.
  revert s; induction before as [|c before IH]; intros s Hs Heq; subst.
  - discriminate.
  - rewrite append_String in Hs. simpl in Hs.
    destruct (before ++ " ") as [|c' r] eqn:Hr.
    + destruct before; discriminate.
    + eapply IH; [exact Hs | reflexivity].
Qed.

Lemma single_spaced_no_run (b : bool) (s before after : string) :
  single_spaced b s = true -> s <> before ++ "  " ++ after.
Proof.
  revert b s; induction before as [|c before IH]; intros b s Hs Heq; subst.
  - rewrite append_empty in Hs.
    change ("  " ++ after) with (String " " (String " " after)) in Hs.
    simpl in Hs. rewrite !andb_false_r in Hs. discriminate.
  - rewrite append_String in Hs. simpl in Hs.
    destruct (Str.isspace c).
    + apply andb_true_iff in Hs as [_ Hs]. eapply IH; [exact Hs | reflexivity].
    + eapply IH; [exact Hs | reflexivity].
Qed.

(** X2: the result of [clean_text] is normalized: its only whitespace
    characters are spaces, it neither starts nor ends with a space, and it
    has no two spaces in a row. *)
Theorem clean_text_single_spaces (text : option string) :
  (forall c, c ∈ chars (clean_text text) -> Str.isspace c = true ->
             c = " "%char)
  /\ (forall rest, clean_text text <> String " " rest)
  /\ (forall before, clean_text text <> before ++ " ")
  /\ (forall before after, clean_text text <> before ++ "  " ++ after).
Proof.
  pose proof (clean_text_normalized text) as H.
  unfold normalized in H. apply andb_true_iff in H as [Hs He].
  split; [|split; [|split]].
  - intros c. apply (single_spaced_chars true). exact Hs.
  - intros rest Heq. rewrite Heq in Hs. simpl in Hs. discriminate.
  - intros before. apply ends_in_text_no_space. exact He.
  - intros before after. apply (single_spaced_no_run true). exact Hs.
Qed.

Lemma non_spaces_sub_spaces (b : bool) (s : string) :
  non_spaces (Str.sub_spaces b s) = non_spaces s.
Proof.
  revert b; induction s as [|c s IH]; intros b; [reflexivity|].
  unfold non_spaces, chars in *. simpl.
  destruct (Str.isspace c) eqn:Hc; simpl.
  - destruct b; simpl; apply IH.
  - rewrite Hc. simpl. f_equal. apply IH.
Qed.

Lemma non_spaces_lstrip (s : string) :
  non_spaces (Str.lstrip s) = non_spaces s.
Proof.
  induction s as [|c s IH]; [reflexivity|].
  unfold non_spaces, chars in *. simpl.
  destruct (Str.isspace c) eqn:Hc; simpl; [exact IH|].
  rewrite Hc. reflexivity.
Qed.

Lemma non_spaces_rstrip (s : string) :
  non_spaces (Str.rstrip s) = non_spaces s.
Proof.
  induction s as [|c s IH]; [reflexivity|].
  rewrite rstrip_cons. unfold non_spaces, chars in *.
  destruct (Str.rstrip s) as [|c' r]; simpl in *.
  - rewrite <- IH. destruct (Str.isspace c) eqn:Hc; simpl; [reflexivity|].
    rewrite Hc. reflexivity.
  - rewrite <- IH. reflexivity.
Qed.

Lemma non_spaces_clean_text (s : string) :
  non_spaces (clean_text (Some s)) = non_spaces s.
Proof.
  destruct s as [|c s]; [reflexivity|].
  unfold clean_text, Str.strip.
  rewrite non_spaces_rstrip, non_spaces_lstrip. apply non_spaces_sub_spaces.
Qed.

(** X3: [clean_text] only touches whitespace: the characters that are not
    whitespace come out unchanged and in the same order. *)
Theorem clean_text_keeps_text (s : string) :
  List.filter (fun c => negb (Str.isspace c)) (chars (clean_text (Some s)))
  = List.filter (fun c => negb (Str.isspace c)) (chars s).
Proof.
  change (non_spaces (clean_text (Some s)) = non_spaces s).
  destruct s as [|c s]; [reflexivity|].
  unfold clean_text, Str.strip.
  rewrite non_spaces_rstrip, non_spaces_lstrip.
  apply non_spaces_sub_spaces.
Qed.

Lemma normalized_blank (s : string) :
  normalized s = true -> non_spaces s = [] -> s = "".
Proof.
  destruct s as [|c s]; [reflexivity|].
  unfold normalized, non_spaces, chars. simpl.
  destruct (Str.isspace c); simpl.
  - rewrite andb_false_r. discriminate.
  - intros _ H. discriminate.
Qed.

Lemma non_spaces_nil (s : string) :
  non_spaces s = [] <-> Forall (fun c => Str.isspace c = true) (chars s).
Proof.
  unfold non_spaces. induction (chars s) as [|c l IH]; simpl.
  - split; [constructor | reflexivity].
  - destruct (Str.isspace c) eqn:Hc; simpl.
    + rewrite IH. split; [constructor; assumption|].
      intros H. apply Forall_cons in H as [_ H]. exact H.
    + split; [discriminate|].
      intros H. apply Forall_cons in H as [H _]. congruence.
Qed.

(** X4: [clean_text] returns the empty string exactly for [None] and for
    texts made of whitespace only (the empty text among them). *)
Theorem clean_text_empty_iff_blank (text : option string) :
  clean_text text = ""
  <-> match text with
      | None => True
      | Some s => Forall (fun c => Str.isspace c = true) (chars s)
      end.
Proof.
  destruct text as [s|]; [|split; reflexivity || trivial].
  rewrite <- non_spaces_nil. split.
  - intros H. rewrite <- non_spaces_clean_text, H. reflexivity.
  - intros H. apply normalized_blank; [apply clean_text_normalized|].
    rewrite non_spaces_clean_text. exact H.
Qed.

(** ** [extract_page_data] *)

Section ExtractorExtras.

Local Open Scope list_scope.

Context (urljoin : string -> string -> Result string).

(** The record that [extract_page_data] returns, field by field. *)
Lemma extract_page_data_fields (url : string) (soup : PageElement)
    (base_url now : string) (p : PageRecord) :
  extract_page_data urljoin url soup base_url now = Ok p ->
  pr_title p
  = clean_text match List.head (find_all "title" soup) with
               | Some t => Tag_string t
               | None => Some "No title found"%string
               end
  /\ pr_meta_description p
     = clean_text
         (Some match match find_attr "meta" "name" "description" soup with
                     | Some m => Some m
                     | None => find_attr "meta" "property" "og:description" soup
                     end with
               | Some m => default ""%string (Tag_get m "content")
               | None => ""%string
               end)
  /\ pr_headings p
     = List.map (fun i => (heading_key i,
                           List.map (fun h => clean_text (Some (get_text h)))
                                    (find_all (heading_key i) soup)))
                (seq 1 6)
  /\ pr_images p
     = List.map (fun img => default ""%string (Tag_get img "src"))
                (find_all "img" soup)
  /\ pr_main_text p
     = Str.join " " (List.map (fun p => clean_text (Some (get_text p)))
                              (find_all "p" soup))
  /\ mapM_result (extract_link urljoin base_url)
                 (find_all_having "a" "href" soup) = Ok (pr_links p).
Proof.
  unfold extract_page_data.
  destruct (mapM_result _ _) as [links|msg]; simpl; [|discriminate].
  intros [= <-]. simpl. auto 10.
Qed.

Lemma clean_text_default (o : option string) :
  clean_text (Some (default ""%string o)) = clean_text o.
Proof. destruct o; reflexivity. Qed.

Lemma clean_text_clean (text : option string) :
  clean_text (Some (clean_text text)) = clean_text text.
Proof. apply clean_text_fixed, clean_text_normalized. Qed.

(** X5: every text that [extract_page_data] stores for display is
    normalized, so cleaning it again changes nothing: the title, the meta
    description, every heading and the text of every link. *)
Theorem extracted_texts_are_clean (url : string) (soup : PageElement)
    (base_url now : string) (p : PageRecord) :
  extract_page_data urljoin url soup base_url now = Ok p ->
  clean_text (Some (pr_title p)) = pr_title p
  /\ clean_text (Some (pr_meta_description p)) = pr_meta_description p
  /\ (forall key hs h,
        (key, hs) ∈ pr_headings p -> h ∈ hs -> clean_text (Some h) = h)
  /\ (forall l, l ∈ pr_links p -> clean_text (Some (link_text l)) = link_text l).
Proof.
  intros Hp.
  pose proof (extract_page_data_fields _ _ _ _ _ Hp)
    as (Ht & Hm & Hh & _ & _ & Hl).
  split; [rewrite Ht; apply clean_text_clean|].
  split; [rewrite Hm; apply clean_text_clean|]. split.
  - intros key hs h Hk Hin. rewrite Hh in Hk.
    apply list_elem_of_In, in_map_iff in Hk as (i & [= <- <-] & _).
    apply list_elem_of_In, in_map_iff in Hin as (t & <- & _).
    apply (clean_text_clean (Some (get_text t))).
  - intros l Hin. apply mapM_result_Ok in Hl.
    apply list_elem_of_lookup in Hin as [i Hi].
    destruct (Forall2_lookup_r _ _ _ _ _ Hl Hi) as (a & _ & Ha).
    unfold extract_link in Ha.
    destruct (urljoin _ _); simpl in Ha; [|discriminate].
    injection Ha as <-. apply (clean_text_clean (Some (get_text a))).
Qed.

(** X6: the headings of a record always have the six keys [h1] to [h6], in
    this order, also for levels without a heading, and each key holds one
    entry per heading tag of its level. *)
Theorem headings_have_six_keys (url : string) (soup : PageElement)
    (base_url now : string) (p : PageRecord) :
  extract_page_data urljoin url soup base_url now = Ok p ->
  List.map fst (pr_headings p)
  = ["h1"; "h2"; "h3"; "h4"; "h5"; "h6"]%string
  /\ (forall key hs,
        (key, hs) ∈ pr_headings p ->
        length hs = length (find_all key soup)).
Proof.
  intros Hp.
  pose proof (extract_page_data_fields _ _ _ _ _ Hp)
    as (_ & _ & Hh & _).
  rewrite Hh. split; [reflexivity|].
  intros key hs Hk.
  apply list_elem_of_In, in_map_iff in Hk as (i & [= <- <-] & _).
  apply length_map.
Qed.

Lemma mapM_result_Raise {A B : Type} (f : A -> Result B) (xs : list A)
    (msg : string) :
  mapM_result f xs = Raise msg
  <-> exists before x after,
        xs = before ++ x :: after
        /\ Forall (fun b => exists y, f b = Ok y) before
        /\ f x = Raise msg.
Proof.
  induction xs as [|x xs IH]; simpl.
  - split; [discriminate|].
    intros (before & x & after & Heq & _). destruct before; discriminate.
  - destruct (f x) as [y|m] eqn:Hx; simpl.
    + destruct (mapM_result f xs) as [ys|m] eqn:Hm; simpl.
      * split; [discriminate|].
        intros ([|b before] & x' & after & Heq & Hb & Hr);
          injection Heq as -> ->; [congruence|].
        apply Forall_cons in Hb as [_ Hb].
        enough (@Ok (list B) ys = Raise msg) by discriminate.
        apply IH. eauto 10.
      * split.
        -- intros [= ->]. destruct (proj1 IH eq_refl)
             as (before & x' & after & -> & Hb & Hr).
           exists (x :: before), x', after. repeat split; [|exact Hr].
           constructor; eauto.
        -- intros ([|b before] & x' & after & Heq & Hb & Hr);
             injection Heq as -> ->; [congruence|].
           apply Forall_cons in Hb as [_ Hb]. apply IH. eauto 10.
    + split.
      * intros [= ->]. exists [], x, xs. repeat split; [constructor|exact Hx].
      * intros ([|b before] & x' & after & Heq & Hb & Hr);
          injection Heq as -> ->; [congruence|].
        apply Forall_cons in Hb as [[y Hy] _]. congruence.
Qed.

(** X7: [extract_page_data] raises exactly when [urljoin] raises for the
    [href] of some anchor; the exception is the one of the first such anchor
    in document order.  Nothing else in the extractor raises. *)
Theorem extract_raises_iff_urljoin_raises (url : string) (soup : PageElement)
    (base_url now msg : string) :
  extract_page_data urljoin url soup base_url now = Raise msg
  <-> exists before a after,
        find_all_having "a" "href" soup = before ++ a :: after
        /\ Forall (fun b => exists u,
                     urljoin base_url (default ""%string (Tag_get b "href"))
                     = Ok u) before
        /\ urljoin base_url (default ""%string (Tag_get a "href"))
           = Raise msg.
Proof.
  assert (Hlink : forall a m,
            extract_link urljoin base_url a = Raise m
            <-> urljoin base_url (default ""%string (Tag_get a "href"))
                = Raise m).
  { intros a m. unfold extract_link.
    destruct (urljoin _ _); simpl; split; congruence. }
  assert (Hok : forall a,
            (exists l, extract_link urljoin base_url a = Ok l)
            <-> exists u, urljoin base_url
                            (default ""%string (Tag_get a "href")) = Ok u).
  { intros a. unfold extract_link.
    destruct (urljoin _ _); simpl; split; intros [x Hx];
      try discriminate; eauto. }
  transitivity (mapM_result (extract_link urljoin base_url)
                  (find_all_having "a" "href" soup) = Raise msg).
  - unfold extract_page_data.
    destruct (mapM_result _ _); simpl; split; congruence.
  - rewrite mapM_result_Raise. split;
      intros (before & a & after & Heq & Hb & Hr);
      exists before, a, after; (split; [exact Heq|]);
      (split; [|apply Hlink; exact Hr]);
      (eapply Forall_impl; [exact Hb|]); intros b; apply Hok.
Qed.

(** X8: [num_links] counts the anchors of the document that carry an [href]
    attribute (anchors without one are not recorded), and [num_images]
    counts its [img] tags, with or without [src]. *)
Theorem counts_are_tag_counts (url : string) (soup : PageElement)
    (base_url now : string) (p : PageRecord) :
  extract_page_data urljoin url soup base_url now = Ok p ->
  pr_num_links p = len (find_all_having "a" "href" soup)
  /\ pr_num_images p = len (find_all "img" soup).
Proof.
  intros Hp.
  pose proof (extract_page_data_fields _ _ _ _ _ Hp)
    as (_ & _ & _ & Hi & _ & Hl).
  apply extract_page_data_Ok in Hp as (_ & _ & Hnl & Hni & _).
  rewrite Hnl, Hni, Hi. unfold len. rewrite length_map.
  apply mapM_result_Ok, Forall2_length in Hl. rewrite Hl. auto.
Qed.

(** X9: the title of a record.  Without a [title] tag it is the text
    ["No title found"]; when the first [title] tag holds one text node it is
    that text, cleaned; when the first [title] tag has no child or several
    children it is empty, not the fallback text. *)
Theorem title_of_record (url : string) (soup : PageElement)
    (base_url now : string) (p : PageRecord) :
  extract_page_data urljoin url soup base_url now = Ok p ->
  (find_all "title" soup = [] -> pr_title p = "No title found"%string)
  /\ (forall name attrs s rest,
        find_all "title" soup = Tag name attrs [NavigableString s] :: rest ->
        pr_title p = clean_text (Some s))
  /\ (forall name attrs contents rest,
        find_all "title" soup = Tag name attrs contents :: rest ->
        length contents <> 1%nat ->
        pr_title p = ""%string).
Proof.
  intros Hp.
  pose proof (extract_page_data_fields _ _ _ _ _ Hp) as (Ht & _).
  rewrite Ht. split; [|split].
  - intros ->. reflexivity.
  - intros name attrs s rest ->. reflexivity.
  - intros name attrs contents rest -> Hlen. simpl.
    destruct contents as [|c [|c' contents]]; simpl in *;
      [reflexivity | congruence | reflexivity].
Qed.

(** X10: the meta description of a record.  The first
    [meta name="description"] tag wins, also when it has no [content]
    attribute (the description is then empty); only without such a tag is
    the first [meta property="og:description"] tag used; without either the
    description is empty. *)
Theorem meta_description_of_record (url : string) (soup : PageElement)
    (base_url now : string) (p : PageRecord) :
  extract_page_data urljoin url soup base_url now = Ok p ->
  (forall m,
     find_attr "meta" "name" "description" soup = Some m ->
     pr_meta_description p = clean_text (Tag_get m "content"))
  /\ (find_attr "meta" "name" "description" soup = None ->
      forall m,
        find_attr "meta" "property" "og:description" soup = Some m ->
        pr_meta_description p = clean_text (Tag_get m "content"))
  /\ (find_attr "meta" "name" "description" soup = None ->
      find_attr "meta" "property" "og:description" soup = None ->
      pr_meta_description p = ""%string).
Proof.
  intros Hp.
  pose proof (extract_page_data_fields _ _ _ _ _ Hp) as (_ & Hm & _).
  rewrite Hm. split; [|split].
  - intros m ->. apply clean_text_default.
  - intros -> m ->. apply clean_text_default.
  - intros -> ->. reflexivity.
Qed.

End ExtractorExtras.

(** ** [scrape_website]: the loop *)

Section LoopExtras.

Local Open Scope list_scope.

Context (urljoin : string -> string -> Result string)
        (requests_get : nat -> string -> Result Response)
        (BeautifulSoup : string -> PageElement)
        (now : nat -> string)
        (base_url : string) (max_depth max_pages : Z).

Local Abbreviation cond := (loop_cond max_pages).
Local Abbreviation body :=
  (loop_body urljoin requests_get BeautifulSoup now base_url max_depth).
Local Abbreviation fetch :=
  (fetch_page urljoin requests_get BeautifulSoup now base_url).
Local Abbreviation turns :=
  (turn urljoin requests_get BeautifulSoup now base_url max_depth).

Lemma discovered_from_app (l l' : list Event) (u : string) (d : Z) :
  discovered_from l u d -> discovered_from (l ++ l') u d.
Proof.
  intros (i & parent & p & lk & Hi & H).
  exists i, parent, p, lk. split; [|exact H].
  apply lookup_app_l_Some. exact Hi.
Qed.

(** The request appended to the log was made for the pair at the head of
    the queue, and older requests keep their origin. *)
Lemma provenance_snoc (url : string) (l : list Event) (e : Event) :
  (forall j e',
     l !! j = Some e' ->
     (ev_url e' = url /\ ev_depth e' = 0)
     \/ discovered_from (take j l) (ev_url e') (ev_depth e')) ->
  ((ev_url e, ev_depth e) = (url, 0)
   \/ discovered_from l (ev_url e) (ev_depth e)) ->
  forall j e',
    (l ++ [e]) !! j = Some e' ->
    (ev_url e' = url /\ ev_depth e' = 0)
    \/ discovered_from (take j (l ++ [e])) (ev_url e') (ev_depth e').
Proof.
  intros Hold Hnew j e' Hj.
  destruct (decide (j < length l)%nat) as [Hlt|Hge].
  - rewrite lookup_app_l in Hj by assumption.
    rewrite take_app_le by lia. auto.
  - rewrite lookup_app_r in Hj by lia.
    destruct (j - length l)%nat as [|k] eqn:Hk; simpl in Hj; [|discriminate].
    injection Hj as <-.
    replace j with (length l) by lia. rewrite take_app_length.
    destruct Hnew as [[= -> ->]|Hnew]; auto.
Qed.

Lemma provenance_inv_init (url : string) : provenance_inv url (init url).
Proof.
  split.
  - intros q Hq. apply list_elem_of_singleton in Hq. auto.
  - intros j e Hj. discriminate.
Qed.

Lemma provenance_inv_turn (url : string) (st st' : CrawlState) :
  turns st st' -> provenance_inv url st -> provenance_inv url st'.
Proof.
  intros Ht [Hq Hl].
  destruct Ht as [u d rest vis res l Hskip
                 |u d rest vis res l p Hu Hd Hf
                 |u d rest vis res l o Hu Hd Ho];
    unfold provenance_inv; simpl in *.
  - split; [|exact Hl].
    intros q Hin. apply Hq. apply elem_of_cons. auto.
  - assert (Hhead : (u, d) = (url, 0) \/ discovered_from l u d)
      by (apply (Hq (u, d)), elem_of_cons; auto).
    split; [|apply provenance_snoc; assumption].
    intros q Hin. apply elem_of_app in Hin as [Hin|Hin].
    + destruct (Hq q) as [->|H]; [apply elem_of_cons; auto|auto|].
      right. apply discovered_from_app. exact H.
    + right. apply new_links_spec in Hin as (Hd' & _ & lk & Hlk & Hu' & Hi & _).
      exists (length l), (mkEvent u d (Extracted p)), p, lk.
      rewrite list_lookup_middle by reflexivity. simpl. auto 10.
  - assert (Hhead : (u, d) = (url, 0) \/ discovered_from l u d)
      by (apply (Hq (u, d)), elem_of_cons; auto).
    split; [|apply provenance_snoc; assumption].
    intros q Hin. destruct (Hq q) as [->|H]; [apply elem_of_cons; auto|auto|].
    right. apply discovered_from_app. exact H.
Qed.

Lemma provenance_inv_body (url : string) (st : CrawlState) :
  provenance_inv url st -> cond st = true -> provenance_inv url (body st).
Proof.
  intros Hinv Hc. apply loop_cond_true in Hc as [Hq _].
  eapply provenance_inv_turn; [apply loop_body_turn; exact Hq | exact Hinv].
Qed.

Lemma extracted_urls_requested (l : list Event) (u : string) :
  u ∈ extracted_urls l -> u ∈ List.map ev_url l.
Proof.
  induction l as [|e l IH]; simpl; [trivial|].
  unfold extracted_urls. simpl. fold (extracted_urls l).
  destruct (page_of (ev_outcome e)); simpl.
  - intros H. apply elem_of_cons in H as [->|H].
    + apply list_elem_of_here.
    + apply list_elem_of_further. auto.
  - intros H. apply list_elem_of_further. auto.
Qed.

Lemma coverage_inv_init (url : string) : coverage_inv max_depth (init url).
Proof. intros i parent p lk Hi. discriminate. Qed.

Lemma coverage_inv_turn (st st' : CrawlState) :
  turns st st' -> log_inv max_depth st ->
  coverage_inv max_depth st -> coverage_inv max_depth st'.
Proof.
  intros Ht (_ & _ & Hvis & _) Hcov.
  destruct Ht as [u d rest vis res l Hskip
                 |u d rest vis res l p Hu Hd Hf
                 |u d rest vis res l o Hu Hd Ho];
    unfold coverage_inv in *; simpl in *.
  - intros i parent p lk Hi Ho Hdep Hlk Hint.
    destruct (Hcov i parent p lk Hi Ho Hdep Hlk Hint) as [H|H]; [auto|].
    apply elem_of_cons in H as [[= Hu' Hd']|H]; [|auto].
    left. destruct Hskip as [Hv|Hd'']; [|lia].
    rewrite Hu'. apply extracted_urls_requested.
    rewrite <- (elem_of_list_to_set (C := gset string)), <- Hvis. exact Hv.
  - intros i parent p' lk Hi Ho Hdep Hlk Hint.
    rewrite map_app. simpl.
    destruct (decide (i < length l)%nat) as [Hlt|Hge].
    + rewrite lookup_app_l in Hi by assumption.
      destruct (Hcov i parent p' lk Hi Ho Hdep Hlk Hint) as [H|H].
      * left. apply elem_of_app. auto.
      * apply elem_of_cons in H as [[= Hu' Hd']|H].
        -- left. apply elem_of_app. right. rewrite Hu'.
           apply list_elem_of_here.
        -- right. apply elem_of_app. auto.
    + rewrite lookup_app_r in Hi by lia.
      destruct (i - length l)%nat as [|k]; simpl in Hi; [|discriminate].
      injection Hi as <-. simpl in *. injection Ho as <-.
      destruct (decide (link_url lk ∈ vis)) as [Hv|Hv].
      * left. apply elem_of_app. left. apply extracted_urls_requested.
        rewrite <- (elem_of_list_to_set (C := gset string)), <- Hvis.
        exact Hv.
      * right. apply elem_of_app. right. unfold new_links.
        replace (d <? max_depth) with true by lia.
        apply list_elem_of_In, in_map_iff. exists lk. split; [reflexivity|].
        apply filter_In. split; [apply list_elem_of_In; exact Hlk|].
        rewrite Hint. simpl. apply negb_true_iff, bool_decide_eq_false_2.
        exact Hv.
  - intros i parent p lk Hi Hout Hdep Hlk Hint.
    rewrite map_app. simpl.
    destruct (decide (i < length l)%nat) as [Hlt|Hge].
    + rewrite lookup_app_l in Hi by assumption.
      destruct (Hcov i parent p lk Hi Hout Hdep Hlk Hint) as [H|H].
      * left. apply elem_of_app. auto.
      * apply elem_of_cons in H as [[= Hu' Hd']|H]; [|auto].
        left. apply elem_of_app. right. rewrite Hu'.
        apply list_elem_of_here.
    + rewrite lookup_app_r in Hi by lia.
      destruct (i - length l)%nat as [|k]; simpl in Hi; [|discriminate].
      injection Hi as <-. simpl in Hout. rewrite Hout in Ho. discriminate.
Qed.

Lemma coverage_inv_body (st : CrawlState) :
  log_inv max_depth st /\ coverage_inv max_depth st ->
  cond st = true ->
  log_inv max_depth (body st) /\ coverage_inv max_depth (body st).
Proof.
  intros [Hlog Hcov] Hc. apply loop_cond_true in Hc as [Hq _].
  pose proof (loop_body_turn urljoin requests_get BeautifulSoup now
                base_url max_depth st Hq) as Ht.
  split; [eapply log_inv_turn | eapply coverage_inv_turn]; eassumption.
Qed.

(** The turn on an entry that passes the guard and whose page is
    extracted. *)
Lemma loop_body_page (st : CrawlState) (u : string) (d : Z)
    (rest : list (string * Z)) (p : PageRecord) :
  to_visit st = (u, d) :: rest ->
  u ∉ visited st -> d <= max_depth ->
  fetch (length (log st)) u = Ok (Some p) ->
  body st
  = {| to_visit := rest ++ new_links max_depth (visited st) d p;
       visited := {[u]} ∪ visited st;
       results := results st ++ [p];
       log := log st ++ [mkEvent u d (Extracted p)] |}.
Proof.
  intros Hq Hu Hd Hf. unfold loop_body. rewrite Hq.
  rewrite (bool_decide_eq_false_2 _ Hu). simpl.
  replace (d >? max_depth) with false by lia.
  rewrite Hf. reflexivity.
Qed.

(** A page is extracted only from a response without an error status whose
    content type names HTML. *)
Lemma fetch_page_html (t : nat) (u : string) (p : PageRecord) :
  fetch t u = Ok (Some p) ->
  exists response,
    requests_get t u = Ok response
    /\ ~ (400 <= status_code response < 600)
    /\ Str.contains "text/html" (default ""%string (content_type response))
       = true
    /\ extract_page_data urljoin u (BeautifulSoup (text response))
                         base_url (now (S t)) = Ok p.
Proof.
  unfold fetch_page, raise_for_status.
  destruct (requests_get t u) as [response|msg]; simpl; [|discriminate].
  destruct ((400 <=? status_code response) && (status_code response <? 600))
    eqn:Hs; simpl; [discriminate|].
  destruct (Str.contains _ _) eqn:Hc; simpl; [|discriminate].
  destruct (extract_page_data _ _ _ _ _) as [p'|msg] eqn:He; simpl;
    [|discriminate].
  intros [= <-]. exists response. repeat split; try assumption. lia.
Qed.

End LoopExtras.

(** ** [scrape_website]: the crawl *)

Section CrawlExtras.

Local Open Scope list_scope.

Context (urlparse : string -> Result ParseResult)
        (urljoin : string -> string -> Result string)
        (requests_get : nat -> string -> Result Response)
        (BeautifulSoup : string -> PageElement)
        (now : nat -> string).

Local Abbreviation scrape :=
  (scrape_website urlparse urljoin requests_get BeautifulSoup now).
Local Abbreviation requests :=
  (crawl_log urlparse urljoin requests_get BeautifulSoup now).
Local Abbreviation final :=
  (crawl_loop urljoin requests_get BeautifulSoup now).
Local Abbreviation body :=
  (loop_body urljoin requests_get BeautifulSoup now).
Local Abbreviation fetch :=
  (fetch_page urljoin requests_get BeautifulSoup now).

Lemma final_provenance_inv (base_url url : string) (max_depth max_pages : Z) :
  provenance_inv url (final base_url max_depth max_pages (init url)).
Proof.
  apply crawl_loop_invariant;
    [apply provenance_inv_body | apply provenance_inv_init].
Qed.

Lemma final_coverage_inv (base_url url : string) (max_depth max_pages : Z) :
  coverage_inv max_depth (final base_url max_depth max_pages (init url)).
Proof.
  apply (crawl_loop_invariant urljoin requests_get BeautifulSoup now
           base_url max_depth max_pages
           (fun st => log_inv max_depth st /\ coverage_inv max_depth st)).
  - apply coverage_inv_body.
  - split; [apply log_inv_init | apply coverage_inv_init].
Qed.

Lemma final_pages_inv (base_url url : string) (max_depth max_pages : Z) :
  pages_inv urljoin requests_get BeautifulSoup now base_url
            (final base_url max_depth max_pages (init url)).
Proof.
  apply crawl_loop_invariant; [apply pages_inv_body | constructor].
Qed.

Lemma final_cond (base_url url : string) (max_depth max_pages : Z) :
  loop_cond max_pages (final base_url max_depth max_pages (init url)) = false.
Proof.
  apply (crawl_loop_invariant urljoin requests_get BeautifulSoup now
           base_url max_depth max_pages (fun _ => True)); auto.
Qed.

Lemma recorded_lookup (l : list Event) (i : nat) (e : Event)
    (p : PageRecord) :
  l !! i = Some e -> ev_outcome e = Extracted p ->
  p ∈ List.map fst (recorded l).
Proof.
  revert i; induction l as [|e' l IH]; intros i Hi Ho; [discriminate|].
  unfold recorded. simpl. fold (recorded l).
  destruct i as [|i]; simpl in Hi.
  - injection Hi as ->. rewrite Ho. simpl. apply list_elem_of_here.
  - destruct (page_of (ev_outcome e')); simpl;
      [apply list_elem_of_further|]; eapply IH; eassumption.
Qed.

(** X11: every request of a crawl has a reason.  It is made for the seed at
    depth 0, or for the URL of an internal link found on a page that an
    earlier request extracted, one level below that page. *)
Theorem requests_come_from_links (url : string) (max_depth max_pages : Z)
    (j : nat) (e : Event) :
  requests url max_depth max_pages !! j = Some e ->
  (ev_url e = url /\ ev_depth e = 0)
  \/ exists (i : nat) (parent : Event) (p : PageRecord) (lk : Link),
       (i < j)%nat
       /\ requests url max_depth max_pages !! i = Some parent
       /\ ev_outcome parent = Extracted p
       /\ ev_depth e = ev_depth parent + 1
       /\ lk ∈ pr_links p
       /\ link_is_internal lk = true
       /\ link_url lk = ev_url e.
Proof.
  unfold crawl_log.
  destruct (get_base_url urlparse url) as [base_url|msg]; [|discriminate].
  intros Hj.
  destruct (final_provenance_inv base_url url max_depth max_pages)
    as [_ Hlog].
  destruct (Hlog j e Hj) as [H|(i & parent & p & lk & Hi & H)]; [auto|].
  right. apply lookup_take_Some in Hi as [Hi Hlt].
  exists i, parent, p, lk. auto.
Qed.

(** X12: every URL that a crawl requests is the seed itself or contains the
    string [scheme://netloc] of the seed somewhere in it.  Nothing more is
    tested: the URL may be on another host. *)
Theorem requests_contain_origin (url base_url : string)
    (max_depth max_pages : Z) (e : Event) :
  get_base_url urlparse url = Ok base_url ->
  e ∈ requests url max_depth max_pages ->
  ev_url e = url \/ Str.contains base_url (ev_url e) = true.
Proof.
  intros Hb He. unfold crawl_log in He. rewrite Hb in He.
  apply list_elem_of_lookup in He as [j Hj].
  destruct (final_provenance_inv base_url url max_depth max_pages)
    as [_ Hlog].
  destruct (Hlog j e Hj)
    as [[H _]|(i & parent & p & lk & Hi & Ho & _ & Hlk & Hint & <-)];
    [auto|].
  right. apply lookup_take_Some in Hi as [Hi _].
  pose proof (recorded_lookup _ _ _ _ Hi Ho) as Hp.
  destruct (final_log_inv urljoin requests_get BeautifulSoup now
              base_url url max_depth max_pages) as (Hres & _).
  rewrite <- Hres in Hp.
  pose proof (final_pages_inv base_url url max_depth max_pages) as Hpages.
  unfold pages_inv in Hpages. rewrite Forall_forall in Hpages.
  destruct (Hpages p Hp) as (t & u & Hf).
  apply fetch_page_Some in Hf as (response & _ & Hex).
  destruct (extract_page_data_link _ _ _ _ _ _ _ Hex Hlk) as (a & _ & Ha).
  apply extract_link_Ok in Ha as [_ Hc]. congruence.
Qed.

(** X13: the dictionary returned by [scrape_website] is consistent in every
    case.  [success] is true exactly when [data] holds a page; then there is
    no [error] and [total_pages] is the length of [data].  Otherwise [data]
    is empty, [total_pages] is absent, and [error] is either the fixed text
    for an empty crawl or the message of the exception raised while the base
    URL was computed. *)
Theorem envelope_is_consistent (url : string) (max_depth max_pages : Z) :
  let r := scrape url max_depth max_pages in
  (success r = true <-> data r <> [])
  /\ (success r = true ->
      error r = None /\ total_pages r = Some (len (data r))
      /\ is_Some (timestamp r))
  /\ (success r = false ->
      data r = [] /\ total_pages r = None /\ timestamp r = None
      /\ exists msg,
           error r = Some msg
           /\ (msg = "No pages could be crawled"%string
               \/ get_base_url urlparse url = Raise msg)).
Proof.
  unfold scrape_website.
  destruct (get_base_url urlparse url) as [base_url|msg]; simpl.
  - unfold finish.
    destruct (results (final base_url max_depth max_pages (init url)))
      as [|p ps] eqn:Hr; simpl.
    + split; [split; [discriminate | congruence]|].
      split; [discriminate|]. intros _. repeat split. eauto.
    + split; [split; [discriminate | reflexivity]|].
      split; [|discriminate]. intros _. repeat split. eauto.
  - split; [split; [discriminate | congruence]|].
    split; [discriminate|]. intros _. repeat split. eauto.
Qed.

(** X14: a seed that [is_valid_url] accepts gets past the setup: its base
    URL is [scheme://netloc] with both parts non-empty, and the only error
    [scrape_website] can then report is the one for an empty crawl. *)
Theorem valid_seed_reaches_loop (url : string) (max_depth max_pages : Z) :
  is_valid_url urlparse url = true ->
  (exists parsed,
     urlparse url = Ok parsed
     /\ scheme parsed <> ""%string /\ netloc parsed <> ""%string
     /\ get_base_url urlparse url
        = Ok (scheme parsed ++ "://" ++ netloc parsed)%string)
  /\ (error (scrape url max_depth max_pages) = None
      \/ error (scrape url max_depth max_pages)
         = Some "No pages could be crawled"%string).
Proof.
  unfold is_valid_url, scrape_website, get_base_url.
  destruct (urlparse url) as [parsed|msg]; [|discriminate]. simpl.
  intros H. apply andb_true_iff in H as [Hs Hn].
  apply negb_true_iff, String.eqb_neq in Hs, Hn.
  split; [exists parsed; auto|].
  unfold finish. destruct (results _); simpl; auto.
Qed.

(** X15: the loop stops only when it has nothing left to visit or when the
    page budget is used up: with [max_pages >= 0], when fewer than
    [max_pages] pages are returned the queue was emptied. *)
Theorem stops_when_exhausted_or_full (url base_url : string)
    (max_depth max_pages : Z) :
  get_base_url urlparse url = Ok base_url ->
  0 <= max_pages ->
  len (data (scrape url max_depth max_pages)) = max_pages
  \/ (len (data (scrape url max_depth max_pages)) < max_pages
      /\ to_visit (final base_url max_depth max_pages (init url)) = []).
Proof.
  intros Hb Hp. unfold scrape_website. rewrite Hb, finish_data.
  pose proof (final_cond base_url url max_depth max_pages) as Hc.
  pose proof (final_count urljoin requests_get BeautifulSoup now
                base_url url max_depth max_pages) as Hn.
  unfold loop_cond in Hc.
  destruct (to_visit (final base_url max_depth max_pages (init url))).
  - destruct (decide (len (results (final base_url max_depth max_pages
                                          (init url))) = max_pages));
      [auto | right; split; [lia | reflexivity]].
  - left. lia.
Qed.

(** X16: below the page budget the crawl is complete: when fewer than
    [max_pages] pages are returned, every internal link of every page
    extracted at a depth below [max_depth] was requested. *)
Theorem crawl_covers_internal_links (url base_url : string)
    (max_depth max_pages : Z) (i : nat) (parent : Event) (p : PageRecord)
    (lk : Link) :
  get_base_url urlparse url = Ok base_url ->
  len (data (scrape url max_depth max_pages)) < max_pages ->
  requests url max_depth max_pages !! i = Some parent ->
  ev_outcome parent = Extracted p ->
  ev_depth parent < max_depth ->
  lk ∈ pr_links p ->
  link_is_internal lk = true ->
  link_url lk ∈ List.map ev_url (requests url max_depth max_pages).
Proof.
  unfold scrape_website, crawl_log. intros Hb. rewrite Hb, finish_data.
  intros Hlt Hi Ho Hd Hlk Hint.
  pose proof (final_cond base_url url max_depth max_pages) as Hc.
  destruct (final_coverage_inv base_url url max_depth max_pages
              i parent p lk Hi Ho Hd Hlk Hint) as [H|H]; [exact H|].
  unfold loop_cond in Hc.
  destruct (to_visit (final base_url max_depth max_pages (init url)));
    [apply elem_of_nil in H; contradiction | lia].
Qed.

(** X17: without a budget nothing is requested: with [max_pages <= 0] or
    [max_depth < 0] the crawl makes no request and returns no page. *)
Theorem no_budget_no_request (url : string) (max_depth max_pages : Z) :
  max_pages <= 0 \/ max_depth < 0 ->
  crawl_log urlparse urljoin requests_get BeautifulSoup now
            url max_depth max_pages = []
  /\ data (scrape_website urlparse urljoin requests_get BeautifulSoup now
                          url max_depth max_pages) = []
  /\ success (scrape_website urlparse urljoin requests_get BeautifulSoup now
                             url max_depth max_pages) = false.
Proof.
  intros Hbudget.
  assert (Hlog : requests url max_depth max_pages = []).
  { unfold crawl_log.
    destruct (get_base_url urlparse url) as [base_url|msg]; [|reflexivity].
    destruct (loop_cond max_pages (init url)) eqn:Hc.
    - assert (Hd : max_depth < 0)
        by (unfold loop_cond in Hc; simpl in Hc; unfold len in Hc;
            simpl in Hc; apply Z.ltb_lt in Hc; lia).
      rewrite (crawl_loop_fuel urljoin requests_get BeautifulSoup now
                 base_url max_depth max_pages 1 (init url)
                 (mkCrawlState [] ∅ [] [])); [reflexivity|].
      simpl. rewrite Hc. unfold loop_body. simpl.
      replace (0 >? max_depth) with true by lia.
      rewrite orb_true_r. reflexivity.
    - rewrite (crawl_loop_fuel urljoin requests_get BeautifulSoup now
                 base_url max_depth max_pages 0 (init url) (init url));
        [reflexivity|].
      simpl. rewrite Hc. reflexivity. }
  assert (Hdata : data (scrape url max_depth max_pages) = [])
    by (rewrite scrape_website_data, Hlog; reflexivity).
  split; [exact Hlog|]. split; [exact Hdata|].
  unfold scrape_website in *.
  destruct (get_base_url urlparse url) as [base_url|msg]; [|reflexivity].
  rewrite finish_data in Hdata. unfold finish. rewrite Hdata. reflexivity.
Qed.

(** X18: every page returned comes from a response to a request for its own
    URL that did not have an error status (400 to 599) and whose
    [content-type] header is present and contains [text/html]. *)
Theorem pages_come_from_html_responses (url : string)
    (max_depth max_pages : Z) (p : PageRecord) :
  p ∈ data (scrape url max_depth max_pages) ->
  exists base_url t response,
    get_base_url urlparse url = Ok base_url
    /\ requests_get t (pr_url p) = Ok response
    /\ ~ (400 <= status_code response < 600)
    /\ (exists ctype, content_type response = Some ctype
                      /\ Str.contains "text/html" ctype = true)
    /\ extract_page_data urljoin (pr_url p) (BeautifulSoup (text response))
                         base_url (now (S t)) = Ok p.
Proof.
  unfold scrape_website.
  destruct (get_base_url urlparse url) as [base_url|msg];
    [|simpl; intros H; apply elem_of_nil in H; contradiction].
  rewrite finish_data. intros Hp.
  pose proof (final_pages_inv base_url url max_depth max_pages) as Hpages.
  unfold pages_inv in Hpages. rewrite Forall_forall in Hpages.
  destruct (Hpages p Hp) as (t & u & Hf).
  pose proof (fetch_page_url _ _ _ _ _ _ _ _ Hf) as ->.
  apply fetch_page_html in Hf as (response & Hr & Hs & Hc & He).
  exists base_url, t, response. repeat split; try assumption; try lia.
  destruct (content_type response) as [ctype|]; simpl in Hc;
    [eauto | discriminate].
Qed.

(** X19: a seed whose page has no internal link gives a crawl of exactly
    one page, whatever the depth allowed: with [max_depth >= 0] and
    [max_pages >= 1] the result is a success holding the seed's page
    alone, after a single request. *)
Theorem seed_without_internal_links (url base_url : string)
    (max_depth max_pages : Z) (p : PageRecord) :
  get_base_url urlparse url = Ok base_url ->
  fetch base_url 0 url = Ok (Some p) ->
  (forall lk, lk ∈ pr_links p -> link_is_internal lk = false) ->
  0 <= max_depth -> 1 <= max_pages ->
  scrape url max_depth max_pages
  = {| success := true; error := None; data := [p];
       total_pages := Some 1; timestamp := Some (now 2) |}
  /\ requests url max_depth max_pages = [mkEvent url 0 (Extracted p)].
Proof.
  intros Hb Hf Hext Hd Hp.
  assert (Hnew : new_links max_depth ∅ 0 p = []).
  { unfold new_links. destruct (0 <? max_depth); [|reflexivity].
    replace (List.filter _ (pr_links p)) with (@nil Link); [reflexivity|].
    symmetry. induction (pr_links p) as [|lk lks IH]; [reflexivity|].
    simpl. rewrite (Hext lk) by apply list_elem_of_here. simpl.
    apply IH. intros lk' Hin. apply Hext, list_elem_of_further, Hin. }
  assert (Hfinal : final base_url max_depth max_pages (init url)
                   = mkCrawlState [] ({[url]} ∪ ∅) [p]
                                  [mkEvent url 0 (Extracted p)]).
  { apply (crawl_loop_fuel _ _ _ _ _ _ _ 1). simpl.
    replace (loop_cond max_pages (init url)) with true
      by (unfold loop_cond, len; simpl; symmetry; apply Z.ltb_lt; lia).
    rewrite (loop_body_page urljoin requests_get BeautifulSoup now
               base_url max_depth (init url) url 0 [] p);
      [|reflexivity|apply not_elem_of_empty|exact Hd|exact Hf].
    simpl. rewrite Hnew. reflexivity. }
  unfold scrape_website, crawl_log. rewrite Hb, Hfinal. split; reflexivity.
Qed.

End CrawlExtras.

(** ** [display_page_analysis] *)

Section DisplayExtras.

Local Open Scope list_scope.

Context (urljoin : string -> string -> Result string)
        (load_image : string -> Result unit).

Local Abbreviation display := (display_page_analysis urljoin load_image).
Local Abbreviation images_of := (image_widgets urljoin load_image).

(** An image is drawn when [urljoin] and [st.image] both accept its
    source. *)
Lemma show_image_Ok (url : string) (i : Z) (img : string) (w : Widget) :
  show_image urljoin load_image url i img = Ok w
  <-> exists joined,
        urljoin url img = Ok joined
        /\ load_image joined = Ok tt
        /\ w = st_image joined ("Image " ++ str_of_Z (i + 1)) 300.
Proof.
  unfold show_image. split.
  - destruct (urljoin url img) as [joined|m]; cbv [mbind Result_bind];
      [|intros [=]].
    destruct (load_image joined) as [[]|m] eqn:Hl; [|intros [=]].
    intros [= <-]. eauto.
  - intros (joined & -> & Hl & ->). cbv [mbind Result_bind]. rewrite Hl.
    reflexivity.
Qed.

(** It raises when [urljoin] raises, or [st.image] does on the joined
    URL. *)
Lemma show_image_Raise (url : string) (i : Z) (img msg : string) :
  show_image urljoin load_image url i img = Raise msg
  <-> urljoin url img = Raise msg
      \/ exists joined,
           urljoin url img = Ok joined /\ load_image joined = Raise msg.
Proof.
  unfold show_image. split.
  - destruct (urljoin url img) as [joined|m]; cbv [mbind Result_bind].
    + destruct (load_image joined) as [[]|m] eqn:Hl; [intros [=]|].
      intros [= <-]. right. eauto.
    + intros [= <-]. left. reflexivity.
  - intros [->|(joined & -> & Hl)]; cbv [mbind Result_bind];
      [reflexivity|]. rewrite Hl. reflexivity.
Qed.

Lemma images_drawn_app (ws ws' : list Widget) :
  images_drawn (ws ++ ws') = images_drawn ws ++ images_drawn ws'.
Proof. unfold images_drawn. rewrite flat_map_app. apply List.filter_app. Qed.

Lemma images_drawn_writes (ws : list Widget) :
  Forall (fun w => exists body, w = st_write body) ws ->
  images_drawn ws = [].
Proof.
  induction 1 as [|w ws [body ->] _ IH]; [reflexivity|].
  change (st_write body :: ws) with ([st_write body] ++ ws).
  rewrite images_drawn_app, IH. reflexivity.
Qed.

Lemma heading_widgets_writes (headings : list (string * list string)) :
  Forall (fun w => exists body, w = st_write body) (heading_widgets headings).
Proof.
  unfold heading_widgets. apply Forall_concat, Forall_forall.
  intros ws Hws. apply list_elem_of_In, in_map_iff in Hws as (level & <- & _).
  destruct (headings_get _ _) as [[|h hs]|]; try constructor; eauto.
  apply Forall_forall. intros w Hw.
  apply list_elem_of_In, in_map_iff in Hw as (heading & <- & _). eauto.
Qed.

Lemma images_drawn_images (ws : list Widget) :
  Forall (fun w => is_image w = true) ws -> images_drawn ws = ws.
Proof.
  induction 1 as [|w ws Hw _ IH]; [reflexivity|].
  change (w :: ws) with ([w] ++ ws).
  rewrite images_drawn_app, IH. f_equal.
  destruct w; try discriminate. reflexivity.
Qed.

(** The image widgets: one per source, in order, numbered from [i + 1]. *)
Lemma image_widgets_from (url : string) (i : Z) (images : list string)
    (shown : list Widget) :
  mapM_result
    (fun '(i, img) => show_image urljoin load_image url i img)
    (enumerate_from i images) = Ok shown ->
  Forall2 (fun '(i, img) w =>
             exists joined,
               urljoin url img = Ok joined
               /\ load_image joined = Ok tt
               /\ w = st_image joined ("Image " ++ str_of_Z (i + 1)) 300)
          (enumerate_from i images) shown.
Proof.
  intros H. apply mapM_result_Ok in H.
  eapply Forall2_impl; [exact H|].
  intros [k img] w Hw. apply show_image_Ok. exact Hw.
Qed.

Lemma images_drawn_cons (w : Widget) (ws : list Widget) :
  images_drawn (w :: ws) = List.filter is_image (drawn w) ++ images_drawn ws.
Proof.
  change (w :: ws) with ([w] ++ ws). rewrite images_drawn_app.
  unfold images_drawn at 1. simpl. rewrite app_nil_r. reflexivity.
Qed.

Lemma images_drawn_expander (label : string) (contents : list Widget) :
  List.filter is_image (drawn (st_expander label contents))
  = images_drawn contents.
Proof. reflexivity. Qed.

(** What [display_page_analysis] draws when it returns: the only images are
    the widgets built by [image_widgets]. *)
Lemma display_page_analysis_Ok (page : PageRecord) (ws : list Widget) :
  display page = Ok ws ->
  exists shown,
    images_of (pr_url page) (pr_images page) = Ok shown
    /\ images_drawn ws = shown.
Proof.
  unfold display_page_analysis. intros H.
  match type of H with
  | mbind _ ?X = _ => destruct X as [images|msg] eqn:HX
  end; cbv [mbind Result_bind] in H; [|discriminate H].
  injection H as <-.
  assert (Himages : exists shown,
            images_of (pr_url page) (pr_images page) = Ok shown
            /\ images_drawn images = shown).
  { destruct (pr_images page) as [|img imgs].
    - injection HX as <-. exists []. split; reflexivity.
    - destruct (images_of (pr_url page) (img :: imgs))
        as [shown|msg] eqn:Hshown; cbv [mbind Result_bind] in HX;
        [|discriminate HX].
      injection HX as <-. exists shown. split; [reflexivity|].
      rewrite images_drawn_cons, images_drawn_expander, images_drawn_cons.
      change (images_drawn []) with (@nil Widget). rewrite app_nil_r.
      simpl. apply images_drawn_images.
      apply image_widgets_from in Hshown.
      clear -Hshown. induction Hshown as [|[k src] w xs ws' Hw _ IH];
        constructor; [|exact IH].
      destruct Hw as (joined & _ & _ & ->). reflexivity. }
  destruct Himages as (shown & Hshown & Hdrawn).
  exists shown. split; [exact Hshown|].
  rewrite 3!images_drawn_cons, images_drawn_app, 3!images_drawn_cons.
  rewrite !images_drawn_expander, Hdrawn.
  rewrite (images_drawn_writes _ (heading_widgets_writes _)).
  replace (images_drawn (link_widgets (pr_links page))) with (@nil Widget)
    by (destruct (pr_links page); reflexivity).
  destruct (pr_meta_description page); reflexivity.
Qed.

Lemma enumerate_from_length {A : Type} (i : Z) (xs : list A) :
  length (enumerate_from i xs) = length xs.
Proof.
  revert i; induction xs as [|x xs IH]; intros i; simpl; [reflexivity|].
  rewrite IH. reflexivity.
Qed.

Lemma enumerate_from_snd {A : Type} (i : Z) (xs : list A) :
  List.map snd (enumerate_from i xs) = xs.
Proof.
  revert i; induction xs as [|x xs IH]; intros i; simpl; [reflexivity|].
  rewrite IH. reflexivity.
Qed.

Lemma enumerate_from_app {A : Type} (i : Z) (xs ys : list A) :
  enumerate_from i (xs ++ ys)
  = enumerate_from i xs ++ enumerate_from (i + len xs) ys.
Proof.
  revert i; induction xs as [|x xs IH]; intros i; simpl.
  - unfold len. simpl. rewrite Z.add_0_r. reflexivity.
  - rewrite IH. do 3 f_equal. unfold len. simpl length. lia.
Qed.

(** X20: [display_page_analysis] shows at most five images: the first five
    sources of the record, in order, each joined against the URL of the
    page itself and captioned [Image 1], [Image 2], ...  Further images are
    counted in the text above them but not drawn. *)
Theorem display_draws_first_five_images (page : PageRecord)
    (ws : list Widget) :
  display_page_analysis urljoin load_image page = Ok ws ->
  length (images_drawn ws) = Nat.min 5 (length (pr_images page))
  /\ Forall2 (fun '(i, src) w =>
                exists joined,
                  urljoin (pr_url page) src = Ok joined
                  /\ load_image joined = Ok tt
                  /\ w = st_image joined ("Image " ++ str_of_Z (i + 1)) 300)
             (enumerate_from 0 (List.firstn 5 (pr_images page)))
             (images_drawn ws).
Proof.
  intros H. apply display_page_analysis_Ok in H as (shown & Hshown & ->).
  apply image_widgets_from in Hshown. split; [|exact Hshown].
  apply Forall2_length in Hshown.
  rewrite <- Hshown, enumerate_from_length. apply length_firstn.
Qed.

(** The image widgets raise at the first source that [urljoin] or
    [st.image] rejects. *)
Lemma image_widgets_Raise (url : string) (images : list string)
    (msg : string) :
  images_of url images = Raise msg
  <-> exists before img after,
        List.firstn 5 images = before ++ img :: after
        /\ Forall (fun b =>
                     exists u, urljoin url b = Ok u /\ load_image u = Ok tt)
                  before
        /\ (urljoin url img = Raise msg
            \/ exists u, urljoin url img = Ok u /\ load_image u = Raise msg).
Proof.
  unfold image_widgets. rewrite mapM_result_Raise. split.
  - intros (before & [k img] & after & Heq & Hb & Hr).
    exists (List.map snd before), img, (List.map snd after).
    split; [|split].
    + rewrite <- (enumerate_from_snd 0 (List.firstn 5 images)), Heq.
      rewrite map_app. reflexivity.
    + apply Forall_forall. intros b Hin.
      apply list_elem_of_In, in_map_iff in Hin as ([j b'] & <- & Hin).
      rewrite Forall_forall in Hb.
      destruct (Hb (j, b')) as [w Hw]; [apply list_elem_of_In; exact Hin|].
      apply show_image_Ok in Hw as (joined & Hj & Hl & _).
      exists joined. auto.
    + apply show_image_Raise in Hr. exact Hr.
  - intros (before & img & after & Heq & Hb & Hr).
    exists (enumerate_from 0 before), (0 + len before, img),
           (enumerate_from (0 + len before + 1) after).
    split; [|split].
    + rewrite Heq, enumerate_from_app. reflexivity.
    + apply Forall_forall. intros [j b] Hin.
      assert (Hb' : b ∈ before).
      { rewrite <- (enumerate_from_snd 0 before).
        apply list_elem_of_In, in_map_iff. exists (j, b).
        split; [reflexivity | apply list_elem_of_In; exact Hin]. }
      rewrite Forall_forall in Hb. destruct (Hb b Hb') as (u & Hu & Hl).
      eexists. apply show_image_Ok. eauto.
    + apply show_image_Raise. exact Hr.
Qed.

Lemma display_page_analysis_Raise (page : PageRecord) (msg : string) :
  display page = Raise msg
  <-> images_of (pr_url page) (pr_images page) = Raise msg.
Proof.
  unfold display_page_analysis.
  destruct (pr_images page) as [|img imgs].
  - cbv [mbind Result_bind]. split; discriminate.
  - destruct (images_of (pr_url page) (img :: imgs));
      cbv [mbind Result_bind]; split; congruence.
Qed.

(** X21: [display_page_analysis] raises exactly when, for one of the first
    five image sources of the record, [urljoin] raises on the source joined
    against the URL of the page, or [st.image] raises on the joined URL; the
    exception is the one of the first such source.  A source after the fifth
    cannot make it fail. *)
Theorem display_raises_iff_image_raises (page : PageRecord) (msg : string) :
  display_page_analysis urljoin load_image page = Raise msg
  <-> exists before img after,
        List.firstn 5 (pr_images page) = before ++ img :: after
        /\ Forall (fun b =>
                     exists u,
                       urljoin (pr_url page) b = Ok u
                       /\ load_image u = Ok tt)
                  before
        /\ (urljoin (pr_url page) img = Raise msg
            \/ exists u,
                 urljoin (pr_url page) img = Ok u
                 /\ load_image u = Raise msg).
Proof.
  rewrite display_page_analysis_Raise. apply image_widgets_Raise.
Qed.

End DisplayExtras.

Lemma substring_0_cons (n : nat) (c : ascii) (s : string) :
  String.substring 0 (S n) (String c s) = String c (String.substring 0 n s).
Proof. reflexivity. Qed.

Lemma substring_0_length (n : nat) (s : string) :
  String.length (String.substring 0 n s) = Nat.min n (String.length s).
Proof.
  revert n; induction s as [|c s IH]; intros [|n]; try reflexivity.
  rewrite substring_0_cons. simpl. rewrite IH. reflexivity.
Qed.

Lemma substring_0_all (n : nat) (s : string) :
  (String.length s <= n)%nat -> String.substring 0 n s = s.
Proof.
  revert n; induction s as [|c s IH]; intros [|n] H; try reflexivity.
  - simpl in H. lia.
  - rewrite substring_0_cons, IH; [reflexivity | simpl in H; lia].
Qed.

Lemma append_length (a b : string) :
  String.length (a ++ b) = (String.length a + String.length b)%nat.
Proof.
  induction a as [|c a IH]; [reflexivity|].
  rewrite append_String. simpl. rewrite IH. reflexivity.
Qed.

Lemma append_empty_r (a : string) : a ++ "" = a.
Proof.
  induction a as [|c a IH]; [reflexivity|].
  rewrite append_String, IH. reflexivity.
Qed.

Lemma chars_length (s : string) : length (chars s) = String.length s.
Proof.
  unfold chars. induction s as [|c s IH]; simpl; [reflexivity|].
  rewrite IH. reflexivity.
Qed.

(** X22: the [Title] metric of [display_page_analysis] shows at most 103
    characters: a title of up to 100 characters is shown as it is, a longer
    one is cut to its first 100 characters, followed by three dots. *)
Theorem title_metric_truncates (title : string) :
  (String.length (title_metric title) <= 103)%nat
  /\ ((String.length title <= 100)%nat -> title_metric title = title)
  /\ ((100 < String.length title)%nat ->
      title_metric title = String.substring 0 100 title ++ "..."
      /\ String.length (title_metric title) = 103%nat).
Proof.
  unfold title_metric, str_take, len. rewrite chars_length.
  destruct (Z.of_nat (String.length title) >? 100) eqn:Hlen.
  - assert (H : (100 < String.length title)%nat) by lia.
    assert (Hl : String.length (String.substring 0 100 title ++ "...")
                 = 103%nat).
    { rewrite append_length, substring_0_length.
      rewrite Nat.min_l by lia. reflexivity. }
    split; [lia|]. split; [lia | auto].
  - assert (H : (String.length title <= 100)%nat) by lia.
    rewrite append_empty_r, substring_0_all by exact H.
    split; [lia|]. split; [reflexivity | lia].
Qed.

(** ** [main] *)

Section MainExtras.

Local Open Scope list_scope.

Context (urlparse : string -> Result ParseResult)
        (urljoin : string -> string -> Result string)
        (requests_get : nat -> string -> Result Response)
        (BeautifulSoup : string -> PageElement)
        (now : nat -> string)
        (load_image : string -> Result unit)
        (to_csv : list SummaryRow -> string)
        (now_compact : string).

Local Abbreviation scrape :=
  (scrape_website urlparse urljoin requests_get BeautifulSoup now).
Local Abbreviation run :=
  (main urlparse urljoin requests_get BeautifulSoup now load_image
        to_csv now_compact).
Local Abbreviation on_scrape :=
  (scrape_single_page urlparse urljoin requests_get BeautifulSoup now).
Local Abbreviation on_crawl :=
  (start_crawling urlparse urljoin requests_get BeautifulSoup now).
Local Abbreviation results_of :=
  (show_results urljoin load_image to_csv now_compact).

(** A crawl of depth 0 returns no page or one page. *)
Lemma single_page_data (url : string) (max_pages : Z) :
  data (scrape url 0 max_pages) = []
  \/ exists p, data (scrape url 0 max_pages) = [p].
Proof.
  unfold scrape_website.
  destruct (get_base_url urlparse url) as [base_url|msg]; [|left; reflexivity].
  rewrite finish_data.
  destruct (depth_zero_final urljoin requests_get BeautifulSoup now
              base_url url max_pages) as [H|(p & _ & H)]; eauto.
Qed.

(** What pressing [Scrape Single Page] does to the session: nothing, unless
    it calls [st.rerun()], and then the session holds one page in the single
    view. *)
Lemma scrape_single_page_state (url : string) (state state' : SessionState)
    (ws : list Widget) (rerun : bool) :
  on_scrape url state = (state', ws, rerun) ->
  (rerun = false /\ state' = state)
  \/ (rerun = true
      /\ current_view state' = Some "single"%string
      /\ length (scraped_data state') = 1%nat).
Proof.
  unfold scrape_single_page.
  destruct (String.eqb url ""); [intros [= <- _ <-]; auto|].
  destruct (negb (is_valid_url urlparse url)); [intros [= <- _ <-]; auto|].
  destruct (success (scrape url 0 1)); [|intros [= <- _ <-]; auto].
  destruct (single_page_data url 1) as [->|[p ->]];
    intros [= <- _ <-]; auto.
Qed.

(** What pressing [Start Crawling] does to the session: nothing, unless it
    calls [st.rerun()], and then the session holds the pages of the crawl,
    at least one, and one summary row per page. *)
Lemma start_crawling_state (url : string) (max_depth max_pages : Z)
    (state state' : SessionState) (ws : list Widget) (rerun : bool) :
  on_crawl url max_depth max_pages state = (state', ws, rerun) ->
  (rerun = false /\ state' = state)
  \/ (rerun = true
      /\ current_view state' = Some "crawl"%string
      /\ scraped_data state' <> []
      /\ crawl_results state' = List.map summary_row (scraped_data state')).
Proof.
  unfold start_crawling.
  destruct (String.eqb url ""); [intros [= <- _ <-]; auto|].
  destruct (negb (is_valid_url urlparse url)); [intros [= <- _ <-]; auto|].
  destruct (success (scrape url max_depth max_pages)) eqn:Hs;
    [|intros [= <- _ <-]; auto].
  intros [= <- _ <-]. right. simpl. repeat split.
  unfold scrape_website in *.
  destruct (get_base_url urlparse url) as [base_url|msg]; [|discriminate].
  unfold finish in *. destruct (results _); [discriminate|].
  simpl. discriminate.
Qed.

(** How a run of [main] ends, by what the two buttons did. *)
Lemma main_cases (inputs : Inputs) (state : SessionState) :
  (exists state' ws,
     in_scrape_clicked inputs = true
     /\ on_scrape (in_url inputs) state = (state', ws, true)
     /\ run inputs state = Rerun state')
  \/ (exists state' ws,
        in_crawl_clicked inputs = true
        /\ on_crawl (in_url inputs) (in_max_depth inputs)
                    (in_max_pages inputs) state = (state', ws, true)
        /\ run inputs state = Rerun state')
  \/ (exists ws,
        results_of (in_selected_page inputs) state = Ok ws
        /\ exists controls, run inputs state = Shown state (controls ++ ws))
  \/ (exists msg,
        results_of (in_selected_page inputs) state = Raise msg
        /\ run inputs state = Crashed state msg).
Proof.
  unfold main.
  destruct (in_scrape_clicked inputs).
  - destruct (on_scrape (in_url inputs) state) as [[state1 ws1] rerun1] eqn:H1.
    pose proof (scrape_single_page_state _ _ _ _ _ H1)
      as [[-> ->]|(-> & _)]; [|left; eauto].
    right. destruct (in_crawl_clicked inputs).
    + destruct (on_crawl _ _ _ state) as [[state2 ws2] rerun2] eqn:H2.
      pose proof (start_crawling_state _ _ _ _ _ _ _ H2)
        as [[-> ->]|(-> & _)]; [|left; eauto].
      right. destruct (results_of _ state); [left | right]; eauto.
    + right. destruct (results_of _ state); [left | right]; eauto.
  - right. destruct (in_crawl_clicked inputs).
    + destruct (on_crawl _ _ _ state) as [[state2 ws2] rerun2] eqn:H2.
      pose proof (start_crawling_state _ _ _ _ _ _ _ H2)
        as [[-> ->]|(-> & _)]; [|left; eauto].
      right. destruct (results_of _ state); [left | right]; eauto.
    + right. destruct (results_of _ state); [left | right]; eauto.
Qed.

(** X23: every run of [main] keeps the session consistent: in the single
    view the session holds exactly one page, and in the crawl view it holds
    at least one page and a summary with one row per page, in the order of
    the pages.  A new session is consistent. *)
Theorem main_keeps_session_ok (inputs : Inputs) (state : SessionState) :
  session_ok new_session
  /\ (session_ok state -> session_ok (state_after (run inputs state))).
Proof.
  split; [split; discriminate|]. intros Hok.
  destruct (main_cases inputs state)
    as [(state' & ws & _ & H & ->)
       |[(state' & ws & _ & H & ->)
        |[(ws & _ & controls & ->)|(msg & _ & ->)]]]; simpl;
    try exact Hok.
  - apply scrape_single_page_state in H as [[[=] _]|(_ & Hview & Hlen)].
    split; [auto|]. rewrite Hview. discriminate.
  - apply start_crawling_state in H as [[[=] _]|(_ & Hview & Hne & Hrows)].
    split; [|auto]. rewrite Hview. discriminate.
Qed.

(** X24: a run of [main] changes the session only together with
    [st.rerun()]: a run that shows its widgets or ends in an exception
    leaves the session as it was, so a failed scrape or crawl, an empty or
    invalid URL never discard the results of an earlier one. *)
Theorem session_changes_only_on_rerun (inputs : Inputs)
    (state : SessionState) :
  match run inputs state with
  | Rerun state' =>
      current_view state' = Some "single"%string
      \/ current_view state' = Some "crawl"%string
  | Shown state' _ | Crashed state' _ => state' = state
  end.
Proof.
  destruct (main_cases inputs state)
    as [(state' & ws & _ & H & ->)
       |[(state' & ws & _ & H & ->)
        |[(ws & _ & controls & ->)|(msg & _ & ->)]]]; try reflexivity.
  - apply scrape_single_page_state in H as [[[=] _]|(_ & Hview & _)]. auto.
  - apply start_crawling_state in H as [[[=] _]|(_ & Hview & _)]. auto.
Qed.

(** X25: when the entry chosen in the select box is one of the pages of the
    session, as the select box guarantees, an exception that leaves [main]
    comes from one of the first five image sources of a page of the
    session: [urljoin] raised it on the source joined against the URL of
    that page, or [st.image] raised it on the joined URL. *)
Theorem main_crashes_only_on_image (inputs : Inputs)
    (state state' : SessionState) (msg : string) :
  (forall i, in_selected_page inputs = Some i ->
             (i < length (scraped_data state))%nat) ->
  run inputs state = Crashed state' msg ->
  exists page img,
    page ∈ scraped_data state
    /\ img ∈ List.firstn 5 (pr_images page)
    /\ (urljoin (pr_url page) img = Raise msg
        \/ exists u,
             urljoin (pr_url page) img = Ok u /\ load_image u = Raise msg).
Proof.
  intros Hsel Hrun.
  destruct (main_cases inputs state)
    as [(st & ws & _ & _ & H)
       |[(st & ws & _ & _ & H)
        |[(ws & _ & controls & H)|(msg' & Hshow & H)]]];
    rewrite H in Hrun; try discriminate.
  injection Hrun as _ <-.
  assert (Hpage : forall page,
            page ∈ scraped_data state ->
            display_page_analysis urljoin load_image page = Raise msg' ->
            exists page img,
              page ∈ scraped_data state
              /\ img ∈ List.firstn 5 (pr_images page)
              /\ (urljoin (pr_url page) img = Raise msg'
                  \/ exists u,
                       urljoin (pr_url page) img = Ok u
                       /\ load_image u = Raise msg')).
  { intros page Hin Hd.
    apply display_page_analysis_Raise, image_widgets_Raise in Hd
      as (before & img & after & Heq & _ & Hr).
    exists page, img. split; [exact Hin|]. split; [|exact Hr].
    rewrite Heq. apply elem_of_app. right. apply list_elem_of_here. }
  unfold show_results in Hshow.
  destruct (current_view state) as [view|]; [|discriminate].
  destruct (scraped_data state) as [|first others] eqn:Hdata; [discriminate|].
  destruct (String.eqb view "single").
  - destruct (display_page_analysis urljoin load_image first) eqn:Hd;
      cbv [mbind Result_bind] in Hshow; [discriminate|].
    injection Hshow as ->. eapply Hpage; [apply list_elem_of_here | exact Hd].
  - destruct (String.eqb view "crawl"); [|discriminate].
    destruct (in_selected_page inputs) as [i|] eqn:Hi;
      cbv [mbind Result_bind] in Hshow; [|discriminate].
    destruct ((first :: others) !! i) as [page|] eqn:Hlook.
    + destruct (display_page_analysis urljoin load_image page) eqn:Hd;
        [discriminate|].
      injection Hshow as ->.
      eapply Hpage; [eapply list_elem_of_lookup_2; exact Hlook | exact Hd].
    + apply lookup_ge_None in Hlook. specialize (Hsel i eq_refl). lia.
Qed.

End MainExtras.

(** ** The further properties at concrete inputs *)

(** The log of the crawl of the site to depth 2, [H : crawl_log ... = l]
    with [l] computed. *)
Ltac site_log H :=
  let st := fresh "st" in
  let Hrun := fresh "Hrun" in
  destruct (Site.run 10 2 10) as [st|] eqn:Hrun;
  [|vm_compute in Hrun; discriminate];
  pose proof (crawl_log_fuel Urllib.urlparse Urllib.urljoin Site.web
                Site.parser Site.clock 10 Site.seed Site.origin 2 10 st
                eq_refl Hrun) as H;
  vm_compute in Hrun; injection Hrun as <-; cbn [log] in H.

(** The result of that crawl, [H : scrape_website ... = r] with [r]
    computed. *)
Ltac site_result H :=
  let r := fresh "r" in
  let Hr := fresh "Hr" in
  destruct (scrape_website_fuel Urllib.urlparse Urllib.urljoin Site.web
              Site.parser Site.clock 10 Site.seed 2 10) as [r|] eqn:Hr;
  [|vm_compute in Hr; discriminate];
  pose proof (scrape_website_fuel_eq Urllib.urlparse Urllib.urljoin Site.web
                Site.parser Site.clock 10 Site.seed 2 10 r Hr) as H;
  vm_compute in Hr; injection Hr as <-.

(** X5 on the home page. *)
Lemma extracted_texts_are_clean_home :
  extract_page_data Urllib.urljoin Site.seed Site.home_soup Site.origin
                    "2024-01-01 00:00:01" = Ok Pages.home_record
  /\ clean_text (Some (pr_title Pages.home_record))
     = pr_title Pages.home_record.
Proof.
  assert (H : extract_page_data Urllib.urljoin Site.seed Site.home_soup
                Site.origin "2024-01-01 00:00:01" = Ok Pages.home_record)
    by (vm_compute; reflexivity).
  split; [exact H|].
  destruct (extracted_texts_are_clean Urllib.urljoin _ _ _ _ _ H) as [Ht _].
  exact Ht.
Defined.

(** X6 on the home page, which has headings of level 2 only. *)
Lemma headings_have_six_keys_home :
  extract_page_data Urllib.urljoin Site.seed Site.home_soup Site.origin
                    "2024-01-01 00:00:01" = Ok Pages.home_record
  /\ List.map fst (pr_headings Pages.home_record)
     = ["h1"; "h2"; "h3"; "h4"; "h5"; "h6"].
Proof.
  assert (H : extract_page_data Urllib.urljoin Site.seed Site.home_soup
                Site.origin "2024-01-01 00:00:01" = Ok Pages.home_record)
    by (vm_compute; reflexivity).
  split; [exact H|].
  destruct (headings_have_six_keys Urllib.urljoin _ _ _ _ _ H) as [Hk _].
  exact Hk.
Defined.

(** X8 on the home page: three anchors with [href], two [img] tags. *)
Lemma counts_are_tag_counts_home :
  extract_page_data Urllib.urljoin Site.seed Site.home_soup Site.origin
                    "2024-01-01 00:00:01" = Ok Pages.home_record
  /\ pr_num_links Pages.home_record
     = len (find_all_having "a" "href" Site.home_soup)
  /\ pr_num_images Pages.home_record = len (find_all "img" Site.home_soup).
Proof.
  assert (H : extract_page_data Urllib.urljoin Site.seed Site.home_soup
                Site.origin "2024-01-01 00:00:01" = Ok Pages.home_record)
    by (vm_compute; reflexivity).
  split; [exact H|].
  exact (counts_are_tag_counts Urllib.urljoin _ _ _ _ _ H).
Defined.

(** X9 on the home page, whose title tag holds one text node. *)
Lemma title_of_record_home :
  extract_page_data Urllib.urljoin Site.seed Site.home_soup Site.origin
                    "2024-01-01 00:00:01" = Ok Pages.home_record
  /\ pr_title Pages.home_record = clean_text (Some "Home").
Proof.
  assert (H : extract_page_data Urllib.urljoin Site.seed Site.home_soup
                Site.origin "2024-01-01 00:00:01" = Ok Pages.home_record)
    by (vm_compute; reflexivity).
  split; [exact H|].
  destruct (title_of_record Urllib.urljoin _ _ _ _ _ H) as (_ & Hone & _).
  apply (Hone "title" [] "Home"
           (List.tl (find_all "title" Site.home_soup))).
  reflexivity.
Defined.

(** X10 on a document whose [meta name="description"] has no [content]:
    the description is empty although an Open Graph description follows. *)
Lemma meta_description_of_record_described :
  exists p,
    extract_page_data Urllib.urljoin "https://ex.com/m" Pages.described_soup
                      Site.origin "2024-01-01 00:00:01" = Ok p
    /\ pr_meta_description p = "".
Proof.
  eexists. split; [vm_compute; reflexivity|].
  destruct (meta_description_of_record Urllib.urljoin "https://ex.com/m"
              Pages.described_soup Site.origin "2024-01-01 00:00:01" _
              eq_refl) as (Hname & _).
  apply (Hname (Tag "meta" [("name", "description")] [])). reflexivity.
Defined.

(** X11 on the site: the request for [/d] follows from the link on [/c]. *)
Lemma requests_come_from_links_site :
  exists e,
    crawl_log Urllib.urlparse Urllib.urljoin Site.web Site.parser Site.clock
              Site.seed 2 10 !! 4%nat = Some e
    /\ ev_url e = "https://ex.com/d"
    /\ ((ev_url e = Site.seed /\ ev_depth e = 0)
        \/ exists (i : nat) (parent : Event) (p : PageRecord) (lk : Link),
             (i < 4)%nat
             /\ crawl_log Urllib.urlparse Urllib.urljoin Site.web Site.parser
                          Site.clock Site.seed 2 10 !! i = Some parent
             /\ ev_outcome parent = Extracted p
             /\ ev_depth e = ev_depth parent + 1
             /\ lk ∈ pr_links p
             /\ link_is_internal lk = true
             /\ link_url lk = ev_url e).
Proof.
  site_log Hl.
  assert (He : exists e,
            crawl_log Urllib.urlparse Urllib.urljoin Site.web Site.parser
                      Site.clock Site.seed 2 10 !! 4%nat = Some e
            /\ ev_url e = "https://ex.com/d")
    by (rewrite Hl; eexists; split; reflexivity).
  destruct He as (e & He & Hu). exists e.
  split; [exact He|]. split; [exact Hu|].
  exact (requests_come_from_links Urllib.urlparse Urllib.urljoin Site.web
           Site.parser Site.clock Site.seed 2 10 4 e He).
Defined.

(** X12 on the site: the URL of the request for [/d] contains the origin. *)
Lemma requests_contain_origin_site :
  exists e,
    get_base_url Urllib.urlparse Site.seed = Ok Site.origin
    /\ e ∈ crawl_log Urllib.urlparse Urllib.urljoin Site.web Site.parser
                     Site.clock Site.seed 2 10
    /\ (ev_url e = Site.seed \/ Str.contains Site.origin (ev_url e) = true).
Proof.
  site_log Hl.
  assert (He : exists e,
            crawl_log Urllib.urlparse Urllib.urljoin Site.web Site.parser
                      Site.clock Site.seed 2 10 !! 4%nat = Some e)
    by (rewrite Hl; eexists; reflexivity).
  destruct He as (e & He). apply list_elem_of_lookup_2 in He.
  exists e. split; [reflexivity|]. split; [exact He|].
  exact (requests_contain_origin Urllib.urlparse Urllib.urljoin Site.web
           Site.parser Site.clock Site.seed Site.origin 2 10 e eq_refl He).
Defined.

(** A crawl that leaves the host of its seed: seeded with [https://ex.co/]
    it requests [https://ex.com/], whose URL begins with the origin
    [https://ex.co], and returns the page of that other host. *)
Lemma crawl_reaches_other_host :
  get_base_url Urllib.urlparse Pages.short_seed = Ok "https://ex.co"
  /\ netloc <$> Urllib.urlparse "https://ex.com/" = Ok "ex.com"
  /\ List.map ev_url
       (crawl_log Urllib.urlparse Urllib.urljoin Pages.short_web
                  Pages.short_parser Site.clock Pages.short_seed 1 10)
     = ["https://ex.co/"; "https://ex.com/"]
  /\ List.map pr_url
       (data (scrape_website Urllib.urlparse Urllib.urljoin Pages.short_web
                             Pages.short_parser Site.clock
                             Pages.short_seed 1 10))
     = ["https://ex.co/"; "https://ex.com/"].
Proof.
  split; [reflexivity|]. split; [reflexivity|].
  destruct (while Urllib.urljoin Pages.short_web Pages.short_parser
                  Site.clock "https://ex.co" 1 10 10 (init Pages.short_seed))
    as [st|] eqn:Hrun; [|vm_compute in Hrun; discriminate].
  pose proof (crawl_log_fuel Urllib.urlparse Urllib.urljoin Pages.short_web
                Pages.short_parser Site.clock 10 Pages.short_seed
                "https://ex.co" 1 10 st eq_refl Hrun) as Hlog.
  destruct (scrape_website_fuel Urllib.urlparse Urllib.urljoin
              Pages.short_web Pages.short_parser Site.clock 10
              Pages.short_seed 1 10) as [r|] eqn:Hr;
    [|vm_compute in Hr; discriminate].
  pose proof (scrape_website_fuel_eq Urllib.urlparse Urllib.urljoin
                Pages.short_web Pages.short_parser Site.clock 10
                Pages.short_seed 1 10 r Hr) as Hres.
  rewrite Hlog, Hres.
  vm_compute in Hrun. injection Hrun as <-.
  vm_compute in Hr. injection Hr as <-.
  split; reflexivity.
Qed.

(** X14 on the seed of the site. *)
Lemma valid_seed_reaches_loop_site :
  is_valid_url Urllib.urlparse Site.seed = true
  /\ (error (Site.crawl Site.seed 2 10) = None
      \/ error (Site.crawl Site.seed 2 10)
         = Some "No pages could be crawled").
Proof.
  assert (H : is_valid_url Urllib.urlparse Site.seed = true) by reflexivity.
  split; [exact H|]. unfold Site.crawl.
  destruct (valid_seed_reaches_loop Urllib.urlparse Urllib.urljoin Site.web
              Site.parser Site.clock Site.seed 2 10 H) as [_ He].
  exact He.
Defined.

(** X15 on the site, crawled with room for ten pages. *)
Lemma stops_when_exhausted_or_full_site :
  get_base_url Urllib.urlparse Site.seed = Ok Site.origin
  /\ 0 <= 10
  /\ (len (data (Site.crawl Site.seed 2 10)) = 10
      \/ (len (data (Site.crawl Site.seed 2 10)) < 10
          /\ to_visit (crawl_loop Urllib.urljoin Site.web Site.parser
                                  Site.clock Site.origin 2 10
                                  (init Site.seed)) = [])).
Proof.
  assert (H0 : 0 <= 10) by lia.
  split; [reflexivity|]. split; [exact H0|]. unfold Site.crawl.
  exact (stops_when_exhausted_or_full Urllib.urlparse Urllib.urljoin Site.web
           Site.parser Site.clock Site.seed Site.origin 2 10 eq_refl H0).
Defined.

(** X16 on the site: the link to [/b] on the home page was requested. *)
Lemma crawl_covers_internal_links_site :
  exists (parent : Event) (p : PageRecord) (lk : Link),
    crawl_log Urllib.urlparse Urllib.urljoin Site.web Site.parser Site.clock
              Site.seed 2 10 !! 0%nat = Some parent
    /\ ev_outcome parent = Extracted p
    /\ lk ∈ pr_links p
    /\ link_url lk = "https://ex.com/b"
    /\ link_url lk
       ∈ List.map ev_url
           (crawl_log Urllib.urlparse Urllib.urljoin Site.web Site.parser
                      Site.clock Site.seed 2 10).
Proof.
  site_log Hl. site_result Hr.
  assert (Hlt : len (data (scrape_website Urllib.urlparse Urllib.urljoin
                             Site.web Site.parser Site.clock Site.seed 2 10))
                < 10)
    by (rewrite Hr; reflexivity).
  assert (Hp : exists parent,
            crawl_log Urllib.urlparse Urllib.urljoin Site.web Site.parser
                      Site.clock Site.seed 2 10 !! 0%nat = Some parent
            /\ ev_outcome parent = Extracted Pages.home_record
            /\ ev_depth parent < 2)
    by (rewrite Hl; eexists; repeat split; reflexivity).
  destruct Hp as (parent & Hparent & Hout & Hdepth).
  exists parent, Pages.home_record, (mkLink "https://ex.com/b" "b" true).
  split; [exact Hparent|]. split; [exact Hout|].
  split; [apply list_elem_of_here|]. split; [reflexivity|].
  apply (crawl_covers_internal_links Urllib.urlparse Urllib.urljoin Site.web
           Site.parser Site.clock Site.seed Site.origin 2 10 0 parent
           Pages.home_record (mkLink "https://ex.com/b" "b" true)
           eq_refl Hlt Hparent Hout Hdepth);
    [apply list_elem_of_here | reflexivity].
Defined.

(** X17 on the site with no page allowed. *)
Lemma no_budget_no_request_site :
  (0 <= 0 \/ 2 < 0)
  /\ crawl_log Urllib.urlparse Urllib.urljoin Site.web Site.parser Site.clock
               Site.seed 2 0 = [].
Proof.
  assert (H : 0 <= 0 \/ 2 < 0) by (left; lia).
  split; [exact H|].
  destruct (no_budget_no_request Urllib.urlparse Urllib.urljoin Site.web
              Site.parser Site.clock Site.seed 2 0 H) as [Hlog _].
  exact Hlog.
Defined.

(** X18 on the site: the first page returned. *)
Lemma pages_come_from_html_responses_site :
  exists p,
    p ∈ data (Site.crawl Site.seed 2 10)
    /\ exists base_url t response,
         get_base_url Urllib.urlparse Site.seed = Ok base_url
         /\ Site.web t (pr_url p) = Ok response
         /\ ~ (400 <= status_code response < 600).
Proof.
  unfold Site.crawl. site_result Hr.
  assert (Hp : Pages.home_record
               ∈ data (scrape_website Urllib.urlparse Urllib.urljoin Site.web
                         Site.parser Site.clock Site.seed 2 10))
    by (rewrite Hr; apply list_elem_of_here).
  exists Pages.home_record. split; [exact Hp|].
  destruct (pages_come_from_html_responses Urllib.urlparse Urllib.urljoin
              Site.web Site.parser Site.clock Site.seed 2 10
              Pages.home_record Hp)
    as (base_url & t & response & Hb & Hget & Hstatus & _).
  exists base_url, t, response. auto.
Defined.

(** X19 on the site of one page. *)
Lemma seed_without_internal_links_leaf :
  fetch_page Urllib.urljoin Pages.leaf_web Pages.leaf_parser Site.clock
             "https://leaf.org" 0 Pages.leaf_seed
  = Ok (Some Pages.leaf_record)
  /\ 0 <= 3 /\ 1 <= 10
  /\ data (scrape_website Urllib.urlparse Urllib.urljoin Pages.leaf_web
             Pages.leaf_parser Site.clock Pages.leaf_seed 3 10)
     = [Pages.leaf_record].
Proof.
  assert (Hf : fetch_page Urllib.urljoin Pages.leaf_web Pages.leaf_parser
                 Site.clock "https://leaf.org" 0 Pages.leaf_seed
               = Ok (Some Pages.leaf_record)) by (vm_compute; reflexivity).
  assert (H0 : 0 <= 3) by lia. assert (H1 : 1 <= 10) by lia.
  split; [exact Hf|]. split; [exact H0|]. split; [exact H1|].
  assert (Hext : forall lk, lk ∈ pr_links Pages.leaf_record ->
                            link_is_internal lk = false).
  { intros lk Hin. apply list_elem_of_singleton in Hin as ->. reflexivity. }
  destruct (seed_without_internal_links Urllib.urlparse Urllib.urljoin
              Pages.leaf_web Pages.leaf_parser Site.clock Pages.leaf_seed
              "https://leaf.org" 3 10 Pages.leaf_record eq_refl Hf Hext
              H0 H1) as [Hr _].
  rewrite Hr. reflexivity.
Defined.

(** X20 on a record with six images. *)
Lemma display_draws_first_five_images_gallery :
  exists ws,
    display_page_analysis Urllib.urljoin Pages.load_image Pages.gallery
    = Ok ws
    /\ length (images_drawn ws) = 5%nat.
Proof.
  eexists. split; [vm_compute; reflexivity|].
  destruct (display_draws_first_five_images Urllib.urljoin Pages.load_image
              Pages.gallery _ eq_refl) as [Hlen _].
  exact Hlen.
Defined.

(** X25 on a session whose page has an image source that [urljoin] leaves
    as it is and [st.image] cannot load. *)
Lemma main_crashes_only_on_image_broken :
  Pages.run_main Pages.idle Pages.broken_session
  = Crashed Pages.broken_session "MediaFileStorageError"
  /\ exists page img,
       page ∈ scraped_data Pages.broken_session
       /\ img ∈ List.firstn 5 (pr_images page)
       /\ (Urllib.urljoin (pr_url page) img = Raise "MediaFileStorageError"
           \/ exists u,
                Urllib.urljoin (pr_url page) img = Ok u
                /\ Pages.load_image u = Raise "MediaFileStorageError").
Proof.
  assert (Hrun : Pages.run_main Pages.idle Pages.broken_session
                 = Crashed Pages.broken_session "MediaFileStorageError")
    by (vm_compute; reflexivity).
  split; [exact Hrun|].
  apply (main_crashes_only_on_image Urllib.urlparse Urllib.urljoin
           Site.web Site.parser Site.clock Pages.load_image (fun _ => "")
           "20240101_000000" Pages.idle Pages.broken_session
           Pages.broken_session "MediaFileStorageError"); [|exact Hrun].
  intros i Hi. discriminate Hi.
Defined.

(** ** The extractor and the display together, and single-page crawls *)

Section Compositions.

Local Open Scope list_scope.

Context (urlparse : string -> Result ParseResult)
        (urljoin : string -> string -> Result string)
        (requests_get : nat -> string -> Result Response)
        (BeautifulSoup : string -> PageElement)
        (now : nat -> string).

(** X26: for a record made by [extract_page_data], the [Headings] expander
    of [display_page_analysis] is empty exactly when the document has no
    heading tag of any level from 1 to 6. *)
Theorem headings_shown_iff_present (url : string) (soup : PageElement)
    (base_url t : string) (p : PageRecord) :
  extract_page_data urljoin url soup base_url t = Ok p ->
  heading_widgets (pr_headings p) = []
  <-> forall level, (1 <= level <= 6)%nat ->
                    find_all (heading_key level) soup = [].
Proof.
  intros Hp.
  pose proof (extract_page_data_fields _ _ _ _ _ _ Hp) as (_ & _ & Hh & _).
  rewrite Hh. unfold heading_widgets. cbn.
  split.
  - intros H level Hlevel.
    change (heading_key 1) with "h1"%string in H.
    change (heading_key 2) with "h2"%string in H.
    change (heading_key 3) with "h3"%string in H.
    change (heading_key 4) with "h4"%string in H.
    change (heading_key 5) with "h5"%string in H.
    change (heading_key 6) with "h6"%string in H.
    destruct (find_all "h1" soup) eqn:H1; [|simpl in H; discriminate H].
    destruct (find_all "h2" soup) eqn:H2; [|simpl in H; discriminate H].
    destruct (find_all "h3" soup) eqn:H3; [|simpl in H; discriminate H].
    destruct (find_all "h4" soup) eqn:H4; [|simpl in H; discriminate H].
    destruct (find_all "h5" soup) eqn:H5; [|simpl in H; discriminate H].
    destruct (find_all "h6" soup) eqn:H6; [|simpl in H; discriminate H].
    do 7 (destruct level as [|level]; [lia || assumption|]). lia.
  - intros H.
    rewrite (H 1%nat), (H 2%nat), (H 3%nat), (H 4%nat), (H 5%nat), (H 6%nat)
      by lia.
    reflexivity.
Qed.

Local Abbreviation requests :=
  (crawl_log urlparse urljoin requests_get BeautifulSoup now).
Local Abbreviation final :=
  (crawl_loop urljoin requests_get BeautifulSoup now).
Local Abbreviation body :=
  (loop_body urljoin requests_get BeautifulSoup now).

(** The log after the first turn: nothing, or one request for the seed at
    depth 0. *)
Lemma first_turn_log (base_url url : string) (max_depth : Z) :
  log (body base_url max_depth (init url)) = []
  \/ exists o, log (body base_url max_depth (init url)) = [mkEvent url 0 o].
Proof.
  assert (Hne : to_visit (init url) <> []) by discriminate.
  pose proof (loop_body_turn urljoin requests_get BeautifulSoup now
                base_url max_depth (init url) Hne) as Ht.
  remember (body base_url max_depth (init url)) as st eqn:Est.
  clear Est. unfold init in Ht.
  inversion Ht as [u d rest vis res l Hskip
                  |u d rest vis res l p Hu Hd Hf
                  |u d rest vis res l o Hu Hd Ho]; subst; simpl; eauto.
Qed.

(** X27: a crawl of depth 0, as the button [Scrape Single Page] starts it,
    makes at most one request, and that request is for the seed at
    depth 0: no link of the seed's page is followed. *)
Theorem depth_zero_single_request (url : string) (max_pages : Z) :
  (length (crawl_log urlparse urljoin requests_get BeautifulSoup now
                     url 0 max_pages) <= 1)%nat
  /\ (forall e,
        e ∈ crawl_log urlparse urljoin requests_get BeautifulSoup now
                      url 0 max_pages ->
        ev_url e = url /\ ev_depth e = 0).
Proof.
  unfold crawl_log.
  destruct (get_base_url urlparse url) as [base_url|msg].
  - assert (Hq : to_visit (body base_url 0 (init url)) = []).
    { destruct (first_turn urljoin requests_get BeautifulSoup now
                  base_url url 0) as [[Hq _]|(p & _ & Hq & _)]; exact Hq. }
    destruct (first_turn_last urljoin requests_get BeautifulSoup now
                base_url url 0 max_pages Hq) as [->| ->].
    + simpl. split; [lia|]. intros e He. apply elem_of_nil in He.
      contradiction.
    + destruct (first_turn_log base_url url 0) as [->|[o ->]]; simpl.
      * split; [lia|]. intros e He. apply elem_of_nil in He. contradiction.
      * split; [lia|]. intros e He.
        apply list_elem_of_singleton in He as ->. auto.
  - simpl. split; [lia|]. intros e He. apply elem_of_nil in He. contradiction.
Qed.

End Compositions.

(** X26 on the home page, which has two headings of level 2. *)
Lemma headings_shown_iff_present_home :
  extract_page_data Urllib.urljoin Site.seed Site.home_soup Site.origin
                    "2024-01-01 00:00:01" = Ok Pages.home_record
  /\ (heading_widgets (pr_headings Pages.home_record) = []
      <-> forall level, (1 <= level <= 6)%nat ->
                        find_all (heading_key level) Site.home_soup = []).
Proof.
  assert (H : extract_page_data Urllib.urljoin Site.seed Site.home_soup
                Site.origin "2024-01-01 00:00:01" = Ok Pages.home_record)
    by (vm_compute; reflexivity).
  split; [exact H|].
  exact (headings_shown_iff_present Urllib.urljoin _ _ _ _ _ H).
Defined.
